(** * edge-nhl: the session driver, the fragment extractor and the merger

    A shallow embedding of [edge_nhl/data_models.py], [edge_nhl/parsers.py]
    and [edge_nhl/client.py], with the properties of the specification
    stated and settled against it.

    Conventions of the model.
    - Python [str] is modelled by [string]: texts are sequences of 8-bit
      characters.  The builtins below are exact on ASCII text; what Python
      does with non-ASCII white space and non-ASCII decimal digits is outside
      the model, and the statements on what a given text parses to are made
      for texts of ASCII characters ([is_ascii]).
    - A Python [float] is modelled by its binary64 value (see [pyfloat]):
      the conversions from texts and integers round to the nearest double,
      a half to even, with underflow to zero and overflow to infinity.
    - Code that may raise returns a [result]; state that survives a raise
      (attributes of the client already assigned) is returned next to it.
    - Logging calls are left out, except where evaluating their arguments
      can raise ([len] of a value without length).  So are sleeping, the
      writing of raw frames to disk, and the options of the connection
      (headers, cookies, heartbeat, time-outs).
    - [json.loads] is modelled by a decoder of its grammar; [html.unescape]
      and the tree builder of [BeautifulSoup] are parameters ([HtmlLib]):
      the extractor is studied on every tree the builder may return. *)

From Stdlib Require Import ZArith NArith Ascii String List Bool Lia.
From stdpp Require Import base gmap strings list.

#[local] Set Warnings "-register-all,-clear-no-such-hyp".

Local Open Scope string_scope.
Local Open Scope list_scope.
Import ListNotations.

(** ** Exceptions and results *)

Inductive exn : Type :=
| TypeError
| AttributeError
| KeyError
| IndexError
| ValueError
| OverflowError.

Inductive result (A : Type) : Type :=
| Ok (a : A)
| Raise (e : exn).
Arguments Ok {A} a.
Arguments Raise {A} e.

#[global] Instance result_ret : MRet result := fun A a => Ok a.
#[global] Instance result_bind : MBind result := fun A B k r =>
  match r with
  | Ok a => k a
  | Raise e => Raise e
  end.

#[global] Instance result_fmap : FMap result := fun A B f r =>
  match r with
  | Ok a => Ok (f a)
  | Raise e => Raise e
  end.

(** ** Python builtins on text *)
Module Py.

(** The double quote, for texts that contain one. *)
Definition dquote : ascii := "034"%char.

Definition code (c : ascii) : N := N_of_ascii c.

(** [str.isspace] on one ASCII character: TAB..CR, FS..US and SPACE. *)
Definition isspace (c : ascii) : bool :=
  ((9 <=? code c) && (code c <=? 13) || (28 <=? code c) && (code c <=? 32))%N.

(** C [isspace] as used by [float]: TAB..CR and SPACE. *)
Definition c_isspace (c : ascii) : bool :=
  ((9 <=? code c) && (code c <=? 13) || (code c =? 32))%N.

Definition is_digit (c : ascii) : bool :=
  ((48 <=? code c) && (code c <=? 57))%N.

Definition digit_val (c : ascii) : N := (code c - 48)%N.

Definition to_lower (c : ascii) : ascii :=
  if ((65 <=? code c) && (code c <=? 90))%N then ascii_of_N (code c + 32) else c.

Fixpoint lower (s : string) : string :=
  match s with
  | EmptyString => EmptyString
  | String c r => String (to_lower c) (lower r)
  end.

Fixpoint lstrip_with (sp : ascii -> bool) (s : string) : string :=
  match s with
  | EmptyString => EmptyString
  | String c r => if sp c then lstrip_with sp r else s
  end.

Fixpoint rstrip_with (sp : ascii -> bool) (s : string) : string :=
  match s with
  | EmptyString => EmptyString
  | String c r =>
      match rstrip_with sp r with
      | EmptyString => if sp c then EmptyString else String c EmptyString
      | r' => String c r'
      end
  end.

(** [s.strip()] *)
Definition strip (s : string) : string := rstrip_with isspace (lstrip_with isspace s).

(** [s.replace(c, "")] for a one-character [c]. *)
Fixpoint remove_char (c : ascii) (s : string) : string :=
  match s with
  | EmptyString => EmptyString
  | String d r => if Ascii.eqb d c then remove_char c r else String d (remove_char c r)
  end.

(** [c in s] for a one-character [c]. *)
Fixpoint has_char (c : ascii) (s : string) : bool :=
  match s with
  | EmptyString => false
  | String d r => Ascii.eqb d c || has_char c r
  end.

(** [sub in s] *)
Fixpoint has_substring (sub s : string) : bool :=
  String.prefix sub s ||
  match s with
  | EmptyString => false
  | String _ r => has_substring sub r
  end.

(** [s.split()] : the maximal runs of non-space characters. *)
Fixpoint split_ws_aux (cur : string) (s : string) : list string :=
  match s with
  | EmptyString => match cur with EmptyString => [] | _ => [cur] end
  | String c r =>
      if isspace c
      then match cur with
           | EmptyString => split_ws_aux EmptyString r
           | _ => cur :: split_ws_aux EmptyString r
           end
      else split_ws_aux (cur +:+ String c EmptyString) r
  end.
Definition split_ws (s : string) : list string := split_ws_aux EmptyString s.

(** *** Floats *)

(** A binary64 value: [Finite neg m e] is (-1)^neg * m * 2^e, in canonical
    form: [m = 0] and [e = 0] for a zero, [2^52 <= m < 2^53] for a normal
    number, [m < 2^52] and [e = -1074] for a subnormal one. *)
Inductive pyfloat : Type :=
| Finite (neg : bool) (m : N) (e : Z)
| Infinity (neg : bool)
| NaN.

(** [n / d] rounded to the nearest integer, a half to the even neighbour. *)
Definition round_half_even (n d : Z) : Z :=
  let q := (n / d)%Z in
  match (2 * (n mod d) ?= d)%Z with
  | Lt => q
  | Gt => (q + 1)%Z
  | Eq => if Z.even q then q else (q + 1)%Z
  end.

(** The fraction [n / (d * 2^k)] as two integers. *)
Definition shift_ratio (n d k : Z) : Z * Z :=
  if (0 <=? k)%Z then (n, d * 2 ^ k)%Z else (n * 2 ^ (- k), d)%Z.

(** The double nearest to [num / den], for [0 <= num] and [0 < den], as
    the correctly rounded conversions of Python give it: round-half-even
    to 53 bits, gradual underflow below 2^-1022, infinity from 2^1024 - 2^970. *)
Definition nearest_double (neg : bool) (num den : Z) : pyfloat :=
  if (num =? 0)%Z then Finite neg 0 0
  else
    let k0 := (Z.log2 num - Z.log2 den)%Z in
    let '(a0, b0) := shift_ratio num den k0 in
    let k := if (a0 <? b0)%Z then (k0 - 1)%Z else k0 in     (* 2^k <= num/den < 2^(k+1) *)
    let e := Z.max (k - 52) (-1074) in
    let '(a, b) := shift_ratio num den e in
    let m := round_half_even a b in
    let '(m, e) := if (m =? 2 ^ 53)%Z then (2 ^ 52, e + 1)%Z else (m, e) in
    if (m =? 0)%Z then Finite neg 0 0
    else if (971 <? e)%Z then Infinity neg
    else Finite neg (Z.to_N m) e.

(** The float nearest to (-1)^neg * m * 10^e. *)
Definition of_decimal (neg : bool) (m : N) (e : Z) : pyfloat :=
  if (0 <=? e)%Z then nearest_double neg (Z.of_N m * 10 ^ e) 1
  else nearest_double neg (Z.of_N m) (10 ^ (- e)).

(** The float that a positive decimal literal denotes: [decimal 2291 (-2)] is 22.91. *)
Definition decimal (m : N) (e : Z) : pyfloat := of_decimal false m e.

Definition digits_to_N (ds : list N) : N :=
  fold_left (fun acc d => (acc * 10 + d)%N) ds 0%N.

Definition mk_finite (neg : bool) (ds : list N) (e : Z) : pyfloat :=
  of_decimal neg (digits_to_N ds) e.

(** [float(z)] for an [int] that is not too large. *)
Definition float_of_Z (z : Z) : pyfloat :=
  nearest_double (z <? 0)%Z (Z.abs z) 1.

Definition take_sign (s : string) : bool * string :=
  match s with
  | String "-" r => (true, r)
  | String "+" r => (false, r)
  | _ => (false, s)
  end.

Fixpoint span_digits (s : string) : list N * string :=
  match s with
  | EmptyString => ([], EmptyString)
  | String c r =>
      if is_digit c
      then let '(ds, r') := span_digits r in (digit_val c :: ds, r')
      else ([], s)
  end.

Definition is_e (c : ascii) : bool := Ascii.eqb c "e" || Ascii.eqb c "E".

Definition signed (neg : bool) (n : N) : Z :=
  if neg then (- Z.of_N n)%Z else Z.of_N n.

(** digits [. digits] [e [sign] digits], with a digit before the exponent. *)
Definition parse_decimal (neg : bool) (s : string) : option pyfloat :=
  let '(ip, r1) := span_digits s in
  let '(fp, r2) := match r1 with
                   | String "." t => span_digits t
                   | _ => ([], r1)
                   end in
  match ip ++ fp with
  | [] => None
  | ds =>
      let e0 := (- Z.of_nat (length fp))%Z in
      match r2 with
      | EmptyString => Some (mk_finite neg ds e0)
      | String c t =>
          if is_e c then
            let '(eneg, t1) := take_sign t in
            match span_digits t1 with
            | ((_ :: _) as ep, EmptyString) =>
                Some (mk_finite neg ds (signed eneg (digits_to_N ep) + e0)%Z)
            | _ => None
            end
          else None
      end
  end.

(** The literal after white space and underscores are dealt with:
    [sign] (inf | infinity | nan | decimal), the words in any case. *)
Definition float_literal (s : string) : option pyfloat :=
  let '(neg, r) := take_sign s in
  let w := lower r in
  if String.eqb w "inf" || String.eqb w "infinity" then Some (Infinity neg)
  else if String.eqb w "nan" then Some NaN
  else parse_decimal neg r.

(** An underscore is allowed only between two digits. *)
Fixpoint underscores_ok (prev : ascii) (s : string) : bool :=
  match s with
  | EmptyString => negb (Ascii.eqb prev "_")
  | String c r =>
      if Ascii.eqb c "_" then is_digit prev && underscores_ok c r
      else (if Ascii.eqb prev "_" then is_digit c else true) && underscores_ok c r
  end.

(** [float(text)] for a [str]; [None] stands for [ValueError]. *)
Definition float_of_str (text : string) : option pyfloat :=
  let s := rstrip_with c_isspace (lstrip_with c_isspace text) in
  if has_char "_" s
  then if underscores_ok "000" s then float_literal (remove_char "_" s) else None
  else float_literal s.

End Py.

(** ** The objects [json.loads] builds, and the decoder *)
Module Json.

(** [None], [bool], [int], [float], [str], [list] and [dict].  A [dict] is
    kept as its items in insertion order, with distinct keys. *)
Inductive json : Type :=
| JNull
| JBool (b : bool)
| JInt (z : Z)
| JFloat (f : Py.pyfloat)
| JStr (s : string)
| JArr (items : list json)
| JObj (members : list (string * json)).

Fixpoint dict_get (k : string) (d : list (string * json)) : option json :=
  match d with
  | [] => None
  | (k', v) :: d' => if String.eqb k' k then Some v else dict_get k d'
  end.

(** [d[k] = v]: a key already present keeps its place. *)
Fixpoint dict_set (k : string) (v : json) (d : list (string * json))
  : list (string * json) :=
  match d with
  | [] => [(k, v)]
  | (k', v') :: d' =>
      if String.eqb k' k then (k', v) :: d' else (k', v') :: dict_set k v d'
  end.

(** *** Decoding *)

Definition is_ws (c : ascii) : bool :=
  Ascii.eqb c " " || Ascii.eqb c "009" || Ascii.eqb c "010" || Ascii.eqb c "013".

Definition skip_ws (s : string) : string := Py.lstrip_with is_ws s.

Definition hex_val (c : ascii) : option N :=
  let n := Py.code c in
  if ((48 <=? n) && (n <=? 57))%N then Some (n - 48)%N
  else if ((65 <=? n) && (n <=? 70))%N then Some (n - 55)%N
  else if ((97 <=? n) && (n <=? 102))%N then Some (n - 87)%N
  else None.

(** Four hexadecimal digits. *)
Definition hex4 (s : string) : option (N * string) :=
  match s with
  | String a (String b (String c (String d r))) =>
      match hex_val a, hex_val b, hex_val c, hex_val d with
      | Some x, Some y, Some z, Some w => Some (((x * 16 + y) * 16 + z) * 16 + w, r)%N
      | _, _, _, _ => None
      end
  | _ => None
  end.

Definition byte (n : N) : ascii := ascii_of_N n.

(** The UTF-8 bytes of a code point. *)
Definition utf8 (cp : N) : string :=
  if (cp <? 128)%N then String (byte cp) EmptyString
  else if (cp <? 2048)%N then
    String (byte (192 + cp / 64)) (String (byte (128 + cp mod 64)) EmptyString)
  else if (cp <? 65536)%N then
    String (byte (224 + cp / 4096))
      (String (byte (128 + (cp / 64) mod 64))
         (String (byte (128 + cp mod 64)) EmptyString))
  else
    String (byte (240 + cp / 262144))
      (String (byte (128 + (cp / 4096) mod 64))
         (String (byte (128 + (cp / 64) mod 64))
            (String (byte (128 + cp mod 64)) EmptyString))).

(** After [\u]: one code unit, joined with a following low surrogate. *)
Definition unicode_escape (s : string) : option (string * string) :=
  match hex4 s with
  | None => None
  | Some (u, r) =>
      if ((55296 <=? u) && (u <=? 56319))%N then
        match r with
        | String "\" (String "u" r2) =>
            match hex4 r2 with
            | Some (u2, r3) =>
                if ((56320 <=? u2) && (u2 <=? 57343))%N
                then Some (utf8 (65536 + (u - 55296) * 1024 + (u2 - 56320)), r3)
                else Some (utf8 u, r)
            | None => Some (utf8 u, r)
            end
        | _ => Some (utf8 u, r)
        end
      else Some (utf8 u, r)
  end.

(** The characters of a string literal after its opening quote. *)
Fixpoint scanstring (fuel : nat) (s : string) : option (string * string) :=
  match fuel with
  | O => None
  | S fuel' =>
      match s with
      | EmptyString => None
      | String c r =>
          if Ascii.eqb c Py.dquote then Some (EmptyString, r)
          else if Ascii.eqb c "\" then
            match r with
            | String e r' =>
                let simple (x : ascii) :=
                  match scanstring fuel' r' with
                  | Some (t, rest) => Some (String x t, rest)
                  | None => None
                  end in
                if Ascii.eqb e Py.dquote then simple Py.dquote
                else if Ascii.eqb e "\" then simple "\"%char
                else if Ascii.eqb e "/" then simple "/"%char
                else if Ascii.eqb e "b" then simple "008"%char
                else if Ascii.eqb e "f" then simple "012"%char
                else if Ascii.eqb e "n" then simple "010"%char
                else if Ascii.eqb e "r" then simple "013"%char
                else if Ascii.eqb e "t" then simple "009"%char
                else if Ascii.eqb e "u" then
                  match unicode_escape r' with
                  | Some (bytes, r2) =>
                      match scanstring fuel' r2 with
                      | Some (t, rest) => Some (bytes +:+ t, rest)
                      | None => None
                      end
                  | None => None
                  end
                else None
            | EmptyString => None
            end
          else if (Py.code c <? 32)%N then None
          else match scanstring fuel' r with
               | Some (t, rest) => Some (String c t, rest)
               | None => None
               end
      end
  end.

(** A number: an optional minus, then 0 or a digit string without leading
    zero, then an optional fraction (a dot and digits) and an optional
    exponent (e or E, an optional sign, digits).  An [int] without fraction
    and exponent, a [float] otherwise. *)
Definition scan_number (s : string) : option (json * string) :=
  let '(neg, r0) := match s with
                    | String "-" r => (true, r)
                    | _ => (false, s)
                    end in
  let int_part :=
    match r0 with
    | String "0" r => Some ([0%N], r)
    | _ => match Py.span_digits r0 with
           | ([], _) => None
           | (ds, r) => Some (ds, r)
           end
    end in
  match int_part with
  | None => None
  | Some (ip, r1) =>
      let '(fp, r2) :=
        match r1 with
        | String "." t =>
            match Py.span_digits t with
            | ([], _) => ([], r1)
            | (ds, r) => (ds, r)
            end
        | _ => ([], r1)
        end in
      let '(ex, r3) :=
        match r2 with
        | String c t =>
            if Py.is_e c then
              let '(eneg, t1) := Py.take_sign t in
              match Py.span_digits t1 with
              | ([], _) => (None, r2)
              | (ds, r) => (Some (Py.signed eneg (Py.digits_to_N ds)), r)
              end
            else (None, r2)
        | EmptyString => (None, r2)
        end in
      match fp, ex with
      | [], None => Some (JInt (Py.signed neg (Py.digits_to_N ip)), r3)
      | _, _ =>
          let e := match ex with Some z => z | None => 0%Z end in
          Some (JFloat (Py.mk_finite neg (ip ++ fp) (e - Z.of_nat (length fp))%Z), r3)
      end
  end.

Definition strip_prefix (p s : string) : option string :=
  if String.prefix p s
  then Some (String.substring (String.length p) (String.length s - String.length p) s)
  else None.

Definition scan_literal (s : string) : option (json * string) :=
  match strip_prefix "null" s with
  | Some r => Some (JNull, r)
  | None =>
  match strip_prefix "true" s with
  | Some r => Some (JBool true, r)
  | None =>
  match strip_prefix "false" s with
  | Some r => Some (JBool false, r)
  | None =>
  match scan_number s with
  | Some res => Some res
  | None =>
  match strip_prefix "NaN" s with
  | Some r => Some (JFloat Py.NaN, r)
  | None =>
  match strip_prefix "Infinity" s with
  | Some r => Some (JFloat (Py.Infinity false), r)
  | None =>
  match strip_prefix "-Infinity" s with
  | Some r => Some (JFloat (Py.Infinity true), r)
  | None => None
  end end end end end end end.

(** [scan_once]: one value at the head of [s].  [scan_array] and [scan_object]
    continue an array and an object after their first character; [acc]
    holds what was read, arrays in reverse. *)
Fixpoint scan_once (fuel : nat) (s : string) : option (json * string) :=
  match fuel with
  | O => None
  | S fuel' =>
      match s with
      | String c r =>
          if Ascii.eqb c Py.dquote then
            match scanstring (S (String.length r)) r with
            | Some (t, rest) => Some (JStr t, rest)
            | None => None
            end
          else if Ascii.eqb c "{" then
            match skip_ws r with
            | String "}" rest => Some (JObj [], rest)
            | r' => scan_object fuel' r' []
            end
          else if Ascii.eqb c "[" then
            match skip_ws r with
            | String "]" rest => Some (JArr [], rest)
            | r' => scan_array fuel' r' []
            end
          else scan_literal s
      | EmptyString => None
      end
  end
with scan_array (fuel : nat) (s : string) (acc : list json) : option (json * string) :=
  match fuel with
  | O => None
  | S fuel' =>
      match scan_once fuel' s with
      | None => None
      | Some (v, r) =>
          match skip_ws r with
          | String "]" rest => Some (JArr (rev (v :: acc)), rest)
          | String "," rest => scan_array fuel' (skip_ws rest) (v :: acc)
          | _ => None
          end
      end
  end
with scan_object (fuel : nat) (s : string) (acc : list (string * json)) : option (json * string) :=
  match fuel with
  | O => None
  | S fuel' =>
      match s with
      | String c r =>
          if Ascii.eqb c Py.dquote then
            match scanstring (S (String.length r)) r with
            | None => None
            | Some (k, r1) =>
                match skip_ws r1 with
                | String ":" r2 =>
                    match scan_once fuel' (skip_ws r2) with
                    | None => None
                    | Some (v, r3) =>
                        match skip_ws r3 with
                        | String "}" rest => Some (JObj (dict_set k v acc), rest)
                        | String "," rest => scan_object fuel' (skip_ws rest) (dict_set k v acc)
                        | _ => None
                        end
                    end
                | _ => None
                end
            end
          else None
      | EmptyString => None
      end
  end.

(** [json.loads(s)]; [None] stands for [json.JSONDecodeError].  The limits
    of the interpreter are outside the model: an integer of more digits
    than [sys.get_int_max_str_digits()] and a nesting deeper than the
    recursion limit, on which [json.loads] raises [ValueError] and
    [RecursionError], are decoded here. *)
Definition loads (s : string) : option json :=
  let s0 := skip_ws s in
  match scan_once (2 * String.length s0 + 2) s0 with
  | Some (v, r) => match skip_ws r with EmptyString => Some v | _ => None end
  | None => None
  end.

(** *** What the code does with decoded objects *)

(** [bool(x)] *)
Definition truthy (x : json) : bool :=
  match x with
  | JNull => false
  | JBool b => b
  | JInt z => negb (z =? 0)%Z
  | JFloat (Py.Finite _ m _) => negb (m =? 0)%N
  | JFloat _ => true
  | JStr s => negb (String.eqb s EmptyString)
  | JArr l => match l with [] => false | _ => true end
  | JObj d => match d with [] => false | _ => true end
  end.

(** [x.get(k, default)]: only a [dict] has the method. *)
Definition get (x : json) (k : string) (default : json) : result json :=
  match x with
  | JObj d => Ok (match dict_get k d with Some v => v | None => default end)
  | _ => Raise AttributeError
  end.

(** [k in x] for a text [k]. *)
Definition contains (k : string) (x : json) : result bool :=
  match x with
  | JObj d => Ok (match dict_get k d with Some _ => true | None => false end)
  | JArr l => Ok (existsb (fun v => match v with JStr s => String.eqb s k | _ => false end) l)
  | JStr s => Ok (Py.has_substring k s)
  | _ => Raise TypeError
  end.

(** [x[k]] for a text [k]. *)
Definition getitem (x : json) (k : string) : result json :=
  match x with
  | JObj d => match dict_get k d with Some v => Ok v | None => Raise KeyError end
  | _ => Raise TypeError
  end.

(** [x[0]]; the keys of a decoded [dict] are texts, so [0] is never one. *)
Definition getitem0 (x : json) : result json :=
  match x with
  | JArr (v :: _) => Ok v
  | JArr [] => Raise IndexError
  | JStr (String c _) => Ok (JStr (String c EmptyString))
  | JStr EmptyString => Raise IndexError
  | JObj _ => Raise KeyError
  | _ => Raise TypeError
  end.

Fixpoint chars (s : string) : list json :=
  match s with
  | EmptyString => []
  | String c r => JStr (String c EmptyString) :: chars r
  end.

(** The objects [for item in x] goes through. *)
Definition iter (x : json) : result (list json) :=
  match x with
  | JArr l => Ok l
  | JStr s => Ok (chars s)
  | JObj d => Ok (map (fun kv => JStr (fst kv)) d)
  | _ => Raise TypeError
  end.

(** [len(x)] *)
Definition len (x : json) : result nat :=
  match x with
  | JArr l => Ok (length l)
  | JStr s => Ok (String.length s)
  | JObj d => Ok (length d)
  | _ => Raise TypeError
  end.

(** The integers that round to a finite double. *)
Definition fits_double (z : Z) : bool :=
  (Z.abs z <? 2 ^ 1024 - 2 ^ 970)%Z.

(** [float(x)] *)
Definition to_float (x : json) : result Py.pyfloat :=
  match x with
  | JInt z => if fits_double z then Ok (Py.float_of_Z z) else Raise OverflowError
  | JBool b => Ok (Py.float_of_Z (if b then 1 else 0))
  | JFloat f => Ok f
  | JStr s => match Py.float_of_str s with Some f => Ok f | None => Raise ValueError end
  | _ => Raise TypeError
  end.

End Json.

(** ** The parse tree of BeautifulSoup *)
Module Bs4.

(** A page element: a text ([NavigableString]), a string of another class
    (comment, doctype, script or style text: [get_text] passes over them),
    or a tag with its attributes and contents.  The [BeautifulSoup] object
    itself is a tag, named [[document]]. *)
Inductive node : Type :=
| Text (s : string)
| Special (s : string)
| Tag (name : string) (attrs : list (string * string)) (contents : list node).

(** [tag.descendants]: everything below, in document order. *)
Fixpoint descendants (n : node) : list node :=
  match n with
  | Tag _ _ cs => flat_map (fun c => c :: descendants c) cs
  | _ => []
  end.

Fixpoint lookup_attr (k : string) (attrs : list (string * string)) : option string :=
  match attrs with
  | [] => None
  | (k', v) :: rest => if String.eqb k' k then Some v else lookup_attr k rest
  end.

(** [tag[k]], [None] when [tag.has_attr(k)] is false. *)
Definition attr (k : string) (n : node) : option string :=
  match n with
  | Tag _ attrs _ => lookup_attr k attrs
  | _ => None
  end.

Definition is_tag_named (names : list string) (n : node) : bool :=
  match n with
  | Tag name _ _ => existsb (String.eqb name) names
  | _ => false
  end.

(** [tag.find_all(names)] *)
Definition find_all (names : list string) (n : node) : list node :=
  List.filter (fun d => is_tag_named names d) (descendants n).

(** [tag.find(name)] *)
Definition find (name : string) (n : node) : option node :=
  head (find_all [name] n).

(** [tag.find(name, id=i)] *)
Definition find_with_id (name i : string) (n : node) : option node :=
  head (List.filter (fun d => match attr "id" d with
                         | Some v => String.eqb v i
                         | None => false
                         end)
               (find_all [name] n)).

(** [tag.get_text(strip=True)]: the texts below, each stripped, the empty
    ones dropped, joined without separator. *)
Definition get_text_strip (n : node) : string :=
  fold_right String.append EmptyString
    (flat_map (fun d => match d with
                        | Text s => match Py.strip s with
                                    | EmptyString => []
                                    | t => [t]
                                    end
                        | _ => []
                        end)
              (descendants n)).

(** *** Selectors: tag.class.class, chained by the descendant combinator *)

Record compound : Type := { sel_tag : string; sel_classes : list string }.

Definition classes_of (n : node) : list string :=
  match attr "class" n with
  | Some v => Py.split_ws v
  | None => []
  end.

Definition matches (c : compound) (n : node) : bool :=
  match n with
  | Tag name _ _ =>
      String.eqb (Py.lower name) (sel_tag c)
      && forallb (fun k => existsb (String.eqb k) (classes_of n)) (sel_classes c)
  | _ => false
  end.

(** The elements below [n] that match [last] and have, above them and below
    the root, ancestors matching [pending] from the outermost inwards. *)
Fixpoint select_below (pending : list compound) (last : compound) (n : node) : list node :=
  match n with
  | Tag _ _ cs =>
      flat_map (fun c =>
                  let here := match pending with
                              | [] => if matches last c then [c] else []
                              | _ :: _ => []
                              end in
                  let pending' := match pending with
                                  | a :: rest => if matches a c then rest else pending
                                  | [] => []
                                  end in
                  here ++ select_below pending' last c) cs
  | _ => []
  end.

(** [soup.select_one(selector)] for the selector [pending last]. *)
Definition select_one (pending : list compound) (last : compound) (soup : node) : option node :=
  head (select_below pending last soup).

(** What the code takes from its libraries without our modelling it:
    [html.unescape] and the lxml tree builder behind [BeautifulSoup(html, "lxml")],
    on a text; and the exception that the two raise when they are handed a
    [list] or a [dict] instead, which depends on the object and on the
    version of the libraries. *)
Class HtmlLib : Type := {
  unescape : string -> string;
  BeautifulSoup : string -> node;
  markup_error : Json.json -> exn
}.

End Bs4.

(** ** data_models.py *)
Module data_models.
Import Json.

Record StatRow : Type := {
  stat_label : string;
  player_value : option Py.pyfloat;
  league_average : option Py.pyfloat;
  percentile : option Py.pyfloat;
  tooltip : option string
}.

Record RadarChartItem : Type := {
  axis_label : json;
  value : Py.pyfloat;
  value_label : json
}.

Record RadarChartData : Type := {
  config : json;
  data : list RadarChartItem
}.

(** [shot_location_section] is a [List[Any]]: the rows of a table, or
    whatever the chart payload holds under [chartData]. *)
Inductive shot_location : Type :=
| TableRows (rows : list StatRow)
| ChartPayload (v : json).

Record ParsedEdgeData : Type := {
  overview_section : list StatRow;
  skating_speed_section : list StatRow;
  skating_distance_section : list StatRow;
  shot_speed_section : list StatRow;
  shot_location_section : shot_location;
  zonetime_section : list StatRow;
  radar_chart : option RadarChartData
}.

(** [ParsedEdgeData()] *)
Definition empty_data : ParsedEdgeData := {|
  overview_section := [];
  skating_speed_section := [];
  skating_distance_section := [];
  shot_speed_section := [];
  shot_location_section := TableRows [];
  zonetime_section := [];
  radar_chart := None
|}.

Definition set_overview_section (p : ParsedEdgeData) (v : list StatRow) : ParsedEdgeData :=
  {| overview_section := v;
     skating_speed_section := skating_speed_section p;
     skating_distance_section := skating_distance_section p;
     shot_speed_section := shot_speed_section p;
     shot_location_section := shot_location_section p;
     zonetime_section := zonetime_section p;
     radar_chart := radar_chart p |}.

Definition set_skating_speed_section (p : ParsedEdgeData) (v : list StatRow) : ParsedEdgeData :=
  {| overview_section := overview_section p;
     skating_speed_section := v;
     skating_distance_section := skating_distance_section p;
     shot_speed_section := shot_speed_section p;
     shot_location_section := shot_location_section p;
     zonetime_section := zonetime_section p;
     radar_chart := radar_chart p |}.

Definition set_skating_distance_section (p : ParsedEdgeData) (v : list StatRow) : ParsedEdgeData :=
  {| overview_section := overview_section p;
     skating_speed_section := skating_speed_section p;
     skating_distance_section := v;
     shot_speed_section := shot_speed_section p;
     shot_location_section := shot_location_section p;
     zonetime_section := zonetime_section p;
     radar_chart := radar_chart p |}.

Definition set_shot_speed_section (p : ParsedEdgeData) (v : list StatRow) : ParsedEdgeData :=
  {| overview_section := overview_section p;
     skating_speed_section := skating_speed_section p;
     skating_distance_section := skating_distance_section p;
     shot_speed_section := v;
     shot_location_section := shot_location_section p;
     zonetime_section := zonetime_section p;
     radar_chart := radar_chart p |}.

Definition set_shot_location_section (p : ParsedEdgeData) (v : shot_location) : ParsedEdgeData :=
  {| overview_section := overview_section p;
     skating_speed_section := skating_speed_section p;
     skating_distance_section := skating_distance_section p;
     shot_speed_section := shot_speed_section p;
     shot_location_section := v;
     zonetime_section := zonetime_section p;
     radar_chart := radar_chart p |}.

Definition set_zonetime_section (p : ParsedEdgeData) (v : list StatRow) : ParsedEdgeData :=
  {| overview_section := overview_section p;
     skating_speed_section := skating_speed_section p;
     skating_distance_section := skating_distance_section p;
     shot_speed_section := shot_speed_section p;
     shot_location_section := shot_location_section p;
     zonetime_section := v;
     radar_chart := radar_chart p |}.

Definition set_radar_chart (p : ParsedEdgeData) (v : option RadarChartData) : ParsedEdgeData :=
  {| overview_section := overview_section p;
     skating_speed_section := skating_speed_section p;
     skating_distance_section := skating_distance_section p;
     shot_speed_section := shot_speed_section p;
     shot_location_section := shot_location_section p;
     zonetime_section := zonetime_section p;
     radar_chart := v |}.

(** [bool(section)] for a list of rows. *)
Definition nonempty {A} (l : list A) : bool :=
  match l with [] => false | _ :: _ => true end.

(** [bool(parsed.shot_location_section)] *)
Definition shot_location_truthy (s : shot_location) : bool :=
  match s with
  | TableRows rows => nonempty rows
  | ChartPayload v => truthy v
  end.

(** [len(parsed.shot_location_section)] *)
Definition shot_location_len (s : shot_location) : result nat :=
  match s with
  | TableRows rows => Ok (length rows)
  | ChartPayload v => len v
  end.

End data_models.

(** ** parsers.py *)
Module parsers.
Import Json Bs4 data_models.

(** [l[i]] *)
Definition item {A} (l : list A) (i : nat) : result A :=
  match l !! i with
  | Some a => Ok a
  | None => Raise IndexError
  end.

(** [float] raises only [ValueError] on a text, which becomes [None]. *)
Definition convert_to_float (text : string) : option Py.pyfloat :=
  let text := Py.strip (Py.remove_char "," (Py.remove_char "%" text)) in
  Py.float_of_str text.

Definition safe_convert (text : string) : option Py.pyfloat :=
  Py.float_of_str text.

(** The body of the loop of [parse_table]: the rows one [tr] adds. *)
Definition parse_table_row (columns : Z) (is_shot_speed : bool) (row : node)
  : result (list StatRow) :=
  let cells := find_all ["td"; "th"] row in
  if (columns <=? Z.of_nat (length cells))%Z then
    c0 ← item cells 0;
    let stat_label := get_text_strip c0 in
    c1 ← item cells 1;
    let player_value := convert_to_float (get_text_strip c1) in
    '(league_average, percentile) ←
      (if (columns =? 4)%Z then
         c2 ← item cells 2;
         let league_average := convert_to_float (get_text_strip c2) in
         c3 ← item cells 3;
         let percentile_text := get_text_strip c3 in
         let percentile := if is_shot_speed then safe_convert percentile_text
                           else convert_to_float percentile_text in
         mret (league_average, percentile)
       else mret (None, None));
    c1 ← item cells 1;
    let tooltip := match find "span" c1 with
                   | Some span => attr "data-tooltip" span
                   | None => None
                   end in
    mret [ {| stat_label := stat_label;
              player_value := player_value;
              league_average := league_average;
              percentile := percentile;
              tooltip := tooltip |} ]
  else mret [].

Definition table_hover : compound :=
  {| sel_tag := "table"; sel_classes := ["table-hover"] |}.

Definition parse_table (soup : node) (columns : Z) (is_shot_speed : bool)
  : result (list StatRow) :=
  match select_one [] table_hover soup with
  | Some table =>
      match find "tbody" table with
      | Some tbody =>
          let rows := find_all ["tr"] tbody in
          rows_data ← mapM (parse_table_row columns is_shot_speed) rows;
          mret (concat rows_data)
      | None => mret []
      end
  | None => mret []
  end.

(** The body of the loop of [parse_zone_time_table]. *)
Definition parse_zone_time_row (row : node) : result (list StatRow) :=
  let cells := find_all ["td"; "th"] row in
  if (2 <=? length cells)%nat then
    c0 ← item cells 0;
    let stat_label := get_text_strip c0 in
    c1 ← item cells 1;
    let value_text := get_text_strip c1 in
    let player_value := convert_to_float value_text in
    mret [ {| stat_label := stat_label;
              player_value := player_value;
              league_average := None;
              percentile := None;
              tooltip := None |} ]
  else mret [].

Definition zone_time_selector : list compound * compound :=
  ([ {| sel_tag := "div"; sel_classes := ["col-lg-6"; "col-md-6"] |};
     {| sel_tag := "div"; sel_classes := ["table-responsive"] |} ],
   table_hover).

Definition parse_zone_time_table (soup : node) : result (list StatRow) :=
  match select_one (fst zone_time_selector) (snd zone_time_selector) soup with
  | Some table =>
      match find "tbody" table with
      | Some tbody =>
          let rows := find_all ["tr"] tbody in
          rows_data ← mapM parse_zone_time_row rows;
          mret (concat rows_data)
      | None => mret []
      end
  | None => mret []
  end.

Section WithLibraries.
Context `{HtmlLib}.

(** The body of the loop of [parse_radar_chart]; only [ValueError] is
    caught around [float]. *)
Definition parse_radar_item (it : json) : result RadarChartItem :=
  v ← get it "value" (JInt 0);
  value ← match to_float v with
          | Raise ValueError => Ok (Py.Finite false 0 0)
          | r => r
          end;
  value_label ← get it "valueLabel" (JStr "");
  axis_label ← get it "axisLabel" (JStr "");
  mret {| axis_label := axis_label; value := value; value_label := value_label |}.

Definition parse_radar_chart (soup : node) : result (option RadarChartData) :=
  match find_with_id "sl-webc-radar-chart" "overview-radarchart" soup with
  | Some chart_el =>
      match attr "data-json" chart_el with
      | Some text =>
          let chart_data := match loads (unescape text) with
                            | Some v => v
                            | None => JObj []
                            end in
          present ← contains "chartData" chart_data;
          filled ← (if present : bool then truthy <$> getitem chart_data "chartData"
                    else mret false);
          if filled : bool then
            series ← getitem chart_data "chartData";
            first ← getitem0 series;
            data_list ← get first "data" (JArr []);
            its ← iter data_list;
            items ← mapM parse_radar_item its;
            config ← get chart_data "config" (JObj []);
            mret (Some {| config := config; data := items |})
          else mret None
      | None => mret None
      end
  | None => mret None
  end.

Definition parse_html_content (html target : string) : result ParsedEdgeData :=
  let parsed := empty_data in
  let html := unescape html in
  let soup := BeautifulSoup html in
  if String.eqb target "#overview-section-content" then
    rows ← parse_table soup 4 false;
    let parsed := set_overview_section parsed rows in
    chart ← parse_radar_chart soup;
    let parsed := set_radar_chart parsed chart in
    mret parsed
  else if String.eqb target "#skatingspeed-section-content" then
    rows ← parse_table soup 4 false;
    mret (set_skating_speed_section parsed rows)
  else if String.eqb target "#skatingdistance-section-content" then
    rows ← parse_table soup 4 false;
    mret (set_skating_distance_section parsed rows)
  else if String.eqb target "#shotspeed-section-content" then
    rows ← parse_table soup 4 true;
    mret (set_shot_speed_section parsed rows)
  else if String.eqb target "#shotlocation-section-content" then
    section ←
      match find "sl-webc-shot-chart" soup with
      | Some shot_chart =>
          match attr "data-json" shot_chart with
          | Some text =>
              match loads (unescape text) with
              | Some data =>
                  match get data "chartData" (JArr []) with
                  | Ok v => mret (ChartPayload v)
                  | Raise _ => TableRows <$> parse_table soup 4 false
                  end
              | None => TableRows <$> parse_table soup 4 false
              end
          | None => TableRows <$> parse_table soup 4 false
          end
      | None => TableRows <$> parse_table soup 4 false
      end;
    let parsed := set_shot_location_section parsed section in
    (* the debug line takes len(parsed.shot_location_section) *)
    _ ← shot_location_len section;
    mret parsed
  else if String.eqb target "#zonetime-section-content" then
    rows ← parse_zone_time_table soup;
    mret (set_zonetime_section parsed rows)
  else
    mret parsed.

End WithLibraries.

(** Each assignment is guarded by the truth value of the new field;
    [existing] is updated in place and returned. *)
Definition merge_parsed_data (existing new : ParsedEdgeData) : ParsedEdgeData :=
  let existing := if nonempty (overview_section new)
                  then set_overview_section existing (overview_section new)
                  else existing in
  let existing := if nonempty (skating_speed_section new)
                  then set_skating_speed_section existing (skating_speed_section new)
                  else existing in
  let existing := if nonempty (skating_distance_section new)
                  then set_skating_distance_section existing (skating_distance_section new)
                  else existing in
  let existing := if nonempty (shot_speed_section new)
                  then set_shot_speed_section existing (shot_speed_section new)
                  else existing in
  let existing := if shot_location_truthy (shot_location_section new)
                  then set_shot_location_section existing (shot_location_section new)
                  else existing in
  let existing := if nonempty (zonetime_section new)
                  then set_zonetime_section existing (zonetime_section new)
                  else existing in
  let existing := match radar_chart new with
                  | Some chart => set_radar_chart existing (Some chart)
                  | None => existing
                  end in
  existing.

End parsers.

(** ** client.py *)
Module client.
Import Json Bs4 data_models parsers.

(** *** The transport, as the driver sees it *)

Inductive WSMsgType : Type :=
| CONTINUATION | TEXT | BINARY | PING | PONG | CLOSE | CLOSING | CLOSED | ERROR.

Record WSMessage : Type := { type : WSMsgType; data : string }.

(** The web socket of one session: what the driver sent through it, in
    order, and whether the driver called [ws.close()].  The frames the
    remote side delivers are a list next to it; when the list runs out the
    remote side has gone. *)
Record WebSocket : Type := { sent : list json; closed : bool }.

Definition send_json (ws : WebSocket) (msg : json) : WebSocket :=
  {| sent := sent ws ++ [msg]; closed := closed ws |}.

Definition close (ws : WebSocket) : WebSocket :=
  {| sent := sent ws; closed := true |}.

(** [async for msg in ws] ends once the socket is closed, and on a frame
    of type CLOSE, CLOSING or CLOSED. *)
Definition iteration_stops (ws : WebSocket) (msg : WSMessage) : bool :=
  closed ws ||
  match type msg with
  | CLOSE | CLOSING | CLOSED => true
  | _ => false
  end.

(** *** The client *)

(** [rate_limit_seconds] and [output_dir] only drive sleeping and the
    writing of raw frames to disk, which are left out. *)
Record EdgeNHLClient : Type := {
  _cookies : list (string * string);
  _parsed_data : ParsedEdgeData;
  save_messages : bool;
  subsequent_sent : bool;
  received_targets : gset string;
  expected_targets : gset string
}.

Definition __init__ (cookies : option (list (string * string))) (save_messages : bool)
  : EdgeNHLClient :=
  {| _cookies := match cookies with Some c => c | None => [] end;
     _parsed_data := empty_data;
     save_messages := save_messages;
     subsequent_sent := false;
     received_targets := ∅;
     expected_targets :=
       {[ "#overview-section-content";
          "#skatingspeed-section-content";
          "#skatingdistance-section-content";
          "#shotspeed-section-content";
          "#shotlocation-section-content";
          "#zonetime-section-content" ]} |}.

Definition set_parsed_data (self : EdgeNHLClient) (d : ParsedEdgeData) : EdgeNHLClient :=
  {| _cookies := _cookies self;
     _parsed_data := d;
     save_messages := save_messages self;
     subsequent_sent := subsequent_sent self;
     received_targets := received_targets self;
     expected_targets := expected_targets self |}.

Definition set_subsequent_sent (self : EdgeNHLClient) (b : bool) : EdgeNHLClient :=
  {| _cookies := _cookies self;
     _parsed_data := _parsed_data self;
     save_messages := save_messages self;
     subsequent_sent := b;
     received_targets := received_targets self;
     expected_targets := expected_targets self |}.

(** [self.received_targets.add(target)] *)
Definition add_received (self : EdgeNHLClient) (target : string) : EdgeNHLClient :=
  {| _cookies := _cookies self;
     _parsed_data := _parsed_data self;
     save_messages := save_messages self;
     subsequent_sent := subsequent_sent self;
     received_targets := {[ target ]} ∪ received_targets self;
     expected_targets := expected_targets self |}.

Definition _merge_parsed_data (self : EdgeNHLClient) (new_data : ParsedEdgeData)
  : EdgeNHLClient :=
  set_parsed_data self (merge_parsed_data (_parsed_data self) new_data).

Definition get_parsed_data (self : EdgeNHLClient) : ParsedEdgeData := _parsed_data self.

Definition reset_parsed_data (self : EdgeNHLClient) : EdgeNHLClient :=
  set_parsed_data self empty_data.

(** *** The outbound requests *)

Definition base_params (player_id : string) : json :=
  JObj [("type", JStr "skaters"); ("player", JStr player_id);
        ("rootName", JStr "skatersProfiles"); ("source", JStr "players")].

Definition action_message (player_id action : string) (data : json) : json :=
  JObj [("type", JStr "action");
        ("event", JObj [("domain", JStr "edge.nhl.com");
                        ("uri", JStr ("/en/skater/" +:+ player_id));
                        ("action", JStr action);
                        ("data", data)])].

Definition initial_message (player_id : string) : json :=
  action_message player_id "getLabel" (JObj [("params", base_params player_id)]).

Definition _send_initial_message (ws : WebSocket) (player_id : string) : WebSocket :=
  send_json ws (initial_message player_id).

Definition _create_profile_messages (player_id : string) (base_params : json) : list json :=
  map (fun '(render_func, target) =>
         action_message player_id "load"
           (JObj [("renderFunction", JStr render_func);
                  ("target", JStr target);
                  ("params", base_params);
                  ("callbackFunction", JStr "initializeDataElements")]))
      [("renderPlayerCard", "#profile-playercard");
       ("renderProfilePlayerSection", "#profile-section")].

Definition _create_section_messages (player_id : string)
    (section_configs : list (string * string * list (string * json))) : list json :=
  map (fun '(section_name, target, extra_params) =>
         action_message player_id "load"
           (JObj [("renderFunction", JStr "renderProfileContent");
                  ("target", JStr target);
                  ("params",
                   JObj (fold_left (fun d kv => dict_set (fst kv) (snd kv) d) extra_params
                           [("sectionName", JStr section_name);
                            ("units", JStr "imperial");
                            ("season", JStr "20242025");
                            ("stage", JStr "regular");
                            ("feed", JStr "skatersProfiles");
                            ("id", JStr player_id)]));
                  ("callbackFunction", JStr "runClientFns")]))
      section_configs.

Definition section_configs : list (string * string * list (string * json)) :=
  [("overview", "#overview-section-content", []);
   ("skatingspeed", "#skatingspeed-section-content", []);
   ("skatingdistance", "#skatingdistance-section-content", [("manpower", JStr "all")]);
   ("shotspeed", "#shotspeed-section-content", []);
   ("shotlocation", "#shotlocation-section-content",
    [("shootingmetrics", JStr "shots"); ("shotlocation", JStr "all")]);
   ("zonetime", "#zonetime-section-content", [("manpower", JStr "all")])].

Definition _generate_subsequent_messages (player_id : string) : list json :=
  _create_profile_messages player_id (base_params player_id)
  ++ _create_section_messages player_id section_configs.

Section WithLibraries.
Context `{HtmlLib}.

(** What [_handle_text_message] reads off a decoded frame of type html
    before it looks at the target sets: the markup, and the stripped
    target.  [strip] needs a text, the debug line takes [len(html_content)]. *)
Definition html_fields (data : json) : result (json * string) :=
  html_content ← get data "html" (JStr "");
  target ← get data "target" (JStr "");
  target ← match target with
           | JStr t => Ok (Py.strip t)
           | _ => Raise AttributeError
           end;
  _ ← len html_content;
  mret (html_content, target).

(** The extractor applied to the [html] field, a text in a well-formed
    frame; on a [list] or [dict] the libraries raise. *)
Definition parse_segment (html_content : json) (target : string) : result ParsedEdgeData :=
  match html_content with
  | JStr html => parse_html_content html target
  | _ => Raise (markup_error html_content)
  end.

(** The client and the socket after the call, and how the call ended. *)
Definition _handle_text_message (self : EdgeNHLClient) (data_str : string) (ws : WebSocket)
  : EdgeNHLClient * WebSocket * result unit :=
  match loads data_str with
  | None => (self, ws, Ok tt)
  | Some data =>
      match get data "type" JNull with
      | Raise e => (self, ws, Raise e)
      | Ok msg_type =>
          if match msg_type with JStr s => String.eqb s "html" | _ => false end then
            match html_fields data with
            | Raise e => (self, ws, Raise e)
            | Ok (html_content, target) =>
                let extract_and_merge (self : EdgeNHLClient) :=
                  match parse_segment html_content target with
                  | Raise e => (self, ws, Raise e)
                  | Ok parsed_segment => (_merge_parsed_data self parsed_segment, ws, Ok tt)
                  end in
                if bool_decide (target ∈ expected_targets self) then
                  let self := add_received self target in
                  if bool_decide (expected_targets self ⊆ received_targets self)
                  then (self, close ws, Ok tt)
                  else extract_and_merge self
                else extract_and_merge self
            end
          else (self, ws, Ok tt)
      end
  end.

(** The loop [async for msg in ws] over the frames still to come. *)
Fixpoint listen (self : EdgeNHLClient) (ws : WebSocket) (inbox : list WSMessage)
  : EdgeNHLClient * WebSocket * result unit :=
  match inbox with
  | [] => (self, ws, Ok tt)
  | msg :: rest =>
      if iteration_stops ws msg then (self, ws, Ok tt)
      else
        match type msg with
        | TEXT =>
            let '(self, ws, r) := _handle_text_message self (data msg) ws in
            match r with
            | Ok _ => listen self ws rest
            | Raise e => (self, ws, Raise e)
            end
        | CLOSED | CLOSING => (self, ws, Ok tt)
        | ERROR => (self, ws, Ok tt)
        | _ => listen self ws rest
        end
  end.

(** One session: [inbox] is what the remote side delivers on the socket
    that [ws_connect] opened. *)
Definition connect_and_communicate (self : EdgeNHLClient) (player_id : string)
    (inbox : list WSMessage) : EdgeNHLClient * WebSocket * result unit :=
  let ws := {| sent := []; closed := false |} in
  let ws := _send_initial_message ws player_id in
  let sub_msgs := _generate_subsequent_messages player_id in
  let ws := fold_left send_json sub_msgs ws in
  let self := set_subsequent_sent self true in
  listen self ws inbox.

Definition fetch_player_data_sync (self : EdgeNHLClient) (player_id : string)
    (inbox : list WSMessage) : EdgeNHLClient * result ParsedEdgeData :=
  let '(self, _, r) := connect_and_communicate self player_id inbox in
  (self, _ ← r; mret (get_parsed_data self)).

End WithLibraries.

End client.

Import Py Json Bs4 data_models parsers client.

(** * Notions used in the statements *)

(** A text with a decimal digit somewhere. *)
Fixpoint has_digit (s : string) : bool :=
  match s with
  | EmptyString => false
  | String c r => is_digit c || has_digit r
  end.

(** The words [float] reads as infinity or not-a-number: an optional sign,
    then inf, infinity or nan in any case. *)
Definition special_word (s : string) : bool :=
  let '(_, r) := take_sign s in
  let w := lower r in
  String.eqb w "inf" || String.eqb w "infinity" || String.eqb w "nan".

(** The characters a float literal is made of. *)
Definition float_char (c : ascii) : bool :=
  c_isspace c || is_digit c || has_char c "+-._eE" || has_char (to_lower c) "infatyn".

(** The text [convert_to_float] hands to [float]. *)
Definition cleaned (text : string) : string :=
  strip (remove_char "," (remove_char "%" text)).

(** The chart payload of a shot-location fragment, when the chart element
    is there with its attribute and the attribute decodes to an object. *)
Definition embedded_chart_payload `{HtmlLib} (soup : node) : option (list (string * json)) :=
  match find "sl-webc-shot-chart" soup with
  | Some shot_chart =>
      match attr "data-json" shot_chart with
      | Some text =>
          match loads (unescape text) with
          | Some (JObj members) => Some members
          | _ => None
          end
      | None => None
      end
  | None => None
  end.

(** The socket is closed exactly when the expected targets have all been received. *)
Definition closes_when_complete (self : EdgeNHLClient) (ws : WebSocket) : Prop :=
  closed ws = true <-> expected_targets self ⊆ received_targets self.

(** What a call of the handler, and a run of the loop, do to the target sets. *)
Definition grows (self self' : EdgeNHLClient) : Prop :=
  expected_targets self' = expected_targets self
  /\ received_targets self ⊆ received_targets self'
  /\ received_targets self' ⊆ received_targets self ∪ expected_targets self.

(** * Samples: records, markup with the trees lxml builds for it, frames *)

(** A text between double quotes. *)
Definition quoted (s : string) : string :=
  String dquote s +:+ String dquote EmptyString.

Definition document (body : list node) : node :=
  Tag "[document]" [] [Tag "html" [] [Tag "body" [] body]].

Fixpoint json_escape (s : string) : string :=
  match s with
  | EmptyString => EmptyString
  | String c r =>
      if Ascii.eqb c dquote || Ascii.eqb c "\"
      then String "\" (String c (json_escape r))
      else String c (json_escape r)
  end.

(** The text frame {"type": "html", "target": target, "html": html} *)
Definition html_frame (target html : string) : string :=
  "{" +:+ quoted "type" +:+ ": " +:+ quoted "html" +:+ ", "
  +:+ quoted "target" +:+ ": " +:+ quoted target +:+ ", "
  +:+ quoted "html" +:+ ": " +:+ quoted (json_escape html) +:+ "}".

Definition text_message (data_str : string) : WSMessage :=
  {| type := TEXT; client.data := data_str |}.

Definition sample_row : StatRow :=
  {| stat_label := "Top Skating Speed (mph)";
     player_value := Some (decimal 2291 (-2));
     league_average := Some (decimal 2209 (-2));
     percentile := Some (decimal 84 0);
     tooltip := Some "11/14/2024 @ OTT" |}.

Definition sample_aggregate : ParsedEdgeData :=
  {| overview_section := [sample_row];
     skating_speed_section := [sample_row];
     skating_distance_section := [sample_row];
     shot_speed_section := [sample_row];
     shot_location_section := ChartPayload (JArr [JInt 1]);
     zonetime_section := [sample_row];
     radar_chart := Some {| config := JObj []; data_models.data := [] |} |}.

Definition sample_shot_row : node :=
  Tag "tr" []
    [ Tag "td" [] [Text "Top Shot Speed (mph)"];
      Tag "th" [] [Text "95.57"];
      Tag "th" [] [Text "88.20"];
      Tag "th" [] [Text "84%"] ].

(** <sl-webc-radar-chart id="overview-radarchart" data-json="5"></sl-webc-radar-chart> *)
Definition radar_markup : string :=
  "<sl-webc-radar-chart id=" +:+ quoted "overview-radarchart"
  +:+ " data-json=" +:+ quoted "5" +:+ "></sl-webc-radar-chart>".

Definition radar_tree : node :=
  document [Tag "sl-webc-radar-chart"
              [("id", "overview-radarchart"); ("data-json", "5")] []].

(** The attribute {"chartData": 5} *)
Definition scalar_payload : string := "{" +:+ quoted "chartData" +:+ ": 5}".

(** <sl-webc-shot-chart data-json='{"chartData": 5}'></sl-webc-shot-chart> *)
Definition scalar_chart_markup : string :=
  "<sl-webc-shot-chart data-json='" +:+ scalar_payload +:+ "'></sl-webc-shot-chart>".

Definition scalar_chart_tree : node :=
  document [Tag "sl-webc-shot-chart" [("data-json", scalar_payload)] []].

(** The attribute {"chartData": [1, 2]} *)
Definition list_payload : string := "{" +:+ quoted "chartData" +:+ ": [1, 2]}".

(** <sl-webc-shot-chart data-json='{"chartData": [1, 2]}'></sl-webc-shot-chart> *)
Definition list_chart_markup : string :=
  "<sl-webc-shot-chart data-json='" +:+ list_payload +:+ "'></sl-webc-shot-chart>".

Definition list_chart_tree : node :=
  document [Tag "sl-webc-shot-chart" [("data-json", list_payload)] []].

(** A zone-time fragment with one row. *)
Definition zonetime_markup : string :=
  "<div class=" +:+ quoted "col-lg-6 col-md-6" +:+ "><div class="
  +:+ quoted "table-responsive" +:+ "><table class=" +:+ quoted "table table-hover"
  +:+ "><tbody><tr><td>Offensive Zone</td><td>49.8%</td></tr></tbody></table></div></div>".

Definition zonetime_tree : node :=
  document
    [Tag "div" [("class", "col-lg-6 col-md-6")]
       [Tag "div" [("class", "table-responsive")]
          [Tag "table" [("class", "table table-hover")]
             [Tag "tbody" []
                [Tag "tr" [] [Tag "td" [] [Text "Offensive Zone"];
                              Tag "td" [] [Text "49.8%"]]]]]]].

(** Libraries for the closed checks: markup without character references is
    left as it is by [unescape]; the tree builder is given on the samples,
    and on the empty markup, for which it returns a document without tags. *)
Definition sample_soup (html : string) : node :=
  if String.eqb html radar_markup then radar_tree
  else if String.eqb html scalar_chart_markup then scalar_chart_tree
  else if String.eqb html list_chart_markup then list_chart_tree
  else if String.eqb html zonetime_markup then zonetime_tree
  else Tag "[document]" [] [].

Definition sample_lib : HtmlLib :=
  {| unescape := fun s => s; BeautifulSoup := sample_soup;
     markup_error := fun _ => TypeError |}.

Definition fresh_client : EdgeNHLClient := __init__ None false.

(** A client that has received every target but zone-time. *)
Definition five_received : EdgeNHLClient :=
  fold_left add_received
    [ "#overview-section-content"; "#skatingspeed-section-content";
      "#skatingdistance-section-content"; "#shotspeed-section-content";
      "#shotlocation-section-content" ]
    fresh_client.

Definition open_socket : WebSocket := {| sent := []; closed := false |}.

(** One frame per expected target, zone-time last and alone in carrying a table. *)
Definition six_frames : list WSMessage :=
  map text_message
    [ html_frame "#overview-section-content" "";
      html_frame "#skatingspeed-section-content" "";
      html_frame "#skatingdistance-section-content" "";
      html_frame "#shotspeed-section-content" "";
      html_frame "#shotlocation-section-content" "";
      html_frame "#zonetime-section-content" zonetime_markup ].

(** * Further notions *)

(** A row has the cells [parse_table] asks for. *)
Definition enough_cells (columns : Z) (row : node) : bool :=
  (columns <=? Z.of_nat (length (find_all ["td"; "th"] row)))%Z.

(** The text of the first cell of a row. *)
Definition first_cell_text (row : node) : string :=
  match find_all ["td"; "th"] row with
  | c :: _ => get_text_strip c
  | [] => EmptyString
  end.

(** Two payloads that fill no slot in common. *)
Definition disjoint_slots (p q : ParsedEdgeData) : Prop :=
  (overview_section p = [] \/ overview_section q = [])
  /\ (skating_speed_section p = [] \/ skating_speed_section q = [])
  /\ (skating_distance_section p = [] \/ skating_distance_section q = [])
  /\ (shot_speed_section p = [] \/ shot_speed_section q = [])
  /\ (shot_location_truthy (shot_location_section p) = false
      \/ shot_location_truthy (shot_location_section q) = false)
  /\ (zonetime_section p = [] \/ zonetime_section q = [])
  /\ (radar_chart p = None \/ radar_chart q = None).

(** A table whose first row has no cell. *)
Definition bare_row_tree : node :=
  document [Tag "table" [("class", "table-hover")]
              [Tag "tbody" [] [Tag "tr" [] []]]].


(** A text that does not begin with white space. *)
Definition head_clean (s : string) : Prop :=
  match s with
  | String c _ => isspace c = false
  | EmptyString => True
  end.

(** A text made of decimal digits only, and the digits it spells. *)
Fixpoint all_digits (s : string) : bool :=
  match s with
  | EmptyString => true
  | String c r => is_digit c && all_digits r
  end.

Fixpoint digits_of (s : string) : list N :=
  match s with
  | EmptyString => []
  | String c r => digit_val c :: digits_of r
  end.

Definition sample_cell : node := Tag "th" [] [Text " 84 "; Tag "span" [] [Text "th"]].


(** The text of the radar chart payload of an overview fragment, when the
    chart element is there with its attribute. *)
Definition radar_chart_text (soup : node) : option string :=
  match find_with_id "sl-webc-radar-chart" "overview-radarchart" soup with
  | Some chart_el => attr "data-json" chart_el
  | None => None
  end.

(** [None], a [bool], an [int] or a [float]. *)
Definition is_scalar (v : json) : bool :=
  match v with
  | JNull | JBool _ | JInt _ | JFloat _ => true
  | _ => false
  end.

(** [d.get(k, default)] on the items of a [dict]. *)
Definition get_or (d : list (string * json)) (k : string) (default : json) : json :=
  match dict_get k d with
  | Some v => v
  | None => default
  end.

(** The target a load request asks for: [msg["event"]["data"]["target"]]. *)
Definition request_target (msg : json) : option string :=
  match (ev ← getitem msg "event"; d ← getitem ev "data"; getitem d "target") with
  | Ok (JStr t) => Some t
  | _ => None
  end.

(** A client with the expected targets of [__init__], all of them received. *)
Definition stale (self : EdgeNHLClient) : Prop :=
  expected_targets self = expected_targets fresh_client
  /\ expected_targets self ⊆ received_targets self.

(** Every slot filled in [a] is filled in [b]. *)
Definition keeps_filled (a b : ParsedEdgeData) : Prop :=
  (nonempty (overview_section a) = true -> nonempty (overview_section b) = true)
  /\ (nonempty (skating_speed_section a) = true ->
      nonempty (skating_speed_section b) = true)
  /\ (nonempty (skating_distance_section a) = true ->
      nonempty (skating_distance_section b) = true)
  /\ (nonempty (shot_speed_section a) = true -> nonempty (shot_speed_section b) = true)
  /\ (shot_location_truthy (shot_location_section a) = true ->
      shot_location_truthy (shot_location_section b) = true)
  /\ (nonempty (zonetime_section a) = true -> nonempty (zonetime_section b) = true)
  /\ (radar_chart a <> None -> radar_chart b <> None).

(** An overview fragment whose chart payload is the empty object. *)
Definition empty_object_chart_tree : node :=
  document [Tag "sl-webc-radar-chart"
              [("id", "overview-radarchart"); ("data-json", "{}")] []].

(** The radar item {"axisLabel": "Speed", "value": "n/a"} *)
Definition sample_radar_item : json :=
  JObj [("axisLabel", JStr "Speed"); ("value", JStr "n/a")].


(** A client that has received the six expected targets. *)
Definition six_received : EdgeNHLClient :=
  add_received five_received "#zonetime-section-content".


(** The values [float] converts, and what a chart item gets for its value:
    the float, or 0.0 for a text that is not a number. *)
Definition convertible (v : json) : bool :=
  match v with
  | JInt z => fits_double z
  | JBool _ | JFloat _ | JStr _ => true
  | _ => false
  end.

Definition item_value (v : json) : pyfloat :=
  match to_float v with
  | Ok f => f
  | Raise _ => Finite false 0 0
  end.

(** The chart item the code builds from the items of an object. *)
Definition radar_item_of (d : list (string * json)) : RadarChartItem :=
  {| axis_label := get_or d "axisLabel" (JStr "");
     value := item_value (get_or d "value" (JInt 0));
     value_label := get_or d "valueLabel" (JStr "") |}.

(** An object whose value, when it has one, can be converted. *)
Definition well_formed_item (it : json) : Prop :=
  exists d, it = JObj d /\ convertible (get_or d "value" (JInt 0)) = true.

(** The chart built from the entries of the first series. *)
Inductive items_of : list json -> list RadarChartItem -> Prop :=
| items_of_nil : items_of [] []
| items_of_cons d its items :
    items_of its items -> items_of (JObj d :: its) (radar_item_of d :: items).

(** The payload
    {"config": {"levels": 4, "maxValue": 100},
     "chartData": [{"data": [{"axisLabel": "Top Skating Speed (mph)",
                              "value": 84, "valueLabel": 84}]}]}
    and an overview fragment that carries it. *)
Definition speed_chart_payload : string :=
  "{" +:+ quoted "config" +:+ ": {" +:+ quoted "levels" +:+ ": 4, "
  +:+ quoted "maxValue" +:+ ": 100}, " +:+ quoted "chartData" +:+ ": [{"
  +:+ quoted "data" +:+ ": [{" +:+ quoted "axisLabel" +:+ ": "
  +:+ quoted "Top Skating Speed (mph)" +:+ ", " +:+ quoted "value" +:+ ": 84, "
  +:+ quoted "valueLabel" +:+ ": 84}]}]}".

Definition speed_chart_tree : node :=
  document [Tag "sl-webc-radar-chart"
              [("id", "overview-radarchart"); ("data-json", speed_chart_payload)] []].


(** A text of ASCII characters. *)
Fixpoint is_ascii (s : string) : bool :=
  match s with
  | EmptyString => true
  | String c r => (code c <? 128)%N && is_ascii r
  end.

(** *** The decimal numbers of Python's float syntax

    number      ::=  digitpart [ "." [digitpart] ]  |  "." digitpart
    floatnumber ::=  number [ ("e" | "E") ["+" | "-"] digitpart ]
    a decimal number is [sign] floatnumber, where a digitpart is made of
    digits with single underscores allowed between two of them. *)

Definition sign_text (s : string) : Prop :=
  s = EmptyString \/ s = "+" \/ s = "-".

(** One digit or more. *)
Definition digit_text (s : string) : Prop :=
  s <> EmptyString /\ all_digits s = true.

Inductive plain_number : string -> Prop :=
| number_int ip : digit_text ip -> plain_number ip
| number_point ip fp :
    digit_text ip -> all_digits fp = true -> plain_number (ip +:+ String "." fp)
| number_frac fp : digit_text fp -> plain_number (String "." fp).

Inductive plain_float : string -> Prop :=
| float_number n : plain_number n -> plain_float n
| float_exponent n c sg ep :
    plain_number n -> is_e c = true -> sign_text sg -> digit_text ep ->
    plain_float (n +:+ String c (sg +:+ ep)).

Definition signed_float (s : string) : Prop :=
  exists sg body, sign_text sg /\ plain_float body /\ s = sg +:+ body.

(** The last character of [prev] followed by [s]. *)
Fixpoint last_or (prev : ascii) (s : string) : ascii :=
  match s with
  | EmptyString => prev
  | String c r => last_or c r
  end.

Definition ends_with_digit (s : string) : Prop := is_digit (last_or "000" s) = true.

Definition starts_with_digit (s : string) : Prop :=
  match s with
  | String c _ => is_digit c = true
  | EmptyString => False
  end.

(** Every underscore has a digit just before it and a digit just after it. *)
Definition underscores_between_digits (s : string) : Prop :=
  forall a b, s = a +:+ String "_" b -> ends_with_digit a /\ starts_with_digit b.

(** A decimal number: the underscores stand between digits, and without
    them the text is a signed float number. *)
Definition decimal_number (s : string) : Prop :=
  underscores_between_digits s /\ signed_float (remove_char "_" s).

(** What [float] does with a text that has no white space at its ends. *)
Definition float_body (s : string) : option pyfloat :=
  if has_char "_" s
  then if underscores_ok "000" s then float_literal (remove_char "_" s) else None
  else float_literal s.

(** The end of a literal after its number: nothing, or an exponent. *)
Definition exponent_text (r : string) : Prop :=
  r = EmptyString
  \/ exists c sg ep, is_e c = true /\ sign_text sg /\ digit_text ep
                     /\ r = String c (sg +:+ ep).

(** The text of the cell of index [i] of a row, the empty text when the row
    is shorter. *)
Definition cell_text (i : nat) (row : node) : string :=
  match find_all ["td"; "th"] row !! i with
  | Some c => get_text_strip c
  | None => EmptyString
  end.

(** The rows of a table body that [parse_table] keeps with four columns. *)
Definition four_cell_rows (tbody : node) : list node :=
  List.filter (enough_cells 4) (find_all ["tr"] tbody).

(** A four-column fragment with two rows, whose percentiles are 84 and 84%. *)
Definition shot_table_markup : string :=
  "<table class=" +:+ quoted "table table-hover" +:+ "><tbody>"
  +:+ "<tr><td>Top Shot Speed (mph)</td><td>95.57</td><td>88.20</td><td>84</td></tr>"
  +:+ "<tr><td>Average Shot Speed (mph)</td><td>61.02</td><td>58.47</td><td>84%</td></tr>"
  +:+ "</tbody></table>".

Definition shot_table_body : node :=
  Tag "tbody" []
    [ Tag "tr" [] [ Tag "td" [] [Text "Top Shot Speed (mph)"];
                    Tag "td" [] [Text "95.57"];
                    Tag "td" [] [Text "88.20"];
                    Tag "td" [] [Text "84"] ];
      Tag "tr" [] [ Tag "td" [] [Text "Average Shot Speed (mph)"];
                    Tag "td" [] [Text "61.02"];
                    Tag "td" [] [Text "58.47"];
                    Tag "td" [] [Text "84%"] ] ].

Definition shot_table_tree : node :=
  document [Tag "table" [("class", "table table-hover")] [shot_table_body]].

(** The libraries of the samples, with the tree of this fragment added. *)
Definition table_lib : HtmlLib :=
  {| unescape := fun s => s;
     BeautifulSoup := fun html => if String.eqb html shot_table_markup
                                  then shot_table_tree else sample_soup html;
     markup_error := fun _ => TypeError |}.

(** * Properties *)

(** ** The merger *)

(** What [merge_parsed_data] leaves in each slot. *)
Lemma merge_overview_section existing new :
  overview_section (merge_parsed_data existing new)
  = if nonempty (overview_section new) then overview_section new
    else overview_section existing.
Proof.
  unfold merge_parsed_data.
  destruct (radar_chart new), (nonempty (zonetime_section new)),
    (shot_location_truthy (shot_location_section new)),
    (nonempty (shot_speed_section new)), (nonempty (skating_distance_section new)),
    (nonempty (skating_speed_section new)), (nonempty (overview_section new));
    reflexivity.
Qed.

Lemma merge_skating_speed_section existing new :
  skating_speed_section (merge_parsed_data existing new)
  = if nonempty (skating_speed_section new) then skating_speed_section new
    else skating_speed_section existing.
Proof.
  unfold merge_parsed_data.
  destruct (radar_chart new), (nonempty (zonetime_section new)),
    (shot_location_truthy (shot_location_section new)),
    (nonempty (shot_speed_section new)), (nonempty (skating_distance_section new)),
    (nonempty (skating_speed_section new)), (nonempty (overview_section new));
    reflexivity.
Qed.

Lemma merge_skating_distance_section existing new :
  skating_distance_section (merge_parsed_data existing new)
  = if nonempty (skating_distance_section new) then skating_distance_section new
    else skating_distance_section existing.
Proof.
  unfold merge_parsed_data.
  destruct (radar_chart new), (nonempty (zonetime_section new)),
    (shot_location_truthy (shot_location_section new)),
    (nonempty (shot_speed_section new)), (nonempty (skating_distance_section new)),
    (nonempty (skating_speed_section new)), (nonempty (overview_section new));
    reflexivity.
Qed.

Lemma merge_shot_speed_section existing new :
  shot_speed_section (merge_parsed_data existing new)
  = if nonempty (shot_speed_section new) then shot_speed_section new
    else shot_speed_section existing.
Proof.
  unfold merge_parsed_data.
  destruct (radar_chart new), (nonempty (zonetime_section new)),
    (shot_location_truthy (shot_location_section new)),
    (nonempty (shot_speed_section new)), (nonempty (skating_distance_section new)),
    (nonempty (skating_speed_section new)), (nonempty (overview_section new));
    reflexivity.
Qed.

Lemma merge_shot_location_section existing new :
  shot_location_section (merge_parsed_data existing new)
  = if shot_location_truthy (shot_location_section new) then shot_location_section new
    else shot_location_section existing.
Proof.
  unfold merge_parsed_data.
  destruct (radar_chart new), (nonempty (zonetime_section new)),
    (shot_location_truthy (shot_location_section new)),
    (nonempty (shot_speed_section new)), (nonempty (skating_distance_section new)),
    (nonempty (skating_speed_section new)), (nonempty (overview_section new));
    reflexivity.
Qed.

Lemma merge_zonetime_section existing new :
  zonetime_section (merge_parsed_data existing new)
  = if nonempty (zonetime_section new) then zonetime_section new
    else zonetime_section existing.
Proof.
  unfold merge_parsed_data.
  destruct (radar_chart new), (nonempty (zonetime_section new)),
    (shot_location_truthy (shot_location_section new)),
    (nonempty (shot_speed_section new)), (nonempty (skating_distance_section new)),
    (nonempty (skating_speed_section new)), (nonempty (overview_section new));
    reflexivity.
Qed.

Lemma merge_radar_chart existing new :
  radar_chart (merge_parsed_data existing new)
  = match radar_chart new with
    | Some chart => Some chart
    | None => radar_chart existing
    end.
Proof.
  unfold merge_parsed_data.
  destruct (radar_chart new), (nonempty (zonetime_section new)),
    (shot_location_truthy (shot_location_section new)),
    (nonempty (shot_speed_section new)), (nonempty (skating_distance_section new)),
    (nonempty (skating_speed_section new)), (nonempty (overview_section new));
    reflexivity.
Qed.

Lemma ParsedEdgeData_eq (p q : ParsedEdgeData) :
  overview_section p = overview_section q ->
  skating_speed_section p = skating_speed_section q ->
  skating_distance_section p = skating_distance_section q ->
  shot_speed_section p = shot_speed_section q ->
  shot_location_section p = shot_location_section q ->
  zonetime_section p = zonetime_section q ->
  radar_chart p = radar_chart q ->
  p = q.
Proof. destruct p, q; simpl; intros; congruence. Qed.

Create Rewrite HintDb merge_slots.
#[export] Hint Rewrite merge_overview_section merge_skating_speed_section
  merge_skating_distance_section merge_shot_speed_section
  merge_shot_location_section merge_zonetime_section merge_radar_chart : merge_slots.

(** C4: merging a payload never erases a slot of the aggregate: for each
    of the seven slots, when the payload's value for the slot is empty (an
    empty sequence, more generally a value that counts as false, or an
    absent chart), the slot of the merged aggregate is the aggregate's
    previous value. *)
Theorem merge_never_erases (existing new : ParsedEdgeData) :
  (overview_section new = [] ->
     overview_section (merge_parsed_data existing new) = overview_section existing)
  /\ (skating_speed_section new = [] ->
     skating_speed_section (merge_parsed_data existing new) = skating_speed_section existing)
  /\ (skating_distance_section new = [] ->
     skating_distance_section (merge_parsed_data existing new)
     = skating_distance_section existing)
  /\ (shot_speed_section new = [] ->
     shot_speed_section (merge_parsed_data existing new) = shot_speed_section existing)
  /\ (shot_location_truthy (shot_location_section new) = false ->
     shot_location_section (merge_parsed_data existing new) = shot_location_section existing)
  /\ (zonetime_section new = [] ->
     zonetime_section (merge_parsed_data existing new) = zonetime_section existing)
  /\ (radar_chart new = None ->
     radar_chart (merge_parsed_data existing new) = radar_chart existing).
Proof.
  autorewrite with merge_slots.
  repeat split; intros E; rewrite E; reflexivity.
Qed.

Lemma merge_never_erases_witness :
  merge_parsed_data sample_aggregate empty_data = sample_aggregate.
Proof.
  destruct (merge_never_erases sample_aggregate empty_data)
    as (H1 & H2 & H3 & H4 & H5 & H6 & H7).
  apply ParsedEdgeData_eq;
    [ apply H1 | apply H2 | apply H3 | apply H4 | apply H5 | apply H6 | apply H7 ];
    reflexivity.
Defined.

(** C5: merge is idempotent: merging the same payload into an aggregate a
    second time changes nothing.  It holds for every payload, the non-empty
    ones in particular. *)
Theorem merge_idempotent (existing new : ParsedEdgeData) :
  merge_parsed_data (merge_parsed_data existing new) new
  = merge_parsed_data existing new.
Proof.
  apply ParsedEdgeData_eq; autorewrite with merge_slots.
  - destruct (nonempty (overview_section new)); reflexivity.
  - destruct (nonempty (skating_speed_section new)); reflexivity.
  - destruct (nonempty (skating_distance_section new)); reflexivity.
  - destruct (nonempty (shot_speed_section new)); reflexivity.
  - destruct (shot_location_truthy (shot_location_section new)); reflexivity.
  - destruct (nonempty (zonetime_section new)); reflexivity.
  - destruct (radar_chart new); reflexivity.
Qed.

(** ** Texts and numbers *)

Section CharLemmas.
Variable c : ascii.

Lemma has_char_lstrip sp s :
  sp c = false -> has_char c (lstrip_with sp s) = has_char c s.
Proof.
  intros Hc. induction s as [|d r IH]; simpl; [reflexivity|].
  destruct (sp d) eqn:Hd; [|reflexivity].
  rewrite IH. destruct (Ascii.eqb_spec d c) as [->|]; [congruence|reflexivity].
Qed.

Lemma has_char_rstrip sp s :
  sp c = false -> has_char c (rstrip_with sp s) = has_char c s.
Proof.
  intros Hc. induction s as [|d r IH]; simpl; [reflexivity|].
  rewrite <- IH.
  destruct (rstrip_with sp r) as [|e r']; [|reflexivity].
  destruct (sp d) eqn:Hd; simpl; [|reflexivity].
  destruct (Ascii.eqb_spec d c) as [->|]; [congruence|reflexivity].
Qed.

Lemma has_char_remove d s :
  Ascii.eqb c d = false -> has_char c (remove_char d s) = has_char c s.
Proof.
  intros Hcd. induction s as [|x r IH]; simpl; [reflexivity|].
  destruct (Ascii.eqb_spec x d) as [->|]; simpl; rewrite IH; [|reflexivity].
  rewrite Ascii.eqb_sym, Hcd. reflexivity.
Qed.

Lemma has_char_span_digits s :
  is_digit c = false -> has_char c (snd (span_digits s)) = has_char c s.
Proof.
  intros Hc. induction s as [|d r IH]; simpl; [reflexivity|].
  destruct (is_digit d) eqn:Hd; [|reflexivity].
  destruct (span_digits r) as [ds r'] eqn:E; simpl in *. rewrite IH.
  destruct (Ascii.eqb_spec d c) as [->|]; [congruence|reflexivity].
Qed.

Lemma has_char_take_sign s :
  Ascii.eqb c "+" = false -> Ascii.eqb c "-" = false ->
  has_char c (snd (take_sign s)) = has_char c s.
Proof.
  intros Hp Hm. destruct s as [|d r]; [reflexivity|].
  unfold take_sign.
  destruct (Ascii.eqb_spec d "-") as [->|Hd1].
  { change (has_char c r = (Ascii.eqb "-" c || has_char c r)).
    rewrite Ascii.eqb_sym, Hm. reflexivity. }
  destruct (Ascii.eqb_spec d "+") as [->|Hd2].
  { change (has_char c r = (Ascii.eqb "+" c || has_char c r)).
    rewrite Ascii.eqb_sym, Hp. reflexivity. }
  destruct d as [[] [] [] [] [] [] [] []]; try reflexivity; congruence.
Qed.

Lemma has_char_lower s :
  has_char c s = true -> has_char (to_lower c) (lower s) = true.
Proof.
  induction s as [|d r IH]; simpl; [discriminate|].
  intros [E|E]%orb_true_iff.
  - apply Ascii.eqb_eq in E as ->. rewrite Ascii.eqb_refl. reflexivity.
  - rewrite (IH E). apply orb_true_r.
Qed.

End CharLemmas.

Lemma float_char_false c :
  float_char c = false ->
  c_isspace c = false /\ is_digit c = false
  /\ Ascii.eqb c "+" = false /\ Ascii.eqb c "-" = false
  /\ Ascii.eqb c "." = false /\ Ascii.eqb c "_" = false
  /\ Ascii.eqb c "e" = false /\ Ascii.eqb c "E" = false
  /\ has_char (to_lower c) "infatyn" = false.
Proof.
  unfold float_char. intros [H Hw]%orb_false_iff.
  cbn [has_char] in H.
  rewrite !(Ascii.eqb_sym _ c), !orb_false_r, !orb_false_iff in H.
  destruct H as ((? & ?) & ? & ? & ? & ? & ? & ?). repeat split; assumption.
Qed.

(** A text that [lower] sends to one of the three words is made of their letters. *)
Lemma word_chars c r (w : string) :
  has_char (to_lower c) "infatyn" = false ->
  lower r = w -> (w = "inf" \/ w = "infinity" \/ w = "nan") ->
  has_char c r = false.
Proof.
  intros Hc Hw Hin. destruct (has_char c r) eqn:E; [|reflexivity].
  apply has_char_lower in E. rewrite Hw in E.
  cbn [has_char] in Hc. rewrite !orb_false_r, !orb_false_iff in Hc.
  destruct Hc as (Hi & Hn & Hf & Ha & Ht & Hy & Hn').
  destruct Hin as [-> | [-> | ->]]; cbn [has_char] in E;
    rewrite ?Hi, ?Hn, ?Hf, ?Ha, ?Ht, ?Hy in E; discriminate.
Qed.

Lemma parse_decimal_chars c neg s f :
  is_digit c = false -> Ascii.eqb c "." = false ->
  Ascii.eqb c "e" = false -> Ascii.eqb c "E" = false ->
  Ascii.eqb c "+" = false -> Ascii.eqb c "-" = false ->
  parse_decimal neg s = Some f -> has_char c s = false.
Proof.
  intros Hd Hdot He HE Hp Hm. unfold parse_decimal.
  pose proof (has_char_span_digits c s Hd) as H1.
  destruct (span_digits s) as [ip r1]; simpl in H1. rewrite <- H1. clear H1.
  assert (Hfp : forall fp r2,
             match r1 with
             | String "." t => span_digits t
             | _ => ([], r1)
             end = (fp, r2) -> has_char c r1 = has_char c r2).
  { intros fp r2 E. destruct r1 as [|d t]; [inversion E; reflexivity|].
    destruct (Ascii.eqb_spec d ".") as [->|Hne].
    - pose proof (has_char_span_digits c t Hd) as H2. rewrite E in H2. simpl in H2.
      cbn [has_char]. rewrite Ascii.eqb_sym, Hdot. simpl. congruence.
    - destruct d as [[] [] [] [] [] [] [] []]; try (inversion E; reflexivity); congruence. }
  destruct (match r1 with String "." t => span_digits t | _ => ([], r1) end)
    as [fp r2] eqn:E.
  rewrite (Hfp _ _ eq_refl). clear Hfp E.
  destruct (ip ++ fp); [discriminate|].
  destruct r2 as [|x t]; [reflexivity|].
  destruct (is_e x) eqn:Hx; [|discriminate].
  pose proof (has_char_take_sign c t Hp Hm) as H3.
  destruct (take_sign t) as [eneg t1]; simpl in H3.
  pose proof (has_char_span_digits c t1 Hd) as H4.
  destruct (span_digits t1) as [ep t2]; simpl in H4.
  destruct ep; [discriminate|]. destruct t2; [|discriminate].
  intros _. cbn [has_char]. rewrite <- H3, <- H4. cbn [has_char].
  rewrite orb_false_r.
  unfold is_e in Hx. apply orb_true_iff in Hx as [Hx|Hx];
    apply Ascii.eqb_eq in Hx; subst x.
  - rewrite Ascii.eqb_sym. exact He.
  - rewrite Ascii.eqb_sym. exact HE.
Qed.

Lemma float_literal_chars c s f :
  float_char c = false -> float_literal s = Some f -> has_char c s = false.
Proof.
  intros (Hsp & Hd & Hp & Hm & Hdot & Hu & He & HE & Hw)%float_char_false.
  unfold float_literal.
  pose proof (has_char_take_sign c s Hp Hm) as H1.
  destruct (take_sign s) as [neg r]; simpl in H1. rewrite <- H1.
  destruct (String.eqb_spec (lower r) "inf") as [E|_].
  { intros _. eapply word_chars; eauto. }
  destruct (String.eqb_spec (lower r) "infinity") as [E|_].
  { intros _. eapply word_chars; eauto. }
  destruct (String.eqb_spec (lower r) "nan") as [E|_].
  { intros _. eapply word_chars; eauto. }
  simpl. apply parse_decimal_chars; assumption.
Qed.

(** [float] accepts a text only if all its characters can occur in a float
    literal. *)
Lemma float_of_str_chars c text f :
  float_char c = false -> float_of_str text = Some f -> has_char c text = false.
Proof.
  intros Hc. pose proof Hc as (Hsp & Hd & Hp & Hm & Hdot & Hu & He & HE & Hw)%float_char_false.
  unfold float_of_str.
  rewrite <- (has_char_lstrip c c_isspace text Hsp).
  rewrite <- (has_char_rstrip c c_isspace _ Hsp).
  set (s := rstrip_with c_isspace (lstrip_with c_isspace text)).
  destruct (has_char "_" s).
  - destruct (underscores_ok "000" s); [|discriminate].
    intros E. rewrite <- (has_char_remove c "_" s Hu).
    eapply float_literal_chars; eauto.
  - apply float_literal_chars; assumption.
Qed.

Lemma has_digit_lstrip sp s :
  has_digit s = false -> has_digit (lstrip_with sp s) = false.
Proof.
  induction s as [|d r IH]; simpl; [reflexivity|].
  intros [Hd Hr]%orb_false_iff.
  destruct (sp d); [auto|]. simpl. rewrite Hd, Hr. reflexivity.
Qed.

Lemma has_digit_rstrip sp s :
  has_digit s = false -> has_digit (rstrip_with sp s) = false.
Proof.
  induction s as [|d r IH]; simpl; [reflexivity|].
  intros [Hd Hr]%orb_false_iff. specialize (IH Hr).
  destruct (rstrip_with sp r) as [|e r'].
  - destruct (sp d); simpl; [reflexivity|]. rewrite Hd. reflexivity.
  - change (is_digit d || has_digit (String e r') = false).
    rewrite Hd, IH. reflexivity.
Qed.

Lemma has_digit_remove c s :
  has_digit s = false -> has_digit (remove_char c s) = false.
Proof.
  induction s as [|d r IH]; simpl; [reflexivity|].
  intros [Hd Hr]%orb_false_iff.
  destruct (Ascii.eqb d c); [auto|]. simpl. rewrite Hd. auto.
Qed.

Lemma has_digit_take_sign s :
  has_digit s = false -> has_digit (snd (take_sign s)) = false.
Proof.
  destruct s as [|d r]; [reflexivity|].
  intros H. pose proof H as [Hd Hr]%orb_false_iff.
  unfold take_sign.
  destruct d as [[] [] [] [] [] [] [] []]; try exact H; exact Hr.
Qed.

Lemma span_digits_no_digit s :
  has_digit s = false -> span_digits s = ([], s).
Proof.
  destruct s as [|d r]; simpl; [reflexivity|].
  intros [Hd _]%orb_false_iff. rewrite Hd. reflexivity.
Qed.

Lemma parse_decimal_no_digit neg s :
  has_digit s = false -> parse_decimal neg s = None.
Proof.
  intros H. unfold parse_decimal. rewrite (span_digits_no_digit s H).
  destruct s as [|d t]; [reflexivity|].
  pose proof H as [Hd Ht]%orb_false_iff.
  destruct (Ascii.eqb_spec d ".") as [->|Hne].
  - rewrite (span_digits_no_digit t Ht). reflexivity.
  - destruct d as [[] [] [] [] [] [] [] []]; try reflexivity; congruence.
Qed.

(** An underscore needs a digit before it. *)
Lemma underscores_need_digit s : forall prev,
  has_digit s = false -> is_digit prev = false ->
  has_char "_" s = true -> underscores_ok prev s = false.
Proof.
  induction s as [|d r IH]; intros prev Hs Hp Hu; [discriminate|].
  pose proof Hs as [Hd Hr]%orb_false_iff.
  cbn [underscores_ok].
  destruct (Ascii.eqb d "_") eqn:E.
  - rewrite Hp. reflexivity.
  - cbn [has_char] in Hu. rewrite E in Hu. simpl in Hu.
    rewrite (IH d Hr Hd Hu). apply andb_false_r.
Qed.

(** Stripping with a smaller class of spaces after stripping changes nothing. *)
Lemma lstrip_head sp s :
  lstrip_with sp s = EmptyString
  \/ exists c r, lstrip_with sp s = String c r /\ sp c = false.
Proof.
  induction s as [|d r IH]; simpl; [left; reflexivity|].
  destruct (sp d) eqn:E; [exact IH|]. right. eauto.
Qed.

Lemma rstrip_rstrip (sp sp' : ascii -> bool) s :
  (forall c, sp c = true -> sp' c = true) ->
  rstrip_with sp (rstrip_with sp' s) = rstrip_with sp' s.
Proof.
  intros Hsub. induction s as [|d r IH]; [reflexivity|].
  cbn [rstrip_with].
  destruct (rstrip_with sp' r) as [|e u] eqn:E.
  - destruct (sp' d) eqn:Hd; [reflexivity|].
    cbn [rstrip_with]. destruct (sp d) eqn:Hd'; [|reflexivity].
    rewrite (Hsub _ Hd') in Hd. discriminate.
  - cbn [rstrip_with] in *. rewrite IH. reflexivity.
Qed.

Lemma lstrip_after_strip (sp sp' : ascii -> bool) s :
  (forall c, sp c = true -> sp' c = true) ->
  lstrip_with sp (rstrip_with sp' (lstrip_with sp' s))
  = rstrip_with sp' (lstrip_with sp' s).
Proof.
  intros Hsub. destruct (lstrip_head sp' s) as [->|(c & r & -> & Hc)]; [reflexivity|].
  cbn [rstrip_with].
  assert (Hc' : sp c = false).
  { destruct (sp c) eqn:E; [|reflexivity]. rewrite (Hsub _ E) in Hc. discriminate. }
  destruct (rstrip_with sp' r); rewrite ?Hc; cbn [lstrip_with]; rewrite Hc'; reflexivity.
Qed.

Lemma c_isspace_isspace c : c_isspace c = true -> isspace c = true.
Proof.
  unfold c_isspace, isspace.
  intros [H|H]%orb_true_iff; [rewrite H; reflexivity|].
  apply N.eqb_eq in H. rewrite H. reflexivity.
Qed.

Lemma float_of_str_strip s :
  float_of_str (strip s)
  = if has_char "_" (strip s)
    then if underscores_ok "000" (strip s)
         then float_literal (remove_char "_" (strip s)) else None
    else float_literal (strip s).
Proof.
  unfold float_of_str, strip.
  rewrite (lstrip_after_strip c_isspace isspace s c_isspace_isspace).
  rewrite (rstrip_rstrip c_isspace isspace _ c_isspace_isspace).
  reflexivity.
Qed.

Lemma remove_char_idem c s : remove_char c (remove_char c s) = remove_char c s.
Proof.
  induction s as [|d r IH]; simpl; [reflexivity|].
  destruct (Ascii.eqb d c) eqn:E; [exact IH|]. simpl. rewrite E, IH. reflexivity.
Qed.

Lemma remove_char_comm c d s :
  remove_char c (remove_char d s) = remove_char d (remove_char c s).
Proof.
  induction s as [|x r IH]; simpl; [reflexivity|].
  destruct (Ascii.eqb x d) eqn:Ed, (Ascii.eqb x c) eqn:Ec; simpl;
    rewrite ?Ed, ?Ec, IH; reflexivity.
Qed.

Lemma remove_char_absent c s : has_char c s = false -> remove_char c s = s.
Proof.
  induction s as [|d r IH]; simpl; [reflexivity|].
  intros [Hd Hr]%orb_false_iff. rewrite Hd, (IH Hr). reflexivity.
Qed.

Lemma append_empty_r s : s +:+ EmptyString = s.
Proof.
  induction s as [|c s IH]; [reflexivity|].
  change (String c (s +:+ EmptyString) = String c s). rewrite IH. reflexivity.
Qed.

Lemma digit_facts c :
  is_digit c = true ->
  isspace c = false /\ c_isspace c = false
  /\ Ascii.eqb c "%" = false /\ Ascii.eqb c "," = false /\ Ascii.eqb c "_" = false
  /\ Ascii.eqb c "-" = false /\ Ascii.eqb c "+" = false
  /\ Ascii.eqb (to_lower c) "i" = false /\ Ascii.eqb (to_lower c) "n" = false.
Proof.
  destruct c as [[] [] [] [] [] [] [] []]; intros H; try discriminate H;
    repeat split; reflexivity.
Qed.

Lemma all_digits_span s :
  all_digits s = true -> span_digits s = (digits_of s, EmptyString).
Proof.
  induction s as [|d r IH]; [reflexivity|].
  simpl. intros [Hd Hr]%andb_true_iff. rewrite Hd, (IH Hr). reflexivity.
Qed.

(** *** The float syntax *)

Lemma append_cons c a b : String c a +:+ b = String c (a +:+ b).
Proof. reflexivity. Qed.

Lemma append_assoc3 a b c : (a +:+ b) +:+ c = a +:+ (b +:+ c).
Proof.
  induction a as [|x a IH]; [reflexivity|].
  rewrite !append_cons, IH. reflexivity.
Qed.

Lemma span_digits_split s : forall ds r,
  span_digits s = (ds, r) ->
  exists p, s = p +:+ r /\ all_digits p = true /\ ds = digits_of p.
Proof.
  induction s as [|c t IH]; intros ds r E.
  - inversion E; subst. exists EmptyString. repeat split.
  - cbn [span_digits] in E. destruct (is_digit c) eqn:Hc.
    + destruct (span_digits t) as [ds' r'] eqn:Et. inversion E; subst.
      destruct (IH ds' r eq_refl) as (p & -> & Hp & ->).
      exists (String c p). cbn [all_digits digits_of]. rewrite Hc, Hp. repeat split.
    + inversion E; subst. exists EmptyString. repeat split.
Qed.

Lemma digits_of_nil p : digits_of p = [] -> p = EmptyString.
Proof. destruct p; [reflexivity|discriminate]. Qed.

(** The two ways the parser looks at the head of a text. *)
Lemma point_view (r : string) :
  (exists t, r = String "." t)
  \/ (match r with
      | String "." t => span_digits t
      | _ => ([], r)
      end = ([], r)
      /\ forall t, r <> String "." t).
Proof.
  destruct r as [|d t]; [right; split; [reflexivity|discriminate]|].
  destruct (Ascii.eqb_spec d ".") as [->|Hne]; [left; eauto|].
  right. split; [|congruence].
  destruct d as [[] [] [] [] [] [] [] []]; try reflexivity; congruence.
Qed.

Lemma take_sign_split s neg r :
  take_sign s = (neg, r) -> exists sg, sign_text sg /\ s = sg +:+ r.
Proof.
  unfold take_sign, sign_text. destruct s as [|d t].
  { intros [= <- <-]. exists EmptyString. auto. }
  destruct (Ascii.eqb_spec d "-") as [->|H1].
  { intros [= <- <-]. exists "-". auto. }
  destruct (Ascii.eqb_spec d "+") as [->|H2].
  { intros [= <- <-]. exists "+". auto. }
  intros E. exists EmptyString. split; [auto|].
  destruct d as [[] [] [] [] [] [] [] []]; inversion E; subst; try reflexivity; congruence.
Qed.

Lemma parse_decimal_sound neg s f :
  parse_decimal neg s = Some f -> plain_float s.
Proof.
  unfold parse_decimal.
  destruct (span_digits s) as [ipd r1] eqn:E1.
  destruct (span_digits_split s ipd r1 E1) as (ip & -> & Hip & ->).
  assert (Hnum : forall fpd r2,
            match r1 with
            | String "." t => span_digits t
            | _ => ([], r1)
            end = (fpd, r2) ->
            digits_of ip ++ fpd <> [] ->
            exists n, plain_number n /\ ip +:+ r1 = n +:+ r2).
  { intros fpd r2 E Hne. destruct (point_view r1) as [[t ->]|[E' _]].
    - destruct (span_digits_split t fpd r2 E) as (fp & -> & Hfp & ->).
      destruct ip as [|c ip'].
      + exists (String "." fp). split.
        * apply number_frac. split; [|exact Hfp].
          intros ->. apply Hne. reflexivity.
        * reflexivity.
      + exists (String c ip' +:+ String "." fp). split.
        * apply number_point; [split; [discriminate|exact Hip]|exact Hfp].
        * rewrite append_assoc3. reflexivity.
    - rewrite E' in E. inversion E; subst. rewrite app_nil_r in Hne.
      exists ip. split; [|reflexivity].
      apply number_int. split; [|exact Hip]. intros ->. apply Hne. reflexivity. }
  destruct (match r1 with String "." t => span_digits t | _ => ([], r1) end)
    as [fpd r2] eqn:E2.
  specialize (Hnum fpd r2 eq_refl).
  destruct (digits_of ip ++ fpd) as [|d0 ds0] eqn:Eds; [discriminate|].
  destruct Hnum as (num & Hn & ->); [discriminate|].
  destruct r2 as [|c t].
  - intros _. rewrite append_empty_r. apply float_number, Hn.
  - destruct (is_e c) eqn:Hc; [|discriminate].
    destruct (take_sign t) as [eneg t1] eqn:Et.
    destruct (take_sign_split t eneg t1 Et) as (sg & Hsg & ->).
    destruct (span_digits t1) as [epd r3] eqn:E3.
    destruct (span_digits_split t1 epd r3 E3) as (ep & -> & Hep & ->).
    destruct (digits_of ep) as [|d1 ds1] eqn:Eep; [discriminate|].
    destruct r3; [|discriminate]. intros _.
    rewrite append_empty_r.
    apply float_exponent; [exact Hn|exact Hc|exact Hsg|].
    split; [|exact Hep]. intros ->. discriminate.
Qed.

Lemma float_literal_sound s f :
  float_literal s = Some f -> special_word s = true \/ signed_float s.
Proof.
  unfold float_literal, special_word.
  destruct (take_sign s) as [neg r] eqn:E.
  destruct (take_sign_split s neg r E) as (sg & Hsg & ->).
  destruct (String.eqb (lower r) "inf" || String.eqb (lower r) "infinity") eqn:E1;
    [intros _; left; reflexivity|].
  destruct (String.eqb (lower r) "nan") eqn:E2.
  { intros _. left. apply orb_true_r. }
  intros H. right. exists sg, r. split; [exact Hsg|]. split; [|reflexivity].
  eapply parse_decimal_sound, H.
Qed.

Lemma underscores_ok_between s : forall prev,
  underscores_ok prev s = true ->
  forall a b, s = a +:+ String "_" b ->
  is_digit (last_or prev a) = true /\ starts_with_digit b.
Proof.
  induction s as [|c r IH]; intros prev Hok a b E.
  { destruct a; discriminate. }
  cbn [underscores_ok] in Hok. destruct a as [|x a'].
  - change (String c r = String "_" b) in E. injection E as -> ->.
    rewrite Ascii.eqb_refl in Hok. apply andb_true_iff in Hok as [Hp Hr].
    split; [exact Hp|].
    destruct b as [|d b']; [discriminate|].
    cbn [underscores_ok] in Hr. destruct (Ascii.eqb d "_") eqn:Ed.
    + apply andb_true_iff in Hr as [Hr _]. discriminate.
    + rewrite Ascii.eqb_refl in Hr. apply andb_true_iff in Hr as [Hr _]. exact Hr.
  - rewrite append_cons in E. injection E as -> ->.
    assert (Hr : underscores_ok x (a' +:+ String "_" b) = true).
    { destruct (Ascii.eqb x "_"); apply andb_true_iff in Hok as [_ Hok]; exact Hok. }
    exact (IH x Hr a' b eq_refl).
Qed.

Lemma between_underscores_ok s : forall prev,
  (prev = "_"%char -> starts_with_digit s) ->
  (forall a b, s = a +:+ String "_" b ->
               is_digit (last_or prev a) = true /\ starts_with_digit b) ->
  underscores_ok prev s = true.
Proof.
  induction s as [|c r IH]; intros prev Hp H; cbn [underscores_ok].
  { destruct (Ascii.eqb_spec prev "_") as [E|]; [destruct (Hp E)|reflexivity]. }
  destruct (Ascii.eqb_spec c "_") as [->|Hc].
  - destruct (H EmptyString r eq_refl) as [Hd Hs]. cbn [last_or] in Hd. rewrite Hd.
    apply IH; [intros _; exact Hs|].
    intros a b ->. apply (H (String "_" a) b). reflexivity.
  - apply andb_true_iff. split.
    + destruct (Ascii.eqb_spec prev "_") as [E|]; [exact (Hp E)|reflexivity].
    + apply IH; [congruence|].
      intros a b ->. apply (H (String c a) b). reflexivity.
Qed.

Lemma has_char_middle c a b : has_char c (a +:+ String c b) = true.
Proof.
  induction a as [|x a IH].
  - change (has_char c (String c b) = true). cbn [has_char].
    rewrite Ascii.eqb_refl. reflexivity.
  - rewrite append_cons. cbn [has_char]. rewrite IH. apply orb_true_r.
Qed.

Lemma is_digit_lower c : is_digit (to_lower c) = is_digit c.
Proof. destruct c as [[] [] [] [] [] [] [] []]; reflexivity. Qed.

Lemma has_digit_lower s : has_digit (lower s) = has_digit s.
Proof.
  induction s as [|c r IH]; [reflexivity|]. cbn [lower has_digit].
  rewrite is_digit_lower, IH. reflexivity.
Qed.

Lemma special_word_no_digit s : special_word s = true -> has_digit s = false.
Proof.
  unfold special_word. destruct (take_sign s) as [neg r] eqn:E.
  destruct (take_sign_split s neg r E) as (sg & Hsg & ->). intros H.
  assert (Hr : has_digit r = false).
  { rewrite <- has_digit_lower.
    apply orb_true_iff in H as [H|H]; [apply orb_true_iff in H as [H|H]|];
      apply String.eqb_eq in H; rewrite H; reflexivity. }
  destruct Hsg as [-> | [-> | ->]]; exact Hr.
Qed.

Lemma special_word_no_underscore s : special_word s = true -> has_char "_" s = false.
Proof.
  unfold special_word. destruct (take_sign s) as [neg r] eqn:E.
  destruct (take_sign_split s neg r E) as (sg & Hsg & ->). intros H.
  assert (Hr : has_char "_" r = false).
  { apply (word_chars "_" r (lower r)); [reflexivity|reflexivity|].
    apply orb_true_iff in H as [H|H]; [apply orb_true_iff in H as [H|H]|];
      apply String.eqb_eq in H; auto. }
  destruct Hsg as [-> | [-> | ->]]; exact Hr.
Qed.

Lemma has_digit_remove_keep c s :
  is_digit c = false -> has_digit (remove_char c s) = has_digit s.
Proof.
  intros Hc. induction s as [|d r IH]; [reflexivity|].
  cbn [remove_char has_digit]. destruct (Ascii.eqb_spec d c) as [->|].
  - rewrite Hc, IH. reflexivity.
  - cbn [has_digit]. rewrite IH. reflexivity.
Qed.

Lemma float_body_sound s f :
  float_body s = Some f -> special_word s = true \/ decimal_number s.
Proof.
  unfold float_body, decimal_number. destruct (has_char "_" s) eqn:Hu.
  - destruct (underscores_ok "000" s) eqn:Hok; [|discriminate].
    intros H. right. split.
    + intros a b E. apply (underscores_ok_between s "000" Hok a b E).
    + destruct (float_literal_sound _ _ H) as [Hs|Hs]; [|exact Hs].
      apply special_word_no_digit in Hs.
      rewrite (has_digit_remove_keep "_" s eq_refl) in Hs.
      rewrite (underscores_need_digit s "000" Hs eq_refl Hu) in Hok. discriminate.
  - intros H. destruct (float_literal_sound _ _ H) as [Hs|Hs]; [left; exact Hs|].
    right. split.
    + intros a b ->. rewrite has_char_middle in Hu. discriminate.
    + rewrite (remove_char_absent "_" s Hu). exact Hs.
Qed.

Lemma span_digits_app p r :
  all_digits p = true ->
  match r with String c _ => is_digit c = false | EmptyString => True end ->
  span_digits (p +:+ r) = (digits_of p, r).
Proof.
  intros Hp Hr. induction p as [|d p IH].
  - change (span_digits r = ([], r)). destruct r as [|c t]; [reflexivity|].
    cbn [span_digits]. rewrite Hr. reflexivity.
  - cbn [all_digits] in Hp. apply andb_true_iff in Hp as [Hd Hp].
    rewrite append_cons. cbn [span_digits digits_of]. rewrite Hd, (IH Hp). reflexivity.
Qed.

Lemma digit_text_digits s : digit_text s -> exists d ds, digits_of s = d :: ds.
Proof. intros [Hne _]. destruct s; [congruence|]. cbn [digits_of]. eauto. Qed.

Lemma digit_text_head s :
  digit_text s -> exists c t, s = String c t /\ is_digit c = true.
Proof.
  intros [Hne Hd]. destruct s as [|c t]; [congruence|].
  cbn [all_digits] in Hd. apply andb_true_iff in Hd as [Hc _]. eauto.
Qed.

Lemma take_sign_plain c t :
  Ascii.eqb c "-" = false -> Ascii.eqb c "+" = false ->
  take_sign (String c t) = (false, String c t).
Proof.
  intros H1 H2.
  destruct c as [[] [] [] [] [] [] [] []]; try reflexivity; discriminate.
Qed.

Lemma take_sign_signed sg c t :
  sign_text sg -> Ascii.eqb c "-" = false -> Ascii.eqb c "+" = false ->
  exists neg, take_sign (sg +:+ String c t) = (neg, String c t).
Proof.
  intros [-> | [-> | ->]] H1 H2.
  - exists false. apply take_sign_plain; assumption.
  - exists false. reflexivity.
  - exists true. reflexivity.
Qed.

Lemma exponent_text_head r :
  exponent_text r ->
  match r with String c _ => is_digit c = false | EmptyString => True end
  /\ match r with
     | String "." t => span_digits t
     | _ => ([], r)
     end = ([], r).
Proof.
  intros [-> | (c & sg & ep & Hc & _ & _ & ->)]; [split; [exact I|reflexivity]|].
  unfold is_e in Hc. apply orb_true_iff in Hc as [Hc|Hc];
    apply Ascii.eqb_eq in Hc; subst c; split; reflexivity.
Qed.

Lemma parse_exponent neg d ds e0 r :
  exponent_text r ->
  exists f,
    match r with
    | EmptyString => Some (mk_finite neg (d :: ds) e0)
    | String c t =>
        if is_e c then
          let '(eneg, t1) := take_sign t in
          match span_digits t1 with
          | ((_ :: _) as ep, EmptyString) =>
              Some (mk_finite neg (d :: ds) (signed eneg (digits_to_N ep) + e0)%Z)
          | _ => None
          end
        else None
    end = Some f.
Proof.
  intros [-> | (c & sg & ep & Hc & Hsg & Hep & ->)]; [eauto|].
  rewrite Hc.
  destruct (digit_text_head ep Hep) as (x & t & E & Hx).
  destruct (digit_facts x Hx) as (_ & _ & _ & _ & _ & Hm & Hp & _).
  destruct (take_sign_signed sg x t Hsg Hm Hp) as (eneg & Ht).
  rewrite E, Ht, <- E. rewrite (all_digits_span ep (proj2 Hep)).
  destruct (digit_text_digits ep Hep) as (y & ys & ->). eauto.
Qed.


Lemma parse_decimal_unfold neg s :
  parse_decimal neg s
  = let '(ip, r1) := span_digits s in
    let '(fp, r2) := match r1 with
                     | String "." t => span_digits t
                     | _ => ([], r1)
                     end in
    match ip ++ fp with
    | [] => None
    | ds =>
        let e0 := (- Z.of_nat (length fp))%Z in
        match r2 with
        | EmptyString => Some (mk_finite neg ds e0)
        | String c t =>
            if is_e c then
              let '(eneg, t1) := take_sign t in
              match span_digits t1 with
              | ((_ :: _) as ep, EmptyString) =>
                  Some (mk_finite neg ds (signed eneg (digits_to_N ep) + e0)%Z)
              | _ => None
              end
            else None
        end
    end.
Proof. reflexivity. Qed.

Lemma parse_decimal_number neg n r :
  plain_number n -> exponent_text r -> exists f, parse_decimal neg (n +:+ r) = Some f.
Proof.
  intros Hn Hr. destruct (exponent_text_head r Hr) as [Hh Hv].
  rewrite parse_decimal_unfold. destruct Hn as [ip Hip | ip fp Hip Hfp | fp Hfp].
  - rewrite (span_digits_app ip r (proj2 Hip) Hh), Hv.
    destruct (digit_text_digits ip Hip) as (d & ds & ->).
    rewrite app_nil_r. apply parse_exponent, Hr.
  - rewrite append_assoc3, append_cons.
    rewrite (span_digits_app ip (String "." (fp +:+ r)) (proj2 Hip) eq_refl).
    cbv beta iota zeta. rewrite (span_digits_app fp r Hfp Hh).
    destruct (digit_text_digits ip Hip) as (d & ds & ->).
    change ((d :: ds) ++ digits_of fp) with (d :: (ds ++ digits_of fp)).
    apply parse_exponent, Hr.
  - rewrite append_cons.
    change (span_digits (String "." (fp +:+ r))) with (@nil N, String "." (fp +:+ r)).
    cbv beta iota zeta. rewrite (span_digits_app fp r (proj2 Hfp) Hh).
    destruct (digit_text_digits fp Hfp) as (d & ds & ->).
    change ([] ++ d :: ds) with (d :: ds).
    apply parse_exponent, Hr.
Qed.

Lemma parse_decimal_complete neg s :
  plain_float s -> exists f, parse_decimal neg s = Some f.
Proof.
  intros [n Hn | n c sg ep Hn Hc Hsg Hep].
  - rewrite <- (append_empty_r n). apply parse_decimal_number; [exact Hn|left; reflexivity].
  - apply parse_decimal_number; [exact Hn|]. right. exists c, sg, ep. auto.
Qed.

Lemma plain_number_head n :
  plain_number n -> exists c t, n = String c t /\ (is_digit c = true \/ c = "."%char).
Proof.
  intros [ip Hip | ip fp Hip _ | fp _].
  - destruct (digit_text_head ip Hip) as (c & t & -> & Hc). eauto.
  - destruct (digit_text_head ip Hip) as (c & t & -> & Hc).
    rewrite append_cons. eauto.
  - eauto.
Qed.

Lemma plain_float_head s :
  plain_float s -> exists c t, s = String c t /\ (is_digit c = true \/ c = "."%char).
Proof.
  intros [n Hn | n c sg ep Hn _ _ _];
    destruct (plain_number_head n Hn) as (x & t & -> & Hx); [eauto|].
  rewrite append_cons. eauto.
Qed.

Lemma number_head_facts c :
  is_digit c = true \/ c = "."%char ->
  Ascii.eqb c "-" = false /\ Ascii.eqb c "+" = false
  /\ Ascii.eqb (to_lower c) "i" = false /\ Ascii.eqb (to_lower c) "n" = false.
Proof.
  intros [H | ->]; [|repeat split; reflexivity].
  destruct (digit_facts c H) as (_ & _ & _ & _ & _ & ? & ? & ? & ?). auto.
Qed.

Lemma float_literal_complete s :
  signed_float s -> exists f, float_literal s = Some f.
Proof.
  intros (sg & body & Hsg & Hb & ->).
  destruct (plain_float_head body Hb) as (c & t & E & Hc).
  destruct (number_head_facts c Hc) as (Hm & Hp & Hi & Hn).
  destruct (take_sign_signed sg c t Hsg Hm Hp) as (neg & Ht).
  unfold float_literal. rewrite E, Ht. cbn [lower].
  change (String.eqb (String (to_lower c) (lower t)) "inf")
    with (if Ascii.eqb (to_lower c) "i" then String.eqb (lower t) "nf" else false).
  change (String.eqb (String (to_lower c) (lower t)) "infinity")
    with (if Ascii.eqb (to_lower c) "i" then String.eqb (lower t) "nfinity" else false).
  change (String.eqb (String (to_lower c) (lower t)) "nan")
    with (if Ascii.eqb (to_lower c) "n" then String.eqb (lower t) "an" else false).
  rewrite Hi, Hn. cbn [orb]. rewrite <- E. apply parse_decimal_complete, Hb.
Qed.

Lemma float_body_complete s : decimal_number s -> exists f, float_body s = Some f.
Proof.
  intros [Hu Hs]. unfold float_body. destruct (has_char "_" s) eqn:Hh.
  - rewrite (between_underscores_ok s "000"); [apply float_literal_complete, Hs| |exact Hu].
    discriminate.
  - rewrite (remove_char_absent "_" s Hh) in Hs. apply float_literal_complete, Hs.
Qed.

Lemma float_body_none s :
  special_word s = false -> (float_body s = None <-> ~ decimal_number s).
Proof.
  intros Hw. split.
  - intros E Hd. destruct (float_body_complete s Hd) as (f & Hf). congruence.
  - intros Hn. destruct (float_body s) as [f|] eqn:E; [|reflexivity].
    destruct (float_body_sound s f E) as [H|H]; [congruence|contradiction].
Qed.

Lemma float_body_special s :
  special_word s = true ->
  float_body s = Some NaN \/ exists neg, float_body s = Some (Infinity neg).
Proof.
  intros H. unfold float_body. rewrite (special_word_no_underscore s H).
  unfold special_word in H. unfold float_literal. destruct (take_sign s) as [neg r].
  destruct (String.eqb (lower r) "inf" || String.eqb (lower r) "infinity") eqn:E.
  - right. eauto.
  - cbn [orb] in H. rewrite H. left. reflexivity.
Qed.

Lemma convert_to_float_body text : convert_to_float text = float_body (cleaned text).
Proof. unfold convert_to_float, cleaned. apply float_of_str_strip. Qed.

Lemma has_digit_app a b : has_digit (a +:+ b) = has_digit a || has_digit b.
Proof.
  induction a as [|c a IH]; [reflexivity|].
  rewrite append_cons. cbn [has_digit]. rewrite IH, orb_assoc. reflexivity.
Qed.

Lemma digit_text_has_digit s : digit_text s -> has_digit s = true.
Proof.
  intros H. destruct (digit_text_head s H) as (c & t & -> & Hc).
  cbn [has_digit]. rewrite Hc. reflexivity.
Qed.

Lemma plain_number_has_digit n : plain_number n -> has_digit n = true.
Proof.
  intros [ip Hip | ip fp Hip _ | fp Hfp].
  - apply digit_text_has_digit, Hip.
  - rewrite has_digit_app, (digit_text_has_digit ip Hip). reflexivity.
  - cbn [has_digit]. rewrite (digit_text_has_digit fp Hfp). reflexivity.
Qed.

(** A decimal number has a digit: the texts without any digit are among the
    non-numeric ones. *)
Lemma decimal_number_has_digit s : decimal_number s -> has_digit s = true.
Proof.
  intros [_ (sg & body & _ & Hb & E)].
  rewrite <- (has_digit_remove_keep "_" s eq_refl), E, has_digit_app.
  assert (H : has_digit body = true).
  { destruct Hb as [n Hn | n c sg' ep Hn _ _ _].
    - apply plain_number_has_digit, Hn.
    - rewrite has_digit_app, (plain_number_has_digit n Hn). reflexivity. }
  rewrite H. apply orb_true_r.
Qed.

(** C6, as stated, fails on the words that [float] reads as special values:
    the text nan has no digit, and the generic parser gives the float
    not-a-number for it rather than an absent value. *)
Lemma convert_to_float_nan :
  has_digit "nan" = false /\ convert_to_float "nan" = Some NaN.
Proof. split; reflexivity. Qed.

(** C6 (amended): the generic numeric parser does not see percent signs
    and commas; 22.91, 1,234 and 80% parse to 22.91, 1234 and 80; the empty
    text gives an absent value.  For a text of ASCII characters whose cleaned
    form is not one of the words inf, infinity or nan (any case, optional
    sign), the value is absent exactly when the cleaned form is not a decimal
    number of Python's float syntax: so it is for 12abc, 1.2.3 and
    2024-11-14.  On the three words [float] gives a special value, which the
    parser returns.  The result is an option: nothing is raised. *)
Theorem convert_to_float_spec :
  (forall text, convert_to_float (remove_char "%" text) = convert_to_float text)
  /\ (forall text, convert_to_float (remove_char "," text) = convert_to_float text)
  /\ convert_to_float "22.91" = Some (decimal 2291 (-2))
  /\ convert_to_float "1,234" = Some (float_of_Z 1234)
  /\ convert_to_float "80%" = Some (float_of_Z 80)
  /\ convert_to_float "" = None
  /\ (forall text,
        is_ascii text = true -> special_word (cleaned text) = false ->
        (convert_to_float text = None <-> ~ decimal_number (cleaned text)))
  /\ (forall text,
        is_ascii text = true -> special_word (cleaned text) = true ->
        convert_to_float text = Some NaN
        \/ exists neg, convert_to_float text = Some (Infinity neg))
  /\ convert_to_float "12abc" = None
  /\ convert_to_float "1.2.3" = None
  /\ convert_to_float "2024-11-14" = None.
Proof.
  split; [intros text; unfold convert_to_float; rewrite remove_char_idem; reflexivity|].
  split.
  { intros text. unfold convert_to_float.
    rewrite (remove_char_comm "%" "," text), remove_char_idem. reflexivity. }
  do 4 (split; [reflexivity|]).
  split; [intros text _ Hw; rewrite convert_to_float_body; apply float_body_none, Hw|].
  split; [intros text _ Hw; rewrite convert_to_float_body; apply float_body_special, Hw|].
  repeat split; reflexivity.
Qed.

Lemma convert_to_float_spec_witness :
  is_ascii "12abc" = true /\ special_word (cleaned "12abc") = false
  /\ ~ decimal_number (cleaned "12abc")
  /\ is_ascii " -Inf" = true /\ special_word (cleaned " -Inf") = true
  /\ (convert_to_float " -Inf" = Some NaN
      \/ exists neg, convert_to_float " -Inf" = Some (Infinity neg)).
Proof.
  pose proof convert_to_float_spec as (_ & _ & _ & _ & _ & _ & Hnum & Hword & _).
  split; [reflexivity|]. split; [reflexivity|].
  split; [apply (proj1 (Hnum "12abc" eq_refl eq_refl)); reflexivity|].
  split; [reflexivity|]. split; [reflexivity|].
  apply (Hword " -Inf"); reflexivity.
Defined.

(** ** The table parsers *)

Lemma mapM_ok {A B} (f : A -> result B) (l : list A) :
  (forall x, exists y, f x = Ok y) -> exists ys, mapM f l = Ok ys.
Proof.
  intros Hf. induction l as [|x l [ys IH]]; [exists []; reflexivity|].
  destruct (Hf x) as [y Hy]. exists (y :: ys).
  cbn [mapM]. rewrite Hy. cbn. rewrite IH. reflexivity.
Qed.

Lemma mapM_ok_forall2 {A B} (Q : A -> B -> Prop) (f : A -> result B) (l : list A) :
  (forall x, exists y, f x = Ok y /\ Q x y) ->
  exists ys, mapM f l = Ok ys /\ Forall2 Q l ys.
Proof.
  intros Hf. induction l as [|x l (ys & IH & HQ)]; [exists []; split; [reflexivity|constructor]|].
  destruct (Hf x) as (y & Hy & Hxy). exists (y :: ys).
  cbn [mapM]. rewrite Hy. cbn. rewrite IH. split; [reflexivity|].
  constructor; assumption.
Qed.

(** A row with at least four cells gives one [StatRow]; its percentile is
    read with [safe_convert] when [is_shot_speed] is set. *)
Lemma parse_table_row_four is_shot_speed row c0 c1 c2 c3 rest :
  find_all ["td"; "th"] row = c0 :: c1 :: c2 :: c3 :: rest ->
  parse_table_row 4 is_shot_speed row
  = Ok [ {| stat_label := get_text_strip c0;
            player_value := convert_to_float (get_text_strip c1);
            league_average := convert_to_float (get_text_strip c2);
            percentile := if is_shot_speed then safe_convert (get_text_strip c3)
                          else convert_to_float (get_text_strip c3);
            tooltip := match find "span" c1 with
                       | Some span => attr "data-tooltip" span
                       | None => None
                       end |} ].
Proof.
  intros E. unfold parse_table_row. rewrite E.
  replace (4 <=? Z.of_nat (length (c0 :: c1 :: c2 :: c3 :: rest)))%Z with true
    by (symmetry; apply Z.leb_le; simpl length; lia).
  reflexivity.
Qed.

Lemma parse_table_row_ok is_shot_speed row :
  exists rows, parse_table_row 4 is_shot_speed row = Ok rows.
Proof.
  destruct (find_all ["td"; "th"] row) as [|c0 [|c1 [|c2 [|c3 rest]]]] eqn:E;
    try (eexists; unfold parse_table_row; rewrite E; reflexivity).
  eexists. apply (parse_table_row_four _ _ _ _ _ _ _ E).
Qed.

(** With four columns [parse_table] raises nothing. *)
Lemma parse_table_ok soup is_shot_speed :
  exists rows, parse_table soup 4 is_shot_speed = Ok rows.
Proof.
  unfold parse_table.
  destruct (select_one [] table_hover soup) as [table|]; [|eexists; reflexivity].
  destruct (find "tbody" table) as [tbody|]; [|eexists; reflexivity].
  destruct (mapM_ok (parse_table_row 4 is_shot_speed) (find_all ["tr"] tbody)
              (parse_table_row_ok is_shot_speed)) as [ys ->].
  eexists. reflexivity.
Qed.

Lemma parse_zone_time_row_ok row :
  exists rows, parse_zone_time_row row = Ok rows.
Proof.
  unfold parse_zone_time_row.
  destruct (find_all ["td"; "th"] row) as [|c0 [|c1 rest]]; eexists; reflexivity.
Qed.

Lemma parse_zone_time_table_ok soup :
  exists rows, parse_zone_time_table soup = Ok rows.
Proof.
  unfold parse_zone_time_table.
  destruct (select_one _ _ soup) as [table|]; [|eexists; reflexivity].
  destruct (find "tbody" table) as [tbody|]; [|eexists; reflexivity].
  destruct (mapM_ok parse_zone_time_row (find_all ["tr"] tbody)
              parse_zone_time_row_ok) as [ys ->].
  eexists. reflexivity.
Qed.

(** The percentile a row contributes with four columns: none when the row
    has fewer than four cells, else the parse of the text of its fourth
    cell, strict when [is_shot_speed] is set. *)
Lemma parse_table_row_percentile is_shot_speed row :
  exists rows,
    parse_table_row 4 is_shot_speed row = Ok rows
    /\ map percentile rows
       = if enough_cells 4 row
         then [(if is_shot_speed then safe_convert else convert_to_float) (cell_text 3 row)]
         else [].
Proof.
  unfold enough_cells, cell_text.
  destruct (find_all ["td"; "th"] row) as [|c0 [|c1 [|c2 [|c3 rest]]]] eqn:E;
    try (eexists; unfold parse_table_row; rewrite E; split; reflexivity).
  eexists. split; [apply (parse_table_row_four _ _ _ _ _ _ _ E)|].
  replace (4 <=? Z.of_nat (length (c0 :: c1 :: c2 :: c3 :: rest)))%Z with true
    by (symmetry; apply Z.leb_le; simpl length; lia).
  destruct is_shot_speed; reflexivity.
Qed.

(** The percentiles of the rows [parse_table] returns with four columns. *)
Lemma parse_table_percentiles soup table tbody is_shot_speed :
  select_one [] table_hover soup = Some table ->
  find "tbody" table = Some tbody ->
  exists rows,
    parse_table soup 4 is_shot_speed = Ok rows
    /\ map percentile rows
       = map (fun row => (if is_shot_speed then safe_convert else convert_to_float)
                           (cell_text 3 row))
           (four_cell_rows tbody).
Proof.
  intros Ht Hb. unfold parse_table, four_cell_rows. rewrite Ht, Hb.
  destruct (mapM_ok_forall2
              (fun row rows =>
                 map percentile rows
                 = if enough_cells 4 row
                   then [(if is_shot_speed then safe_convert else convert_to_float)
                           (cell_text 3 row)]
                   else [])
              (parse_table_row 4 is_shot_speed) (find_all ["tr"] tbody)
              (parse_table_row_percentile is_shot_speed))
    as (ys & -> & HQ).
  exists (concat ys). split; [reflexivity|].
  induction HQ as [|row rows l ys Hl HQ IH]; [reflexivity|].
  cbn [concat List.filter]. rewrite map_app, Hl, IH.
  destruct (enough_cells 4 row); reflexivity.
Qed.

(** C7: the shot-speed target, and among the four-column sections only
    it, has its rows read with [is_shot_speed] set; the percentile of such a
    row is the strict parse of the text of the fourth cell, where 84 gives
    84.0 and a text with a percent sign or a comma gives an absent value
    (nothing is stripped), while the other sections read the same cell with
    the generic parser, for which 84% is 84.0.  So it is for the rows
    [parse_table] returns and for the sections of the payload: when the
    fragment has a table with a body, the percentiles of the shot-speed
    section are the strict parses of the fourth cells of the rows with four
    cells or more, in document order, and those of the skating-speed,
    skating-distance, overview and (when read from the table) shot-location
    sections are their generic parses. *)
Theorem shot_speed_percentile_strict :
  (forall (L : HtmlLib) html,
     parse_html_content html "#shotspeed-section-content"
     = (rows ← parse_table (BeautifulSoup (unescape html)) 4 true;
        mret (set_shot_speed_section empty_data rows))
     /\ parse_html_content html "#skatingspeed-section-content"
        = (rows ← parse_table (BeautifulSoup (unescape html)) 4 false;
           mret (set_skating_speed_section empty_data rows))
     /\ parse_html_content html "#skatingdistance-section-content"
        = (rows ← parse_table (BeautifulSoup (unescape html)) 4 false;
           mret (set_skating_distance_section empty_data rows))
     /\ parse_html_content html "#overview-section-content"
        = (rows ← parse_table (BeautifulSoup (unescape html)) 4 false;
           chart ← parse_radar_chart (BeautifulSoup (unescape html));
           mret (set_radar_chart (set_overview_section empty_data rows) chart)))
  /\ (forall row c0 c1 c2 c3 rest,
        find_all ["td"; "th"] row = c0 :: c1 :: c2 :: c3 :: rest ->
        (exists r, parse_table_row 4 true row = Ok [r]
                   /\ percentile r = safe_convert (get_text_strip c3))
        /\ (exists r, parse_table_row 4 false row = Ok [r]
                      /\ percentile r = convert_to_float (get_text_strip c3)))
  /\ safe_convert "84" = Some (float_of_Z 84)
  /\ (forall text,
        has_char "%" text = true \/ has_char "," text = true ->
        safe_convert text = None)
  /\ convert_to_float "84%" = Some (float_of_Z 84)
  /\ (forall soup table tbody,
        select_one [] table_hover soup = Some table ->
        find "tbody" table = Some tbody ->
        (exists rows,
           parse_table soup 4 true = Ok rows
           /\ map percentile rows
              = map (fun row => safe_convert (cell_text 3 row)) (four_cell_rows tbody))
        /\ (exists rows,
              parse_table soup 4 false = Ok rows
              /\ map percentile rows
                 = map (fun row => convert_to_float (cell_text 3 row))
                     (four_cell_rows tbody)))
  /\ (forall (L : HtmlLib) html table tbody,
        select_one [] table_hover (BeautifulSoup (unescape html)) = Some table ->
        find "tbody" table = Some tbody ->
        (exists p,
           parse_html_content html "#shotspeed-section-content" = Ok p
           /\ map percentile (shot_speed_section p)
              = map (fun row => safe_convert (cell_text 3 row)) (four_cell_rows tbody))
        /\ (exists p,
              parse_html_content html "#skatingspeed-section-content" = Ok p
              /\ map percentile (skating_speed_section p)
                 = map (fun row => convert_to_float (cell_text 3 row))
                     (four_cell_rows tbody))
        /\ (exists p,
              parse_html_content html "#skatingdistance-section-content" = Ok p
              /\ map percentile (skating_distance_section p)
                 = map (fun row => convert_to_float (cell_text 3 row))
                     (four_cell_rows tbody))
        /\ (forall p,
              parse_html_content html "#overview-section-content" = Ok p ->
              map percentile (overview_section p)
              = map (fun row => convert_to_float (cell_text 3 row))
                  (four_cell_rows tbody))
        /\ (forall p rows,
              parse_html_content html "#shotlocation-section-content" = Ok p ->
              shot_location_section p = TableRows rows ->
              map percentile rows
              = map (fun row => convert_to_float (cell_text 3 row))
                  (four_cell_rows tbody))).
Proof.
  split; [intros L html; repeat split; reflexivity|].
  split.
  { intros row c0 c1 c2 c3 rest E.
    split; eexists; (split; [apply (parse_table_row_four _ _ _ _ _ _ _ E)|reflexivity]). }
  split; [reflexivity|]. split.
  { intros text H. unfold safe_convert.
    destruct (float_of_str text) as [f|] eqn:E; [|reflexivity].
    destruct H as [H|H].
    - rewrite (float_of_str_chars "%" text f eq_refl E) in H. discriminate.
    - rewrite (float_of_str_chars "," text f eq_refl E) in H. discriminate. }
  split; [reflexivity|]. split.
  { intros soup table tbody Ht Hb. split.
    - apply (parse_table_percentiles soup table tbody true Ht Hb).
    - apply (parse_table_percentiles soup table tbody false Ht Hb). }
  intros L html table tbody Ht Hb.
  destruct (parse_table_percentiles _ table tbody true Ht Hb) as (rs & Hs & Es).
  destruct (parse_table_percentiles _ table tbody false Ht Hb) as (rg & Hg & Eg).
  unfold parse_html_content. cbn [String.eqb Ascii.eqb Bool.eqb].
  rewrite Hs, Hg.
  split; [eexists; split; [reflexivity|exact Es]|].
  split; [eexists; split; [reflexivity|exact Eg]|].
  split; [eexists; split; [reflexivity|exact Eg]|].
  split.
  - intros p Hp. cbn in Hp.
    destruct (parse_radar_chart (BeautifulSoup (unescape html))); [|discriminate].
    injection Hp as <-. exact Eg.
  - intros p rows Hp Hrows.
    assert (Hsec : forall section : shot_location,
               (section = TableRows rg \/ exists v, section = ChartPayload v) ->
               (_ ← shot_location_len section;
                mret (set_shot_location_section empty_data section)) = Ok p ->
               map percentile rows
               = map (fun row => convert_to_float (cell_text 3 row)) (four_cell_rows tbody)).
    { intros section Hsec Hr. cbn in Hr.
      destruct (shot_location_len section); [|discriminate].
      injection Hr as <-. cbn in Hrows. subst section.
      destruct Hsec as [[= <-]|(v & [=])]. exact Eg. }
    destruct (find "sl-webc-shot-chart" (BeautifulSoup (unescape html))) as [shot_chart|];
      [|apply (Hsec (TableRows rg)); [left; reflexivity|exact Hp]].
    destruct (attr "data-json" shot_chart) as [text|];
      [|apply (Hsec (TableRows rg)); [left; reflexivity|exact Hp]].
    destruct (loads (unescape text)) as [data|];
      [|apply (Hsec (TableRows rg)); [left; reflexivity|exact Hp]].
    destruct (get data "chartData" (JArr [])) as [v|e];
      [apply (Hsec (ChartPayload v)); [right; eauto|exact Hp]
      |apply (Hsec (TableRows rg)); [left; reflexivity|exact Hp]].
Qed.

Lemma shot_speed_percentile_strict_witness :
  (exists r, parse_table_row 4 true sample_shot_row = Ok [r] /\ percentile r = None)
  /\ (exists r, parse_table_row 4 false sample_shot_row = Ok [r]
                /\ percentile r = Some (float_of_Z 84))
  /\ (exists p,
        @parse_html_content table_lib shot_table_markup "#shotspeed-section-content" = Ok p
        /\ map percentile (shot_speed_section p) = [Some (float_of_Z 84); None])
  /\ (exists p,
        @parse_html_content table_lib shot_table_markup "#skatingspeed-section-content" = Ok p
        /\ map percentile (skating_speed_section p)
           = [Some (float_of_Z 84); Some (float_of_Z 84)]).
Proof.
  destruct shot_speed_percentile_strict as (_ & Hrow & _ & Hstrict & _ & _ & Hsec).
  destruct (Hrow sample_shot_row _ _ _ _ _ eq_refl) as [(r & Hr & Hp) (r' & Hr' & Hp')].
  destruct (Hsec table_lib shot_table_markup _ shot_table_body eq_refl eq_refl)
    as ((p & Hq & Eq) & (p' & Hq' & Eq') & _).
  split; [exists r; split; [exact Hr|]; rewrite Hp; apply Hstrict; left; reflexivity|].
  split; [exists r'; split; [exact Hr'|]; rewrite Hp'; reflexivity|].
  split; [exists p; split; [exact Hq|exact Eq]|].
  exists p'. split; [exact Hq'|exact Eq'].
Defined.

(** ** The fragment extractor *)

(** C8 at two failing inputs: a radar chart whose attribute decodes to a
    number, in an overview fragment, and a shot chart whose [chartData] is a
    number, make [parse_html_content] raise [TypeError] instead of returning
    a payload. *)
Theorem parse_html_content_raises (L : HtmlLib) :
  (unescape "5" = "5" ->
   BeautifulSoup (unescape radar_markup) = radar_tree ->
   parse_html_content radar_markup "#overview-section-content" = Raise TypeError)
  /\ (unescape scalar_payload = scalar_payload ->
      BeautifulSoup (unescape scalar_chart_markup) = scalar_chart_tree ->
      parse_html_content scalar_chart_markup "#shotlocation-section-content"
      = Raise TypeError).
Proof.
  split; intros Hu Ht; unfold parse_html_content; rewrite Ht.
  - unfold parse_radar_chart. cbn. rewrite Hu. reflexivity.
  - cbn. change (unescape _) with (unescape scalar_payload). rewrite Hu. reflexivity.
Qed.

Lemma parse_html_content_raises_witness :
  @parse_html_content sample_lib radar_markup "#overview-section-content"
  = Raise TypeError
  /\ @parse_html_content sample_lib scalar_chart_markup "#shotlocation-section-content"
     = Raise TypeError.
Proof.
  destruct (parse_html_content_raises sample_lib) as [H1 H2].
  split; [apply H1 | apply H2]; reflexivity.
Defined.

(** C9: on the shot-location target the chart payload comes first: when
    the chart element carries a payload that decodes to an object, the
    section is what the payload holds under [chartData], as decoded (the
    empty list when the key is missing), and the table is not read; the
    four-column table is read exactly when there is no such payload (no
    chart element, no attribute, or an attribute that does not decode to an
    object). *)
Theorem shot_location_prefers_chart (L : HtmlLib) (html : string) :
  let soup := BeautifulSoup (unescape html) in
  match embedded_chart_payload soup with
  | Some members =>
      (forall items,
         dict_get "chartData" members = Some (JArr items) ->
         parse_html_content html "#shotlocation-section-content"
         = Ok (set_shot_location_section empty_data (ChartPayload (JArr items))))
      /\ (dict_get "chartData" members = None ->
          parse_html_content html "#shotlocation-section-content"
          = Ok (set_shot_location_section empty_data (ChartPayload (JArr []))))
  | None =>
      exists rows,
        parse_table soup 4 false = Ok rows
        /\ parse_html_content html "#shotlocation-section-content"
           = Ok (set_shot_location_section empty_data (TableRows rows))
  end.
Proof.
  intros soup. unfold embedded_chart_payload, parse_html_content. fold soup.
  cbn [String.eqb Ascii.eqb Bool.eqb].
  destruct (parse_table_ok soup false) as [rows Hrows].
  destruct (find "sl-webc-shot-chart" soup) as [shot_chart|].
  2: { exists rows. rewrite Hrows. split; reflexivity. }
  destruct (attr "data-json" shot_chart) as [text|].
  2: { exists rows. rewrite Hrows. split; reflexivity. }
  destruct (loads (unescape text)) as [data|].
  2: { exists rows. rewrite Hrows. split; reflexivity. }
  destruct data; try (exists rows; rewrite Hrows; split; reflexivity).
  split.
  - intros items E. cbn. rewrite E. reflexivity.
  - intros E. cbn. rewrite E. reflexivity.
Qed.

Lemma shot_location_prefers_chart_witness :
  @parse_html_content sample_lib list_chart_markup "#shotlocation-section-content"
  = Ok (set_shot_location_section empty_data (ChartPayload (JArr [JInt 1; JInt 2]))).
Proof.
  pose proof (shot_location_prefers_chart sample_lib list_chart_markup) as H.
  cbv zeta in H.
  change (embedded_chart_payload (BeautifulSoup (unescape list_chart_markup)))
    with (Some [("chartData", JArr [JInt 1; JInt 2])]) in H.
  apply (proj1 H). reflexivity.
Defined.

(** C10: the payload the extractor returns is empty outside the slots of
    its target: the overview section and the radar chart can be filled only
    for the overview target, every other slot only for its own target. *)
Theorem extractor_frame (L : HtmlLib) (html target : string) (p : ParsedEdgeData) :
  parse_html_content html target = Ok p ->
  (target <> "#overview-section-content" ->
     overview_section p = [] /\ radar_chart p = None)
  /\ (target <> "#skatingspeed-section-content" -> skating_speed_section p = [])
  /\ (target <> "#skatingdistance-section-content" -> skating_distance_section p = [])
  /\ (target <> "#shotspeed-section-content" -> shot_speed_section p = [])
  /\ (target <> "#shotlocation-section-content" ->
        shot_location_section p = TableRows [])
  /\ (target <> "#zonetime-section-content" -> zonetime_section p = []).
Proof.
  unfold parse_html_content. set (soup := BeautifulSoup (unescape html)).
  intros Hp.
  assert (Hdone : forall q : ParsedEdgeData, Ok q = Ok p -> q = p) by (intros q [= ->]; reflexivity).
  repeat match type of Hp with
         | context [String.eqb target ?s] =>
             destruct (String.eqb_spec target s) as [->|?]
         end.
  - destruct (parse_table soup 4 false); [|discriminate].
    destruct (parse_radar_chart soup); [|discriminate].
    apply Hdone in Hp as <-. repeat split; intros; solve [reflexivity | congruence].
  - destruct (parse_table soup 4 false); [|discriminate].
    apply Hdone in Hp as <-. repeat split; intros; solve [reflexivity | congruence].
  - destruct (parse_table soup 4 false); [|discriminate].
    apply Hdone in Hp as <-. repeat split; intros; solve [reflexivity | congruence].
  - destruct (parse_table soup 4 true); [|discriminate].
    apply Hdone in Hp as <-. repeat split; intros; solve [reflexivity | congruence].
  - match type of Hp with
    | mbind _ ?r = _ => destruct r as [section|]; [|discriminate]
    end.
    cbn in Hp. destruct (shot_location_len section); [|discriminate].
    apply Hdone in Hp as <-. repeat split; intros; solve [reflexivity | congruence].
  - destruct (parse_zone_time_table soup); [|discriminate].
    apply Hdone in Hp as <-. repeat split; intros; solve [reflexivity | congruence].
  - apply Hdone in Hp as <-. repeat split; intros; reflexivity.
Qed.

Lemma extractor_frame_witness :
  exists p,
    @parse_html_content sample_lib list_chart_markup "#shotlocation-section-content" = Ok p
    /\ overview_section p = [] /\ radar_chart p = None /\ zonetime_section p = [].
Proof.
  eexists. split; [reflexivity|].
  pose proof (extractor_frame sample_lib list_chart_markup
                "#shotlocation-section-content" _ eq_refl)
    as (H1 & _ & _ & _ & _ & H6).
  destruct H1 as [H1 H1']; [discriminate|].
  split; [exact H1|]. split; [exact H1'|]. apply H6. discriminate.
Defined.

(** ** The session driver *)

Section Driver.
Context {L : HtmlLib}.

(** [_handle_text_message] on a frame that decodes to an object of type
    html with a text target. *)
Lemma handle_html_frame self data_str ws data html_content target :
  loads data_str = Some data ->
  get data "type" JNull = Ok (JStr "html") ->
  html_fields data = Ok (html_content, target) ->
  _handle_text_message self data_str ws
  = if bool_decide (target ∈ expected_targets self) then
      if bool_decide (expected_targets self ⊆ {[ target ]} ∪ received_targets self)
      then (add_received self target, close ws, Ok tt)
      else match parse_segment html_content target with
           | Raise e => (add_received self target, ws, Raise e)
           | Ok parsed_segment =>
               (_merge_parsed_data (add_received self target) parsed_segment, ws, Ok tt)
           end
    else match parse_segment html_content target with
         | Raise e => (self, ws, Raise e)
         | Ok parsed_segment => (_merge_parsed_data self parsed_segment, ws, Ok tt)
         end.
Proof.
  intros Hl Ht Hf. unfold _handle_text_message. rewrite Hl, Ht.
  cbn [String.eqb Ascii.eqb Bool.eqb]. rewrite Hf. reflexivity.
Qed.

Lemma grows_refl self : grows self self.
Proof. unfold grows. set_solver. Qed.

Lemma grows_trans a b c : grows a b -> grows b c -> grows a c.
Proof. unfold grows. intros (E1 & ? & ?) (E2 & ? & ?). rewrite E1 in *. set_solver. Qed.

Lemma handle_text_message_grows self data_str ws :
  grows self (_handle_text_message self data_str ws).1.1.
Proof.
  unfold _handle_text_message.
  destruct (loads data_str) as [data|]; [|apply grows_refl].
  destruct (get data "type" JNull) as [msg_type|]; [|apply grows_refl].
  destruct (match msg_type with JStr s => String.eqb s "html" | _ => false end);
    [|apply grows_refl].
  destruct (html_fields data) as [[html_content target]|]; [|apply grows_refl].
  unfold grows.
  destruct (bool_decide (target ∈ expected_targets self)) eqn:Hin.
  - apply bool_decide_eq_true in Hin.
    destruct (bool_decide _); [cbn; set_solver|].
    destruct (parse_segment html_content target); cbn; set_solver.
  - destruct (parse_segment html_content target); cbn; set_solver.
Qed.

Lemma handle_text_message_closes self data_str ws :
  closes_when_complete self ws ->
  closes_when_complete (_handle_text_message self data_str ws).1.1
                       (_handle_text_message self data_str ws).1.2.
Proof.
  intros Hinv. unfold _handle_text_message.
  destruct (loads data_str) as [data|]; [|exact Hinv].
  destruct (get data "type" JNull) as [msg_type|]; [|exact Hinv].
  destruct (match msg_type with JStr s => String.eqb s "html" | _ => false end);
    [|exact Hinv].
  destruct (html_fields data) as [[html_content target]|]; [|exact Hinv].
  unfold closes_when_complete in *.
  destruct (bool_decide (target ∈ expected_targets self)) eqn:Hin.
  - apply bool_decide_eq_true in Hin.
    destruct (bool_decide (expected_targets (add_received self target)
                             ⊆ received_targets (add_received self target))) eqn:Hall.
    + apply bool_decide_eq_true in Hall. cbn in *.
      split; [intros _; exact Hall|reflexivity].
    + apply bool_decide_eq_false in Hall. cbn in Hall.
      destruct (parse_segment html_content target); cbn;
        (split; [intros Hc; apply Hinv in Hc; set_solver|tauto]).
  - destruct (parse_segment html_content target); cbn; exact Hinv.
Qed.

Lemma listen_grows inbox : forall self ws,
  grows self (listen self ws inbox).1.1.
Proof.
  induction inbox as [|msg rest IH]; intros self ws; cbn [listen]; [apply grows_refl|].
  destruct (iteration_stops ws msg); [apply grows_refl|].
  destruct (type msg); try apply IH; try apply grows_refl.
  pose proof (handle_text_message_grows self (client.data msg) ws) as Hg.
  destruct (_handle_text_message self (client.data msg) ws) as [[self' ws'] r].
  cbn in Hg. destruct r; [|exact Hg].
  eapply grows_trans; [exact Hg|apply IH].
Qed.

Lemma listen_closes inbox : forall self ws,
  closes_when_complete self ws ->
  closes_when_complete (listen self ws inbox).1.1 (listen self ws inbox).1.2.
Proof.
  induction inbox as [|msg rest IH]; intros self ws Hinv; cbn [listen]; [exact Hinv|].
  destruct (iteration_stops ws msg); [exact Hinv|].
  destruct (type msg); try (apply IH; exact Hinv); try exact Hinv.
  pose proof (handle_text_message_closes self (client.data msg) ws Hinv) as Hinv'.
  destruct (_handle_text_message self (client.data msg) ws) as [[self' ws'] r].
  cbn in Hinv'. destruct r; [|exact Hinv'].
  apply IH, Hinv'.
Qed.

Lemma closed_fold_send msgs : forall ws,
  closed (fold_left send_json msgs ws) = closed ws.
Proof. induction msgs as [|m msgs IH]; intros ws; [reflexivity|]. cbn. rewrite IH. reflexivity. Qed.

Lemma connect_and_communicate_closes self player_id inbox :
  ~ expected_targets self ⊆ received_targets self ->
  closes_when_complete (connect_and_communicate self player_id inbox).1.1
                       (connect_and_communicate self player_id inbox).1.2.
Proof.
  intros Hnot. unfold connect_and_communicate. apply listen_closes.
  unfold closes_when_complete. rewrite closed_fold_send. cbn. split; [discriminate|tauto].
Qed.

Lemma connect_and_communicate_grows self player_id inbox :
  grows self (connect_and_communicate self player_id inbox).1.1.
Proof.
  unfold connect_and_communicate.
  eapply grows_trans; [|apply listen_grows]. unfold grows. cbn. set_solver.
Qed.

End Driver.

(** C1 fails on the frame that completes the expected set: the handler
    records the target, closes the socket and returns; the extractor is not
    called on the frame and nothing is merged, so the aggregate is what it
    was before the frame. *)
Theorem completing_frame_not_merged (L : HtmlLib) self data_str ws data html target :
  loads data_str = Some data ->
  get data "type" JNull = Ok (JStr "html") ->
  html_fields data = Ok (JStr html, target) ->
  target ∈ expected_targets self ->
  expected_targets self ⊆ {[ target ]} ∪ received_targets self ->
  _handle_text_message self data_str ws = (add_received self target, close ws, Ok tt)
  /\ _parsed_data (_handle_text_message self data_str ws).1.1 = _parsed_data self.
Proof.
  intros Hl Ht Hf Hin Hall.
  rewrite (handle_html_frame self data_str ws data (JStr html) target Hl Ht Hf).
  rewrite (bool_decide_eq_true_2 _ Hin), (bool_decide_eq_true_2 _ Hall).
  split; reflexivity.
Qed.

Lemma completing_frame_not_merged_witness :
  @_handle_text_message sample_lib five_received
    (html_frame "#zonetime-section-content" zonetime_markup) open_socket
  = (add_received five_received "#zonetime-section-content", close open_socket, Ok tt)
  /\ zonetime_section
       (_parsed_data
          (@_handle_text_message sample_lib five_received
             (html_frame "#zonetime-section-content" zonetime_markup) open_socket).1.1)
     = []
  /\ @parse_html_content sample_lib zonetime_markup "#zonetime-section-content"
     = Ok (set_zonetime_section empty_data
             [ {| stat_label := "Offensive Zone";
                  player_value := Some (decimal 498 (-1));
                  league_average := None; percentile := None; tooltip := None |} ]).
Proof.
  assert (H : _) by
    (refine (completing_frame_not_merged sample_lib five_received
       (html_frame "#zonetime-section-content" zonetime_markup) open_socket
       _ zonetime_markup "#zonetime-section-content" eq_refl eq_refl eq_refl _ _);
     unfold five_received, fresh_client; cbn; set_solver).
  destruct H as [H1 H2].
  split; [exact H1|]. split; [rewrite H2; reflexivity|reflexivity].
Defined.

(** C2: the driver closes the socket itself, in the call that handles
    the frame completing the expected set: that call ends with the socket
    closed and the set complete; the loop stops there, whatever frames the
    remote side still has to deliver; and throughout a session begun with an
    incomplete set, the socket is closed by the driver exactly when every
    expected target has been received. *)
Theorem closes_on_completion (L : HtmlLib) :
  (forall self data_str ws data html_content target rest,
     loads data_str = Some data ->
     get data "type" JNull = Ok (JStr "html") ->
     html_fields data = Ok (html_content, target) ->
     target ∈ expected_targets self ->
     expected_targets self ⊆ {[ target ]} ∪ received_targets self ->
     closed (_handle_text_message self data_str ws).1.2 = true
     /\ (_handle_text_message self data_str ws).2 = Ok tt
     /\ expected_targets (_handle_text_message self data_str ws).1.1
        ⊆ received_targets (_handle_text_message self data_str ws).1.1
     /\ (closed ws = false ->
         listen self ws (text_message data_str :: rest)
         = _handle_text_message self data_str ws))
  /\ (forall self player_id inbox,
        ~ expected_targets self ⊆ received_targets self ->
        closed (connect_and_communicate self player_id inbox).1.2 = true
        <-> expected_targets (connect_and_communicate self player_id inbox).1.1
            ⊆ received_targets (connect_and_communicate self player_id inbox).1.1).
Proof.
  split.
  - intros self data_str ws data html_content target rest Hl Ht Hf Hin Hall.
    cbn [listen]. unfold iteration_stops. cbn [type text_message client.data].
    rewrite (handle_html_frame self data_str ws data html_content target Hl Ht Hf).
    rewrite (bool_decide_eq_true_2 _ Hin), (bool_decide_eq_true_2 _ Hall).
    cbn. repeat split; [exact Hall|].
    intros ->. cbn. destruct rest as [|msg rest]; reflexivity.
  - intros self player_id inbox Hnot.
    apply (connect_and_communicate_closes self player_id inbox Hnot).
Qed.

Lemma closes_on_completion_witness :
  closed (@_handle_text_message sample_lib five_received
            (html_frame "#zonetime-section-content" zonetime_markup) open_socket).1.2
  = true
  /\ (closed (@connect_and_communicate sample_lib fresh_client "8478402" six_frames).1.2
      = true
      <-> expected_targets
            (@connect_and_communicate sample_lib fresh_client "8478402" six_frames).1.1
          ⊆ received_targets
              (@connect_and_communicate sample_lib fresh_client "8478402" six_frames).1.1).
Proof.
  destruct (closes_on_completion sample_lib) as [Hstep Hrun].
  split.
  - refine (proj1 (Hstep five_received
                     (html_frame "#zonetime-section-content" zonetime_markup)
                     open_socket _ _ "#zonetime-section-content" []
                     eq_refl eq_refl eq_refl _ _));
      unfold five_received, fresh_client; cbn; set_solver.
  - apply Hrun. unfold fresh_client. cbn. set_solver.
Defined.

(** A session can leave the received set of a new client non-empty: so it
    is when the overview fragment arrives before the remote side closes. *)
Lemma received_targets_survive_session :
  ~ (forall (L : HtmlLib) (inbox : list WSMessage),
       received_targets
         (connect_and_communicate (__init__ None false) "8478402" inbox).1.1 = ∅).
Proof.
  intros H.
  specialize (H sample_lib
                [ text_message (html_frame "#overview-section-content" "");
                  {| type := CLOSED; client.data := "" |} ]).
  assert (Hin : "#overview-section-content"
                ∈ received_targets
                    (@connect_and_communicate sample_lib (__init__ None false) "8478402"
                       [ text_message (html_frame "#overview-section-content" "");
                         {| type := CLOSED; client.data := "" |} ]).1.1).
  { refine (bool_decide_unpack _ _). vm_compute. exact I. }
  rewrite H in Hin. set_solver.
Qed.

(** X23: what the code does with the target sets: the received set is
    created empty when the client is constructed; a session leaves the
    expected set as it is, keeps every target of the received set the client
    came with and adds only expected targets to it; with no frame delivered
    the received set is unchanged. *)
Theorem target_sets_client_scoped (L : HtmlLib) :
  (forall cookies save, received_targets (__init__ cookies save) = ∅)
  /\ (forall self player_id inbox,
        expected_targets (connect_and_communicate self player_id inbox).1.1
        = expected_targets self
        /\ received_targets self
           ⊆ received_targets (connect_and_communicate self player_id inbox).1.1
        /\ received_targets (connect_and_communicate self player_id inbox).1.1
           ⊆ received_targets self ∪ expected_targets self)
  /\ (forall self player_id,
        received_targets (connect_and_communicate self player_id []).1.1
        = received_targets self).
Proof.
  split; [reflexivity|]. split; [|reflexivity].
  intros self player_id inbox.
  apply (connect_and_communicate_grows self player_id inbox).
Qed.

(** A whole session on the six frames: the socket is closed by the driver,
    all six targets are recorded, and the aggregate has no zone-time row
    although the last frame carried one. *)
Example session_on_six_frames :
  let run := @connect_and_communicate sample_lib fresh_client "8478402" six_frames in
  closed run.1.2 = true
  /\ run.2 = Ok tt
  /\ length (sent run.1.2) = 9
  /\ received_targets run.1.1 = expected_targets run.1.1
  /\ get_parsed_data run.1.1 = empty_data.
Proof.
  cbv zeta. repeat split; vm_compute; reflexivity.
Qed.

(** With no frame delivered a session leaves the received set as it was. *)
Lemma session_without_frames (L : HtmlLib) self player_id :
  received_targets (connect_and_communicate self player_id []).1.1
  = received_targets self.
Proof. reflexivity. Qed.

(** C3 fails on a client that is used for a second session: the first
    session, on the six frames, leaves all six targets in the received set;
    [reset_parsed_data] empties the aggregate and not that set; the second
    session starts with the six targets marked, zone-time among them (with
    no frame delivered they are all there at its end), so the first expected
    frame it gets, the zone-time fragment, closes the socket and is not
    read: the aggregate
    stays empty, where a new client given the same frame, followed by the
    remote close, returns the zone-time row. *)
Theorem second_session_starts_stale :
  let first := @connect_and_communicate sample_lib fresh_client "8478402" six_frames in
  let client := reset_parsed_data first.1.1 in
  let frames := [ text_message (html_frame "#zonetime-section-content" zonetime_markup);
                  {| type := CLOSED; client.data := "" |} ] in
  let second := @connect_and_communicate sample_lib client "8478402" frames in
  let anew := @connect_and_communicate sample_lib fresh_client "8478402" frames in
  received_targets fresh_client = ∅
  /\ received_targets client = expected_targets client
  /\ "#zonetime-section-content" ∈ received_targets client
  /\ received_targets (@connect_and_communicate sample_lib client "8478402" []).1.1
     = received_targets client
  /\ closed second.1.2 = true
  /\ second.2 = Ok tt
  /\ get_parsed_data second.1.1 = empty_data
  /\ map stat_label (zonetime_section (get_parsed_data anew.1.1)) = ["Offensive Zone"].
Proof.
  cbv zeta. split; [reflexivity|]. split; [refine (bool_decide_unpack _ _); vm_compute; exact I|].
  split; [refine (bool_decide_unpack _ _); vm_compute; exact I|].
  split; [apply session_without_frames|].
  repeat split; vm_compute; reflexivity.
Qed.

(** A second session on the same client: the first expected frame closes it. *)
Example second_session_closes_at_once :
  let first := @connect_and_communicate sample_lib fresh_client "8478402" six_frames in
  let second := @connect_and_communicate sample_lib first.1.1 "8478402"
                  [ text_message (html_frame "#zonetime-section-content" zonetime_markup);
                    text_message (html_frame "#overview-section-content" "") ] in
  closed second.1.2 = true /\ get_parsed_data second.1.1 = empty_data.
Proof. cbv zeta. split; vm_compute; reflexivity. Qed.

(** * Further properties *)

(** ** The merger, continued *)

(** X1: merging two payloads one after the other is merging their merge:
    the later payload wins slot by slot. *)
Theorem merge_assoc (existing first second : ParsedEdgeData) :
  merge_parsed_data (merge_parsed_data existing first) second
  = merge_parsed_data existing (merge_parsed_data first second).
Proof.
  apply ParsedEdgeData_eq; autorewrite with merge_slots.
  - destruct (nonempty (overview_section second)) eqn:E; rewrite ?E; reflexivity.
  - destruct (nonempty (skating_speed_section second)) eqn:E; rewrite ?E; reflexivity.
  - destruct (nonempty (skating_distance_section second)) eqn:E; rewrite ?E; reflexivity.
  - destruct (nonempty (shot_speed_section second)) eqn:E; rewrite ?E; reflexivity.
  - destruct (shot_location_truthy (shot_location_section second)) eqn:E;
      rewrite ?E; reflexivity.
  - destruct (nonempty (zonetime_section second)) eqn:E; rewrite ?E; reflexivity.
  - destruct (radar_chart second); [reflexivity|].
    destruct (radar_chart first); reflexivity.
Qed.

Lemma nonempty_nil {A} (l : list A) : l = [] -> nonempty l = false.
Proof. intros ->. reflexivity. Qed.

(** Payloads that fill no slot in common can be merged in either order. *)
Lemma merge_disjoint_comm (existing p q : ParsedEdgeData) :
  disjoint_slots p q ->
  merge_parsed_data (merge_parsed_data existing p) q
  = merge_parsed_data (merge_parsed_data existing q) p.
Proof.
  intros (H1 & H2 & H3 & H4 & H5 & H6 & H7).
  apply ParsedEdgeData_eq; autorewrite with merge_slots.
  - destruct H1 as [H|H]; rewrite (nonempty_nil _ H);
      destruct (nonempty (overview_section _)); reflexivity.
  - destruct H2 as [H|H]; rewrite (nonempty_nil _ H);
      destruct (nonempty (skating_speed_section _)); reflexivity.
  - destruct H3 as [H|H]; rewrite (nonempty_nil _ H);
      destruct (nonempty (skating_distance_section _)); reflexivity.
  - destruct H4 as [H|H]; rewrite (nonempty_nil _ H);
      destruct (nonempty (shot_speed_section _)); reflexivity.
  - destruct H5 as [H|H]; rewrite H;
      destruct (shot_location_truthy (shot_location_section _)); reflexivity.
  - destruct H6 as [H|H]; rewrite (nonempty_nil _ H);
      destruct (nonempty (zonetime_section _)); reflexivity.
  - destruct H7 as [H|H]; rewrite H; destruct (radar_chart _); reflexivity.
Qed.

Lemma payload_slots (L : HtmlLib) (html target : string) (p : ParsedEdgeData) :
  parse_html_content html target = Ok p ->
  (target <> "#overview-section-content" ->
     overview_section p = [] /\ radar_chart p = None)
  /\ (target <> "#skatingspeed-section-content" -> skating_speed_section p = [])
  /\ (target <> "#skatingdistance-section-content" -> skating_distance_section p = [])
  /\ (target <> "#shotspeed-section-content" -> shot_speed_section p = [])
  /\ (target <> "#shotlocation-section-content" ->
        shot_location_truthy (shot_location_section p) = false)
  /\ (target <> "#zonetime-section-content" -> zonetime_section p = []).
Proof.
  unfold parse_html_content. set (soup := BeautifulSoup (unescape html)).
  intros Hp.
  assert (Hdone : forall q : ParsedEdgeData, Ok q = Ok p -> q = p)
    by (intros q [= ->]; reflexivity).
  destruct (String.eqb_spec target "#overview-section-content") as [->|?].
  { destruct (parse_table soup 4 false); [|discriminate].
    destruct (parse_radar_chart soup); [|discriminate].
    apply Hdone in Hp as <-. repeat split; intros; solve [reflexivity | congruence]. }
  destruct (String.eqb_spec target "#skatingspeed-section-content") as [->|?].
  { destruct (parse_table soup 4 false); [|discriminate].
    apply Hdone in Hp as <-. repeat split; intros; solve [reflexivity | congruence]. }
  destruct (String.eqb_spec target "#skatingdistance-section-content") as [->|?].
  { destruct (parse_table soup 4 false); [|discriminate].
    apply Hdone in Hp as <-. repeat split; intros; solve [reflexivity | congruence]. }
  destruct (String.eqb_spec target "#shotspeed-section-content") as [->|?].
  { destruct (parse_table soup 4 true); [|discriminate].
    apply Hdone in Hp as <-. repeat split; intros; solve [reflexivity | congruence]. }
  destruct (String.eqb_spec target "#shotlocation-section-content") as [->|?].
  { match type of Hp with
    | mbind _ ?r = _ => destruct r as [section|]; [|discriminate]
    end.
    cbn in Hp. destruct (shot_location_len section); [|discriminate].
    apply Hdone in Hp as <-. repeat split; intros; solve [reflexivity | congruence]. }
  destruct (String.eqb_spec target "#zonetime-section-content") as [->|?].
  { destruct (parse_zone_time_table soup); [|discriminate].
    apply Hdone in Hp as <-. repeat split; intros; solve [reflexivity | congruence]. }
  apply Hdone in Hp as <-. repeat split; intros; reflexivity.
Qed.

(** X2: the payloads of two fragments with different targets can be merged in
    either order: the aggregate does not depend on the order of arrival. *)
Theorem fragments_commute (L : HtmlLib) existing html1 target1 p1 html2 target2 p2 :
  parse_html_content html1 target1 = Ok p1 ->
  parse_html_content html2 target2 = Ok p2 ->
  target1 <> target2 ->
  merge_parsed_data (merge_parsed_data existing p1) p2
  = merge_parsed_data (merge_parsed_data existing p2) p1.
Proof.
  intros H1 H2 Hne. apply merge_disjoint_comm.
  destruct (payload_slots L html1 target1 p1 H1) as (A1 & A2 & A3 & A4 & A5 & A6).
  destruct (payload_slots L html2 target2 p2 H2) as (B1 & B2 & B3 & B4 & B5 & B6).
  assert (Hcase : forall t : string, target1 <> t \/ target2 <> t).
  { intros t. destruct (String.eqb_spec target1 t) as [->|]; [right|left]; congruence. }
  unfold disjoint_slots. repeat split.
  - destruct (Hcase "#overview-section-content") as [H|H];
      [left; apply (A1 H) | right; apply (B1 H)].
  - destruct (Hcase "#skatingspeed-section-content") as [H|H]; auto.
  - destruct (Hcase "#skatingdistance-section-content") as [H|H]; auto.
  - destruct (Hcase "#shotspeed-section-content") as [H|H]; auto.
  - destruct (Hcase "#shotlocation-section-content") as [H|H]; auto.
  - destruct (Hcase "#zonetime-section-content") as [H|H]; auto.
  - destruct (Hcase "#overview-section-content") as [H|H];
      [left; apply (A1 H) | right; apply (B1 H)].
Qed.

Lemma fragments_commute_witness :
  exists p1 p2,
    @parse_html_content sample_lib zonetime_markup "#zonetime-section-content" = Ok p1
    /\ @parse_html_content sample_lib list_chart_markup "#shotlocation-section-content"
       = Ok p2
    /\ merge_parsed_data (merge_parsed_data sample_aggregate p1) p2
       = merge_parsed_data (merge_parsed_data sample_aggregate p2) p1.
Proof.
  eexists. eexists. split; [reflexivity|]. split; [reflexivity|].
  apply (fragments_commute sample_lib sample_aggregate
           zonetime_markup "#zonetime-section-content" _
           list_chart_markup "#shotlocation-section-content" _ eq_refl eq_refl).
  discriminate.
Defined.

(** ** The table parsers, continued *)

(** What one row contributes, for any number of columns from two up. *)
Lemma parse_table_row_spec columns is_shot_speed row :
  (2 <= columns)%Z ->
  exists rows,
    parse_table_row columns is_shot_speed row = Ok rows
    /\ map stat_label rows
       = (if enough_cells columns row then [first_cell_text row] else [])
    /\ (columns <> 4%Z ->
        Forall (fun r => league_average r = None /\ percentile r = None) rows).
Proof.
  intros Hcol. unfold parse_table_row, enough_cells, first_cell_text.
  destruct (find_all ["td"; "th"] row) as [|c0 [|c1 rest]] eqn:E.
  - replace (columns <=? Z.of_nat (length []))%Z with false
      by (symmetry; apply Z.leb_gt; simpl; lia).
    eexists. split; [reflexivity|]. split; [reflexivity|constructor].
  - replace (columns <=? Z.of_nat (length [c0]))%Z with false
      by (symmetry; apply Z.leb_gt; simpl; lia).
    eexists. split; [reflexivity|]. split; [reflexivity|constructor].
  - destruct (columns <=? Z.of_nat (length (c0 :: c1 :: rest)))%Z eqn:Hlen.
    2: { eexists. split; [reflexivity|]. split; [reflexivity|constructor]. }
    destruct (columns =? 4)%Z eqn:H4.
    + apply Z.eqb_eq in H4. subst columns. apply Z.leb_le in Hlen.
      destruct rest as [|c2 [|c3 rest]]; try (simpl in Hlen; lia).
      eexists. split; [reflexivity|]. split; [reflexivity|]. intros; congruence.
    + eexists. split; [reflexivity|]. split; [reflexivity|].
      intros _. repeat constructor.
Qed.

(** X3: [parse_table] with two columns or more never raises: it gives one row
    for each [tr] of the table body that has at least [columns] cells, in
    document order, labelled by its first cell, and skips the other rows;
    with a number of columns other than four, the league average and the
    percentile of every row are absent. *)
Theorem parse_table_rows soup table tbody columns is_shot_speed :
  select_one [] table_hover soup = Some table ->
  find "tbody" table = Some tbody ->
  (2 <= columns)%Z ->
  exists rows,
    parse_table soup columns is_shot_speed = Ok rows
    /\ map stat_label rows
       = map first_cell_text
           (List.filter (enough_cells columns) (find_all ["tr"] tbody))
    /\ (columns <> 4%Z ->
        Forall (fun r => league_average r = None /\ percentile r = None) rows).
Proof.
  intros Ht Hb Hcol. unfold parse_table. rewrite Ht, Hb.
  destruct (mapM_ok_forall2
              (fun row rows =>
                 map stat_label rows
                 = (if enough_cells columns row then [first_cell_text row] else [])
                 /\ (columns <> 4%Z ->
                     Forall (fun r => league_average r = None /\ percentile r = None) rows))
              (parse_table_row columns is_shot_speed) (find_all ["tr"] tbody)
              (fun row => parse_table_row_spec columns is_shot_speed row Hcol))
    as (ys & -> & HQ).
  exists (concat ys). split; [reflexivity|].
  induction HQ as [|row rows l ys [Hl Hn] HQ [IH1 IH2]]; [split; [reflexivity|constructor]|].
  cbn [concat List.filter]. rewrite map_app, Hl, IH1. split.
  - destruct (enough_cells columns row); reflexivity.
  - intros Hne. apply Forall_app. split; [apply Hn|apply IH2]; exact Hne.
Qed.

Lemma parse_table_rows_witness :
  exists rows,
    parse_table zonetime_tree 2 false = Ok rows
    /\ map stat_label rows = ["Offensive Zone"]
    /\ Forall (fun r => league_average r = None /\ percentile r = None) rows.
Proof.
  destruct (parse_table_rows zonetime_tree _ _ 2 false eq_refl eq_refl)
    as (rows & H1 & H2 & H3); [lia|].
  exists rows. split; [exact H1|]. split; [exact H2|]. apply H3. lia.
Defined.

(** X4: below two columns the guard on the number of cells does not protect
    the reading of the second cell: a first row with fewer than two cells,
    but at least [columns] of them, makes [parse_table] raise [IndexError]. *)
Theorem parse_table_needs_two_columns soup table tbody row rest columns is_shot_speed :
  select_one [] table_hover soup = Some table ->
  find "tbody" table = Some tbody ->
  find_all ["tr"] tbody = row :: rest ->
  (columns <= Z.of_nat (length (find_all ["td"; "th"] row)))%Z ->
  (length (find_all ["td"; "th"] row) < 2)%nat ->
  parse_table soup columns is_shot_speed = Raise IndexError.
Proof.
  intros Ht Hb Hr Hlen Hfew. unfold parse_table. rewrite Ht, Hb, Hr.
  assert (Hrow : parse_table_row columns is_shot_speed row = Raise IndexError).
  { unfold parse_table_row. apply Z.leb_le in Hlen. rewrite Hlen.
    destruct (find_all ["td"; "th"] row) as [|c0 [|c1 cells]]; [reflexivity|reflexivity|].
    simpl in Hfew. lia. }
  cbn [mapM]. rewrite Hrow. reflexivity.
Qed.

Lemma parse_table_needs_two_columns_witness :
  parse_table bare_row_tree 0 false = Raise IndexError.
Proof.
  apply (parse_table_needs_two_columns bare_row_tree _ _ _ _ 0 false
           eq_refl eq_refl eq_refl).
  - simpl. lia.
  - simpl. lia.
Defined.

Lemma parse_zone_time_row_spec row :
  exists rows,
    parse_zone_time_row row = Ok rows
    /\ map stat_label rows
       = (if enough_cells 2 row then [first_cell_text row] else [])
    /\ Forall (fun r => league_average r = None /\ percentile r = None
                        /\ tooltip r = None) rows.
Proof.
  unfold parse_zone_time_row, enough_cells, first_cell_text.
  destruct (find_all ["td"; "th"] row) as [|c0 [|c1 rest]].
  - eexists. split; [reflexivity|]. split; [reflexivity|constructor].
  - eexists. split; [reflexivity|]. split; [reflexivity|constructor].
  - replace (2 <=? Z.of_nat (length (c0 :: c1 :: rest)))%Z with true
      by (symmetry; apply Z.leb_le; simpl length; lia).
    eexists. split; [reflexivity|]. split; [reflexivity|]. repeat constructor.
Qed.

(** X5: [parse_zone_time_table] never raises, and its rows carry a label and a
    player value only: league average, percentile and tooltip are absent.
    When the table is found, there is one row for each [tr] of its body
    with at least two cells. *)
Theorem parse_zone_time_rows soup :
  exists rows,
    parse_zone_time_table soup = Ok rows
    /\ Forall (fun r => league_average r = None /\ percentile r = None
                        /\ tooltip r = None) rows
    /\ (forall table tbody,
          select_one (fst zone_time_selector) (snd zone_time_selector) soup = Some table ->
          find "tbody" table = Some tbody ->
          map stat_label rows
          = map first_cell_text (List.filter (enough_cells 2) (find_all ["tr"] tbody))).
Proof.
  unfold parse_zone_time_table.
  destruct (select_one (fst zone_time_selector) (snd zone_time_selector) soup)
    as [table|] eqn:Hs.
  2: { exists []. split; [reflexivity|]. split; [constructor|]. intros; congruence. }
  destruct (find "tbody" table) as [tbody|] eqn:Hb.
  2: { exists []. split; [reflexivity|]. split; [constructor|].
       intros t b [= <-] Hb'. congruence. }
  destruct (mapM_ok_forall2
              (fun row rows =>
                 map stat_label rows
                 = (if enough_cells 2 row then [first_cell_text row] else [])
                 /\ Forall (fun r => league_average r = None /\ percentile r = None
                                     /\ tooltip r = None) rows)
              parse_zone_time_row (find_all ["tr"] tbody) parse_zone_time_row_spec)
    as (ys & -> & HQ).
  exists (concat ys). split; [reflexivity|].
  assert (H : Forall (fun r => league_average r = None /\ percentile r = None
                               /\ tooltip r = None) (concat ys)
              /\ map stat_label (concat ys)
                 = map first_cell_text
                     (List.filter (enough_cells 2) (find_all ["tr"] tbody))).
  { induction HQ as [|row rows l ys' [Hl Hn] HQ [IH1 IH2]]; [split; [constructor|reflexivity]|].
    cbn [concat List.filter]. rewrite map_app, Hl, IH2. split.
    - apply Forall_app. split; assumption.
    - destruct (enough_cells 2 row); reflexivity. }
  destruct H as [H1 H2]. split; [exact H1|].
  intros table' tbody' [= <-] Hb'. rewrite Hb in Hb'. injection Hb' as <-. exact H2.
Qed.

Lemma parse_zone_time_rows_witness :
  exists rows,
    parse_zone_time_table zonetime_tree = Ok rows
    /\ map stat_label rows = ["Offensive Zone"].
Proof.
  destruct (parse_zone_time_rows zonetime_tree) as (rows & H1 & _ & H3).
  exists rows. split; [exact H1|]. apply (H3 _ _ eq_refl eq_refl).
Defined.


(** ** Texts and numbers, continued *)

(** X6: in a text of ASCII characters, a character that cannot occur in a
    float literal, and that the generic parser does not remove (it is no
    white space, percent sign or comma), makes the value absent wherever it
    stands in the text: a unit after the number, a currency sign before it. *)
Theorem convert_to_float_foreign_char (text : string) (c : ascii) :
  is_ascii text = true ->
  has_char c text = true ->
  float_char c = false -> isspace c = false ->
  c <> "%"%char -> c <> ","%char ->
  convert_to_float text = None.
Proof.
  intros _ Hin Hf Hsp Hp Hc. unfold convert_to_float.
  destruct (float_of_str _) as [f|] eqn:E; [|reflexivity].
  apply (float_of_str_chars c _ f Hf) in E.
  unfold strip in E.
  rewrite (has_char_rstrip c isspace _ Hsp), (has_char_lstrip c isspace _ Hsp) in E.
  rewrite !has_char_remove in E by (apply Ascii.eqb_neq; assumption).
  congruence.
Qed.

Lemma convert_to_float_foreign_char_witness :
  is_ascii "22.91 mph" = true /\ convert_to_float "22.91 mph" = None.
Proof.
  split; [reflexivity|].
  apply (convert_to_float_foreign_char "22.91 mph" "m");
    [reflexivity | reflexivity | reflexivity | reflexivity
     | discriminate | discriminate].
Defined.

Lemma strip_head_clean s : head_clean (strip s).
Proof.
  unfold strip. destruct (lstrip_head isspace s) as [->|(c & r & -> & Hc)]; [exact I|].
  cbn [rstrip_with]. destruct (rstrip_with isspace r); rewrite ?Hc; exact Hc.
Qed.

Lemma strip_rstrip s : rstrip_with isspace (strip s) = strip s.
Proof. unfold strip. apply rstrip_rstrip. auto. Qed.

Lemma rstrip_app sp a b :
  b <> EmptyString -> rstrip_with sp b = b -> rstrip_with sp (a +:+ b) = a +:+ b.
Proof.
  intros Hne Hb. induction a as [|c a IH]; [exact Hb|].
  change (String c a +:+ b) with (String c (a +:+ b)).
  change (rstrip_with sp (String c (a +:+ b)))
    with (match rstrip_with sp (a +:+ b) with
          | EmptyString => if sp c then EmptyString else String c EmptyString
          | r' => String c r'
          end).
  rewrite IH.
  destruct (a +:+ b) eqn:E; [|reflexivity].
  destruct a as [|x a'];
    [change (b = EmptyString) in E | change (String x (a' +:+ b) = EmptyString) in E];
    congruence.
Qed.

Lemma joined_clean (l : list string) :
  Forall (fun t => t <> EmptyString /\ head_clean t /\ rstrip_with isspace t = t) l ->
  head_clean (fold_right String.append EmptyString l)
  /\ rstrip_with isspace (fold_right String.append EmptyString l)
     = fold_right String.append EmptyString l.
Proof.
  induction 1 as [|t l (Hne & Hh & Hr) _ [IH1 IH2]]; [split; [exact I|reflexivity]|].
  cbn [fold_right]. split.
  - destruct t; [congruence|exact Hh].
  - destruct (fold_right String.append EmptyString l) eqn:E.
    + rewrite append_empty_r. exact Hr.
    + apply rstrip_app; [discriminate|exact IH2].
Qed.

Lemma clean_strip s :
  head_clean s -> rstrip_with isspace s = s -> strip s = s.
Proof.
  intros Hh Hr. unfold strip.
  destruct s as [|c r]; [reflexivity|].
  cbn [lstrip_with]. simpl in Hh. rewrite Hh. exact Hr.
Qed.

(** The text of a cell has no white space at either end. *)
Lemma get_text_strip_clean n : strip (get_text_strip n) = get_text_strip n.
Proof.
  unfold get_text_strip.
  destruct (joined_clean
              (flat_map (fun d => match d with
                                  | Text s => match strip s with
                                              | EmptyString => []
                                              | t => [t]
                                              end
                                  | _ => []
                                  end) (descendants n))) as [H1 H2].
  { apply Forall_flat_map, Forall_forall. intros d _.
    destruct d as [s| |]; try constructor.
    pose proof (strip_head_clean s) as Hh. pose proof (strip_rstrip s) as Hr.
    destruct (strip s) eqn:E; constructor; [|constructor].
    split; [discriminate|]. split; assumption. }
  apply clean_strip; assumption.
Qed.

Lemma float_of_str_clean s :
  strip s = s ->
  float_of_str s
  = if has_char "_" s
    then if underscores_ok "000" s then float_literal (remove_char "_" s) else None
    else float_literal s.
Proof. intros E. rewrite <- E at 1. rewrite float_of_str_strip, E. reflexivity. Qed.

(** X7: on the text of a cell the generic and the strict parsers differ only
    through percent signs and commas: when the text has neither, both give
    the same result. *)
Theorem parsers_agree_on_clean_cells (cell : node) :
  has_char "%" (get_text_strip cell) = false ->
  has_char "," (get_text_strip cell) = false ->
  convert_to_float (get_text_strip cell) = safe_convert (get_text_strip cell).
Proof.
  intros Hp Hc. unfold convert_to_float, safe_convert.
  rewrite (remove_char_absent "%" _ Hp), (remove_char_absent "," _ Hc).
  rewrite get_text_strip_clean. reflexivity.
Qed.

Lemma parsers_agree_on_clean_cells_witness :
  convert_to_float (get_text_strip sample_cell) = safe_convert (get_text_strip sample_cell)
  /\ get_text_strip sample_cell = "84th".
Proof.
  split; [|reflexivity].
  apply parsers_agree_on_clean_cells; reflexivity.
Defined.

Lemma all_digits_no_char c s :
  all_digits s = true -> is_digit c = false -> has_char c s = false.
Proof.
  intros Hs Hc. induction s as [|d r IH]; [reflexivity|].
  simpl in *. apply andb_true_iff in Hs as [Hd Hr]. rewrite (IH Hr), orb_false_r.
  destruct (Ascii.eqb_spec d c) as [->|]; [congruence|reflexivity].
Qed.

Lemma all_digits_rstrip sp s :
  (forall c, is_digit c = true -> sp c = false) ->
  all_digits s = true -> rstrip_with sp s = s.
Proof.
  intros Hsp. induction s as [|d r IH]; [reflexivity|].
  simpl. intros [Hd Hr]%andb_true_iff. rewrite (IH Hr).
  destruct r; [rewrite (Hsp d Hd)|]; reflexivity.
Qed.

Lemma mk_finite_whole neg ds :
  mk_finite neg ds 0 = nearest_double neg (Z.of_N (digits_to_N ds)) 1.
Proof.
  unfold mk_finite, of_decimal. change (0 <=? 0)%Z with true.
  cbv beta iota. rewrite Z.pow_0_r, Z.mul_1_r. reflexivity.
Qed.

(** X8: a non-empty text of decimal digits always parses, with either parser:
    the value is the double nearest to the whole number the digits spell (a
    half goes to the even neighbour, and a number beyond the range of the
    doubles gives infinity). *)
Theorem digits_parse (s : string) :
  s <> EmptyString -> all_digits s = true ->
  convert_to_float s = Some (nearest_double false (Z.of_N (digits_to_N (digits_of s))) 1)
  /\ safe_convert s = Some (nearest_double false (Z.of_N (digits_to_N (digits_of s))) 1).
Proof.
  intros Hne Hs. rewrite <- mk_finite_whole.
  assert (Hfloat : float_of_str s = Some (mk_finite false (digits_of s) 0)).
  { destruct s as [|d r]; [congruence|].
    pose proof Hs as [Hd Hr]%andb_true_iff.
    destruct (digit_facts d Hd) as (Hsp & Hcsp & _ & _ & Hu & Hm & Hp & Hi & Hn).
    unfold float_of_str. cbn [lstrip_with]. rewrite Hcsp.
    rewrite (all_digits_rstrip c_isspace _ (fun c H => proj1 (proj2 (digit_facts c H))) Hs).
    rewrite (all_digits_no_char "_" _ Hs eq_refl).
    unfold float_literal.
    assert (Hsign : take_sign (String d r) = (false, String d r)).
    { unfold take_sign. apply Ascii.eqb_neq in Hm, Hp.
      destruct d as [[] [] [] [] [] [] [] []]; try reflexivity; congruence. }
    rewrite Hsign. cbn [lower String.eqb]. rewrite Hi, Hn. cbn [orb].
    unfold parse_decimal. rewrite (all_digits_span _ Hs).
    rewrite app_nil_r. reflexivity. }
  split; [|exact Hfloat].
  unfold convert_to_float.
  rewrite (remove_char_absent "%" s (all_digits_no_char "%" s Hs eq_refl)).
  rewrite (remove_char_absent "," s (all_digits_no_char "," s Hs eq_refl)).
  rewrite clean_strip; [exact Hfloat| |].
  - destruct s as [|d r]; [exact I|]. simpl in Hs. apply andb_true_iff in Hs as [Hd _].
    apply (digit_facts d Hd).
  - apply all_digits_rstrip; [|exact Hs]. intros c H. apply (digit_facts c H).
Qed.

Lemma digits_parse_witness :
  (convert_to_float "100" = Some (float_of_Z 100)
   /\ safe_convert "100" = Some (float_of_Z 100))
  /\ (convert_to_float "9007199254740993" = Some (float_of_Z 9007199254740992)
      /\ safe_convert "9007199254740993" = Some (float_of_Z 9007199254740992)).
Proof.
  split.
  - apply (digits_parse "100"); [discriminate|reflexivity].
  - apply (digits_parse "9007199254740993"); [discriminate|reflexivity].
Defined.


(** ** The radar chart *)

(** X9: the chart is absent, and nothing is raised, when the chart element or
    its attribute is missing, when the attribute does not decode, and when
    it decodes to an object without [chartData] or with a [chartData] that
    counts as false (an empty list). *)
Theorem parse_radar_chart_absent (L : HtmlLib) (soup : node) :
  (radar_chart_text soup = None -> parse_radar_chart soup = Ok None)
  /\ (forall text,
        radar_chart_text soup = Some text ->
        (loads (unescape text) = None -> parse_radar_chart soup = Ok None)
        /\ (forall members,
              loads (unescape text) = Some (JObj members) ->
              truthy (get_or members "chartData" JNull) = false ->
              parse_radar_chart soup = Ok None)).
Proof.
  unfold radar_chart_text, parse_radar_chart.
  destruct (find_with_id _ _ soup) as [chart_el|]; [|split; [reflexivity|discriminate]].
  destruct (attr "data-json" chart_el) as [text0|]; [|split; [reflexivity|discriminate]].
  split; [discriminate|]. intros text [= <-]. split.
  - intros ->. reflexivity.
  - intros members -> Hv. unfold get_or in Hv. cbn.
    destruct (dict_get "chartData" members) as [v|]; [|reflexivity].
    cbn. rewrite Hv. reflexivity.
Qed.

Lemma parse_radar_chart_absent_witness :
  @parse_radar_chart sample_lib empty_object_chart_tree = Ok None.
Proof.
  destruct (parse_radar_chart_absent sample_lib empty_object_chart_tree) as [_ H].
  destruct (H "{}" eq_refl) as [_ H'].
  apply (H' [] eq_refl eq_refl).
Defined.

(** X10: a chart payload that decodes to [None], a [bool] or a number makes
    [parse_radar_chart] raise [TypeError]: the membership test on it is
    outside the [try]. *)
Theorem parse_radar_chart_scalar (L : HtmlLib) (soup : node) (text : string) (v : json) :
  radar_chart_text soup = Some text ->
  loads (unescape text) = Some v ->
  is_scalar v = true ->
  parse_radar_chart soup = Raise TypeError.
Proof.
  unfold radar_chart_text, parse_radar_chart.
  destruct (find_with_id _ _ soup) as [chart_el|]; [|discriminate].
  intros -> -> Hv. destruct v; try discriminate Hv; reflexivity.
Qed.

Lemma parse_radar_chart_scalar_witness :
  @parse_radar_chart sample_lib radar_tree = Raise TypeError.
Proof.
  apply (parse_radar_chart_scalar sample_lib radar_tree "5" (JInt 5));
    reflexivity.
Defined.

(** X11: one item of the chart.  A missing value counts as 0 and a text that is
    not a number as 0.0; a value that is [None], a list or an object makes
    the item, and with it the whole extraction, raise [TypeError]; an item
    that is not an object raises [AttributeError].  Labels default to the
    empty text. *)
Theorem parse_radar_item_values :
  (forall d,
     dict_get "value" d = None ->
     parse_radar_item (JObj d)
     = Ok {| axis_label := get_or d "axisLabel" (JStr "");
             value := Finite false 0 0;
             value_label := get_or d "valueLabel" (JStr "") |})
  /\ (forall d s,
        dict_get "value" d = Some (JStr s) ->
        float_of_str s = None ->
        parse_radar_item (JObj d)
        = Ok {| axis_label := get_or d "axisLabel" (JStr "");
                value := Finite false 0 0;
                value_label := get_or d "valueLabel" (JStr "") |})
  /\ (forall d v,
        dict_get "value" d = Some v ->
        (v = JNull \/ (exists l, v = JArr l) \/ (exists m, v = JObj m)) ->
        parse_radar_item (JObj d) = Raise TypeError)
  /\ (forall it, (forall d, it <> JObj d) -> parse_radar_item it = Raise AttributeError).
Proof.
  unfold parse_radar_item, get_or. repeat split.
  - intros d E. cbn. rewrite E. reflexivity.
  - intros d s E Hs. cbn. rewrite E. cbn. rewrite Hs. reflexivity.
  - intros d v E [-> | [[l ->] | [m ->]]]; cbn; rewrite E; reflexivity.
  - intros it Hit. destruct it; try reflexivity. exfalso. eapply Hit. reflexivity.
Qed.

Lemma parse_radar_item_values_witness :
  parse_radar_item sample_radar_item
  = Ok {| axis_label := JStr "Speed"; value := Finite false 0 0; value_label := JStr "" |}
  /\ parse_radar_item (JObj [("value", JNull)]) = Raise TypeError
  /\ parse_radar_item (JObj []) 
     = Ok {| axis_label := JStr ""; value := Finite false 0 0; value_label := JStr "" |}
  /\ parse_radar_item (JStr "x") = Raise AttributeError.
Proof.
  destruct parse_radar_item_values as (H1 & H2 & H3 & H4).
  split; [apply (H2 [("axisLabel", JStr "Speed"); ("value", JStr "n/a")] "n/a");
          reflexivity|].
  split; [apply (H3 [("value", JNull)] JNull); [reflexivity|left; reflexivity]|].
  split; [apply (H1 []); reflexivity|].
  apply H4. discriminate.
Defined.

(** ** The session driver, continued *)

Section DriverMore.
Context {L : HtmlLib}.

Lemma sent_handle_text_message self data_str ws :
  sent (_handle_text_message self data_str ws).1.2 = sent ws.
Proof.
  unfold _handle_text_message.
  destruct (loads data_str) as [data|]; [|reflexivity].
  destruct (get data "type" JNull) as [msg_type|]; [|reflexivity].
  destruct (match msg_type with JStr s => String.eqb s "html" | _ => false end);
    [|reflexivity].
  destruct (html_fields data) as [[html_content target]|]; [|reflexivity].
  destruct (bool_decide _); [destruct (bool_decide _); [reflexivity|]|];
    destruct (parse_segment html_content target); reflexivity.
Qed.

Lemma sent_listen inbox : forall self ws,
  sent (listen self ws inbox).1.2 = sent ws.
Proof.
  induction inbox as [|msg rest IH]; intros self ws; cbn [listen]; [reflexivity|].
  destruct (iteration_stops ws msg); [reflexivity|].
  destruct (type msg); try apply IH; try reflexivity.
  pose proof (sent_handle_text_message self (client.data msg) ws) as Hs.
  destruct (_handle_text_message self (client.data msg) ws) as [[self' ws'] r].
  cbn in Hs. destruct r; [|exact Hs]. rewrite IH. exact Hs.
Qed.

Lemma sent_fold_send msgs : forall ws,
  sent (fold_left send_json msgs ws) = sent ws ++ msgs.
Proof.
  induction msgs as [|m msgs IH]; intros ws; cbn [fold_left].
  - rewrite app_nil_r. reflexivity.
  - rewrite IH. cbn. rewrite <- app_assoc. reflexivity.
Qed.

Lemma sent_connect_and_communicate self player_id inbox :
  sent (connect_and_communicate self player_id inbox).1.2
  = initial_message player_id :: _generate_subsequent_messages player_id.
Proof.
  unfold connect_and_communicate. rewrite sent_listen, sent_fold_send. reflexivity.
Qed.

(** X14: whatever the remote side delivers, a session sends the same nine
    requests, in the same order, before it listens and none after: the
    handshake, then the two profile loads and the six section loads; each
    is an action on the URI of the player. *)
Theorem requests_fixed self player_id inbox :
  sent (connect_and_communicate self player_id inbox).1.2
  = initial_message player_id :: _generate_subsequent_messages player_id
  /\ length (sent (connect_and_communicate self player_id inbox).1.2) = 9
  /\ Forall (fun msg => exists action data, msg = action_message player_id action data)
       (sent (connect_and_communicate self player_id inbox).1.2).
Proof.
  rewrite sent_connect_and_communicate. split; [reflexivity|]. split; [reflexivity|].
  repeat constructor; eexists; eexists; reflexivity.
Qed.

(** X15: every target a new client expects is asked for in every session: the
    six section loads name exactly the six expected targets. *)
Theorem expected_targets_requested cookies save self player_id inbox :
  expected_targets (__init__ cookies save)
  = list_to_set
      (omap request_target
         (drop 3 (sent (connect_and_communicate self player_id inbox).1.2))).
Proof.
  rewrite sent_connect_and_communicate.
  cbn. set_solver.
Qed.

(** X16: a text frame holding JSON that is not an object is not discarded: the
    handler raises [AttributeError] on it, which ends the session there,
    with the client as it was. *)
Theorem non_object_frame_raises self data_str ws data rest :
  loads data_str = Some data ->
  (forall members, data <> JObj members) ->
  _handle_text_message self data_str ws = (self, ws, Raise AttributeError)
  /\ (closed ws = false ->
      listen self ws (text_message data_str :: rest) = (self, ws, Raise AttributeError)).
Proof.
  intros Hl Hd.
  assert (H : _handle_text_message self data_str ws = (self, ws, Raise AttributeError)).
  { unfold _handle_text_message. rewrite Hl.
    destruct data; try reflexivity. exfalso. eapply Hd. reflexivity. }
  split; [exact H|]. intros Hc. cbn [listen]. unfold iteration_stops.
  rewrite Hc. cbn. rewrite H. reflexivity.
Qed.

(** X17: an html frame whose target is expected and does not complete the set,
    and whose extraction succeeds: the target is recorded, the payload is
    merged into the aggregate, and the socket is left open. *)
Theorem expected_frame_merged self data_str ws data html target p :
  loads data_str = Some data ->
  get data "type" JNull = Ok (JStr "html") ->
  html_fields data = Ok (JStr html, target) ->
  target ∈ expected_targets self ->
  ~ expected_targets self ⊆ {[ target ]} ∪ received_targets self ->
  parse_html_content html target = Ok p ->
  _handle_text_message self data_str ws
  = (set_parsed_data (add_received self target)
       (merge_parsed_data (_parsed_data self) p), ws, Ok tt).
Proof.
  intros Hl Ht Hf Hin Hnot Hp.
  rewrite (handle_html_frame self data_str ws data (JStr html) target Hl Ht Hf).
  rewrite (bool_decide_eq_true_2 _ Hin), (bool_decide_eq_false_2 _ Hnot).
  cbn [parse_segment]. rewrite Hp. reflexivity.
Qed.

(** X18: when the extraction raises on such a frame, the exception leaves the
    handler and ends the session; the target is recorded all the same and
    the aggregate is untouched. *)
Theorem failed_extraction_recorded self data_str ws data html target e rest :
  loads data_str = Some data ->
  get data "type" JNull = Ok (JStr "html") ->
  html_fields data = Ok (JStr html, target) ->
  target ∈ expected_targets self ->
  ~ expected_targets self ⊆ {[ target ]} ∪ received_targets self ->
  parse_html_content html target = Raise e ->
  _handle_text_message self data_str ws = (add_received self target, ws, Raise e)
  /\ (closed ws = false ->
      listen self ws (text_message data_str :: rest)
      = (add_received self target, ws, Raise e)).
Proof.
  intros Hl Ht Hf Hin Hnot Hp.
  assert (H : _handle_text_message self data_str ws
              = (add_received self target, ws, Raise e)).
  { rewrite (handle_html_frame self data_str ws data (JStr html) target Hl Ht Hf).
    rewrite (bool_decide_eq_true_2 _ Hin), (bool_decide_eq_false_2 _ Hnot).
    cbn [parse_segment]. rewrite Hp. reflexivity. }
  split; [exact H|]. intros Hc. cbn [listen]. unfold iteration_stops.
  rewrite Hc. cbn. rewrite H. reflexivity.
Qed.

Lemma unknown_target_empty html target :
  target ∉ expected_targets fresh_client ->
  parse_html_content html target = Ok empty_data.
Proof.
  intros Hout. unfold parse_html_content.
  repeat match goal with
         | |- context [String.eqb target ?s] =>
             destruct (String.eqb_spec target s) as [->|?];
             [exfalso; apply Hout; unfold fresh_client; cbn; set_solver|]
         end.
  reflexivity.
Qed.

Lemma merge_empty existing : merge_parsed_data existing empty_data = existing.
Proof. apply ParsedEdgeData_eq; autorewrite with merge_slots; reflexivity. Qed.

Lemma set_parsed_data_same self : set_parsed_data self (_parsed_data self) = self.
Proof. destruct self. reflexivity. Qed.

(** X19: on a client with the expected targets of [__init__], an html frame
    for any other target changes nothing: its payload is empty, the target
    is not recorded, the socket stays as it is. *)
Theorem unexpected_frame_ignored self data_str ws data html target :
  expected_targets self = expected_targets fresh_client ->
  loads data_str = Some data ->
  get data "type" JNull = Ok (JStr "html") ->
  html_fields data = Ok (JStr html, target) ->
  target ∉ expected_targets self ->
  _handle_text_message self data_str ws = (self, ws, Ok tt).
Proof.
  intros He Hl Ht Hf Hout.
  rewrite (handle_html_frame self data_str ws data (JStr html) target Hl Ht Hf).
  rewrite (bool_decide_eq_false_2 _ Hout). cbn [parse_segment].
  rewrite He in Hout. rewrite (unknown_target_empty html target Hout).
  unfold _merge_parsed_data. rewrite merge_empty, set_parsed_data_same. reflexivity.
Qed.

Lemma stale_handle_text_message self data_str ws :
  stale self ->
  stale (_handle_text_message self data_str ws).1.1
  /\ _parsed_data (_handle_text_message self data_str ws).1.1 = _parsed_data self.
Proof.
  intros [He Hall]. split.
  { destruct (handle_text_message_grows self data_str ws) as (E & Hsub & _).
    unfold stale. rewrite E. split; [exact He|]. set_solver. }
  unfold _handle_text_message.
  destruct (loads data_str) as [data|]; [|reflexivity].
  destruct (get data "type" JNull) as [msg_type|]; [|reflexivity].
  destruct (match msg_type with JStr s => String.eqb s "html" | _ => false end);
    [|reflexivity].
  destruct (html_fields data) as [[html_content target]|]; [|reflexivity].
  destruct (bool_decide (target ∈ expected_targets self)) eqn:Hin.
  - rewrite bool_decide_eq_true_2 by (cbn; set_solver). reflexivity.
  - apply bool_decide_eq_false in Hin. rewrite He in Hin.
    destruct html_content; try reflexivity. cbn [parse_segment].
    rewrite (unknown_target_empty _ target Hin). cbn.
    apply merge_empty.
Qed.

Lemma stale_listen inbox : forall self ws,
  stale self -> _parsed_data (listen self ws inbox).1.1 = _parsed_data self.
Proof.
  induction inbox as [|msg rest IH]; intros self ws Hs; cbn [listen]; [reflexivity|].
  destruct (iteration_stops ws msg); [reflexivity|].
  destruct (type msg); try (apply IH; exact Hs); try reflexivity.
  destruct (stale_handle_text_message self (client.data msg) ws Hs) as [Hs' Hd].
  destruct (_handle_text_message self (client.data msg) ws) as [[self' ws'] r].
  cbn in Hs', Hd. destruct r; [|exact Hd].
  rewrite (IH self' ws' Hs'). exact Hd.
Qed.

(** X21: a client that has received all its expected targets gets nothing more:
    whatever a further session delivers, the aggregate after it is the
    aggregate before it; after [reset_parsed_data], which leaves the target
    sets alone, a further session returns the empty aggregate. *)
Theorem stale_session_keeps_aggregate self player_id inbox :
  stale self ->
  get_parsed_data (connect_and_communicate self player_id inbox).1.1
  = get_parsed_data self
  /\ get_parsed_data
       (connect_and_communicate (reset_parsed_data self) player_id inbox).1.1
     = empty_data.
Proof.
  intros Hs. unfold connect_and_communicate, get_parsed_data.
  split; (rewrite stale_listen; [reflexivity|exact Hs]).
Qed.

Lemma keeps_filled_refl a : keeps_filled a a.
Proof. unfold keeps_filled. tauto. Qed.

Lemma keeps_filled_trans a b c : keeps_filled a b -> keeps_filled b c -> keeps_filled a c.
Proof. unfold keeps_filled. tauto. Qed.

Lemma keeps_filled_merge a s : keeps_filled a (merge_parsed_data a s).
Proof.
  unfold keeps_filled. autorewrite with merge_slots. repeat split.
  - destruct (nonempty (overview_section s)) eqn:E; auto.
  - destruct (nonempty (skating_speed_section s)) eqn:E; auto.
  - destruct (nonempty (skating_distance_section s)) eqn:E; auto.
  - destruct (nonempty (shot_speed_section s)) eqn:E; auto.
  - destruct (shot_location_truthy (shot_location_section s)) eqn:E; auto.
  - destruct (nonempty (zonetime_section s)) eqn:E; auto.
  - destruct (radar_chart s); [discriminate|auto].
Qed.

Lemma keeps_filled_handle self data_str ws :
  keeps_filled (_parsed_data self) (_parsed_data (_handle_text_message self data_str ws).1.1).
Proof.
  unfold _handle_text_message.
  destruct (loads data_str) as [data|]; [|apply keeps_filled_refl].
  destruct (get data "type" JNull) as [msg_type|]; [|apply keeps_filled_refl].
  destruct (match msg_type with JStr s => String.eqb s "html" | _ => false end);
    [|apply keeps_filled_refl].
  destruct (html_fields data) as [[html_content target]|]; [|apply keeps_filled_refl].
  destruct (bool_decide _); [destruct (bool_decide _); [apply keeps_filled_refl|]|];
    destruct (parse_segment html_content target); cbn;
    solve [apply keeps_filled_refl | apply keeps_filled_merge].
Qed.

Lemma keeps_filled_listen inbox : forall self ws,
  keeps_filled (_parsed_data self) (_parsed_data (listen self ws inbox).1.1).
Proof.
  induction inbox as [|msg rest IH]; intros self ws; cbn [listen];
    [apply keeps_filled_refl|].
  destruct (iteration_stops ws msg); [apply keeps_filled_refl|].
  destruct (type msg); try apply IH; try apply keeps_filled_refl.
  pose proof (keeps_filled_handle self (client.data msg) ws) as Hk.
  destruct (_handle_text_message self (client.data msg) ws) as [[self' ws'] r].
  cbn in Hk. destruct r; [|exact Hk].
  eapply keeps_filled_trans; [exact Hk|apply IH].
Qed.

(** X22: a session never empties a slot of the aggregate: a slot that is
    filled before the session is filled after it, however the session ends. *)
Theorem session_keeps_filled self player_id inbox :
  keeps_filled (get_parsed_data self)
    (get_parsed_data (connect_and_communicate self player_id inbox).1.1).
Proof.
  unfold connect_and_communicate, get_parsed_data.
  exact (keeps_filled_listen inbox (set_subsequent_sent self true) _).
Qed.

End DriverMore.


Lemma non_object_frame_raises_witness :
  @listen sample_lib fresh_client open_socket
    [ text_message "[]"; text_message (html_frame "#zonetime-section-content" "") ]
  = (fresh_client, open_socket, Raise AttributeError).
Proof.
  apply (non_object_frame_raises (L := sample_lib) fresh_client "[]" open_socket
           (JArr []) _ eq_refl); [discriminate|reflexivity].
Defined.

Lemma expected_frame_merged_witness :
  @_handle_text_message sample_lib fresh_client
    (html_frame "#zonetime-section-content" zonetime_markup) open_socket
  = (set_parsed_data (add_received fresh_client "#zonetime-section-content")
       (merge_parsed_data empty_data
          (set_zonetime_section empty_data
             [ {| stat_label := "Offensive Zone";
                  player_value := Some (decimal 498 (-1));
                  league_average := None; percentile := None; tooltip := None |} ])),
     open_socket, Ok tt).
Proof.
  refine (expected_frame_merged (L := sample_lib) fresh_client
            (html_frame "#zonetime-section-content" zonetime_markup) open_socket _
            zonetime_markup "#zonetime-section-content" _
            eq_refl eq_refl eq_refl _ _ eq_refl);
    refine (bool_decide_unpack _ _); vm_compute; exact I.
Defined.

Lemma failed_extraction_recorded_witness :
  @_handle_text_message sample_lib fresh_client
    (html_frame "#overview-section-content" radar_markup) open_socket
  = (add_received fresh_client "#overview-section-content", open_socket, Raise TypeError).
Proof.
  refine (proj1 (failed_extraction_recorded (L := sample_lib) fresh_client
                   (html_frame "#overview-section-content" radar_markup) open_socket _
                   radar_markup "#overview-section-content" TypeError []
                   eq_refl eq_refl eq_refl _ _ eq_refl));
    refine (bool_decide_unpack _ _); vm_compute; exact I.
Defined.

Lemma unexpected_frame_ignored_witness :
  @_handle_text_message sample_lib five_received
    (html_frame "#profile-section" zonetime_markup) open_socket
  = (five_received, open_socket, Ok tt).
Proof.
  refine (unexpected_frame_ignored (L := sample_lib) five_received
            (html_frame "#profile-section" zonetime_markup) open_socket _
            zonetime_markup "#profile-section" eq_refl eq_refl eq_refl eq_refl _).
  refine (bool_decide_unpack _ _). vm_compute. exact I.
Defined.

Lemma stale_session_keeps_aggregate_witness :
  get_parsed_data
    (@connect_and_communicate sample_lib six_received "8478402"
       [ text_message (html_frame "#zonetime-section-content" zonetime_markup) ]).1.1
  = empty_data.
Proof.
  assert (Hs : stale six_received).
  { split; [reflexivity|]. refine (bool_decide_unpack _ _). vm_compute. exact I. }
  rewrite (proj1 (stale_session_keeps_aggregate (L := sample_lib) six_received
                    "8478402" _ Hs)).
  reflexivity.
Defined.


(** ** The radar chart, continued *)

Lemma mapM_ok_on {A B} (P : A -> Prop) (Q : list A -> list B -> Prop)
    (f : A -> result B) (g : A -> B) :
  Q [] [] ->
  (forall x l ys, P x -> Q l ys -> f x = Ok (g x) /\ Q (x :: l) (g x :: ys)) ->
  forall l, Forall P l -> exists ys, mapM f l = Ok ys /\ Q l ys.
Proof.
  intros Hnil Hcons l Hl. induction Hl as [|x l Hx _ (ys & IH & HQ)].
  - exists []. split; [reflexivity|exact Hnil].
  - destruct (Hcons x l ys Hx HQ) as [Hf HQ']. exists (g x :: ys).
    cbn [mapM]. rewrite Hf. cbn. rewrite IH. split; [reflexivity|exact HQ'].
Qed.

Lemma parse_radar_item_ok d :
  convertible (get_or d "value" (JInt 0)) = true ->
  parse_radar_item (JObj d) = Ok (radar_item_of d).
Proof.
  unfold parse_radar_item, radar_item_of, item_value, get_or. cbn.
  destruct (dict_get "value" d) as [v|]; [|reflexivity].
  intros Hv. destruct v; try discriminate Hv; cbn in *.
  - reflexivity.
  - rewrite Hv. reflexivity.
  - reflexivity.
  - destruct (float_of_str s); reflexivity.
Qed.

(** X12: a well-formed chart payload: an object whose [chartData] is a list
    beginning with an object, the [data] of which is a list of objects with
    convertible values.  The chart is then present; only the first series is
    read, the others are ignored; there is one item for each entry of its
    [data], in order, with the labels of the entry (the empty text when
    missing); the configuration is the payload's [config], or the empty
    object. *)
Theorem parse_radar_chart_items (L : HtmlLib) soup text members first others its :
  radar_chart_text soup = Some text ->
  loads (unescape text) = Some (JObj members) ->
  dict_get "chartData" members = Some (JArr (JObj first :: others)) ->
  get_or first "data" (JArr []) = JArr its ->
  Forall well_formed_item its ->
  exists items,
    parse_radar_chart soup
    = Ok (Some {| config := get_or members "config" (JObj []);
                  data_models.data := items |})
    /\ items_of its items.
Proof.
  unfold radar_chart_text, parse_radar_chart.
  destruct (find_with_id _ _ soup) as [chart_el|]; [|discriminate].
  intros -> -> Hc Hd Hits.
  destruct (mapM_ok_on well_formed_item items_of parse_radar_item
              (fun it => match it with
                         | JObj d => radar_item_of d
                         | _ => radar_item_of []
                         end)
              items_of_nil) with (l := its) as (items & Hm & Hitems).
  { intros x l ys (d & -> & Hv) HQ. split; [apply parse_radar_item_ok, Hv|].
    constructor. exact HQ. }
  { exact Hits. }
  exists items. split; [|exact Hitems].
  cbn -[mapM parse_radar_item]. rewrite Hc. cbn -[mapM parse_radar_item].
  unfold get_or in Hd.
  destruct (dict_get "data" first) as [v|]; [subst v|injection Hd as <-];
    cbn -[mapM parse_radar_item]; rewrite Hm; reflexivity.
Qed.

Lemma parse_radar_chart_items_witness :
  @parse_radar_chart sample_lib speed_chart_tree
  = Ok (Some {| config := JObj [("levels", JInt 4); ("maxValue", JInt 100)];
                data_models.data :=
                  [ {| axis_label := JStr "Top Skating Speed (mph)";
                       value := float_of_Z 84;
                       value_label := JInt 84 |} ] |}).
Proof.
  destruct (parse_radar_chart_items sample_lib speed_chart_tree speed_chart_payload
              _ _ _ _ eq_refl eq_refl eq_refl eq_refl) as (items & H & Hitems).
  { repeat constructor. eexists. split; reflexivity. }
  rewrite H. inversion Hitems as [|d its items' Hrest]; subst.
  inversion Hrest; subst. reflexivity.
Defined.

(** ** The shot-location payload *)

(** X13: when the chart payload of a shot-location fragment holds a
    [chartData], the section is that value whatever its kind, as long as it
    has a length (a list, a text, an object); a [chartData] that is [None],
    a [bool] or a number makes the extraction raise [TypeError], in the
    debug line that takes the length of the section. *)
Theorem shot_location_payload_kinds (L : HtmlLib) (html : string) members v :
  embedded_chart_payload (BeautifulSoup (unescape html)) = Some members ->
  dict_get "chartData" members = Some v ->
  parse_html_content html "#shotlocation-section-content"
  = if is_scalar v then Raise TypeError
    else Ok (set_shot_location_section empty_data (ChartPayload v)).
Proof.
  unfold embedded_chart_payload, parse_html_content.
  cbn [String.eqb Ascii.eqb Bool.eqb].
  destruct (find "sl-webc-shot-chart" _) as [shot_chart|]; [|discriminate].
  destruct (attr "data-json" shot_chart) as [text|]; [|discriminate].
  destruct (loads (unescape text)) as [data|]; [|discriminate].
  destruct data; try discriminate. intros [= ->] Hv.
  cbn. rewrite Hv. destruct v; reflexivity.
Qed.

Lemma shot_location_payload_kinds_witness :
  @parse_html_content sample_lib scalar_chart_markup "#shotlocation-section-content"
  = Raise TypeError
  /\ @parse_html_content sample_lib list_chart_markup "#shotlocation-section-content"
     = Ok (set_shot_location_section empty_data (ChartPayload (JArr [JInt 1; JInt 2]))).
Proof.
  split.
  - apply (shot_location_payload_kinds sample_lib scalar_chart_markup
             [("chartData", JInt 5)] (JInt 5) eq_refl eq_refl).
  - apply (shot_location_payload_kinds sample_lib list_chart_markup
             [("chartData", JArr [JInt 1; JInt 2])] (JArr [JInt 1; JInt 2])
             eq_refl eq_refl).
Defined.

(** ** Duplicate frames *)

Lemma merge_twice existing new :
  merge_parsed_data (merge_parsed_data existing new) new = merge_parsed_data existing new.
Proof.
  apply ParsedEdgeData_eq; autorewrite with merge_slots;
    repeat match goal with
           | |- context [if ?b then _ else _] => destruct b
           | |- context [match ?o with Some _ => _ | None => _ end] => destruct o
           end; reflexivity.
Qed.

Lemma client_eq (a b : EdgeNHLClient) :
  _cookies a = _cookies b -> _parsed_data a = _parsed_data b ->
  save_messages a = save_messages b -> subsequent_sent a = subsequent_sent b ->
  received_targets a = received_targets b -> expected_targets a = expected_targets b ->
  a = b.
Proof. destruct a, b; simpl; intros; congruence. Qed.

(** X20: a frame that arrives twice in a row: when the first arrival was
    recorded and merged without completing the set, the second is handled
    the same way and leaves the client exactly as the first left it. *)
Theorem duplicate_frame_harmless (L : HtmlLib) self data_str ws data html target p :
  loads data_str = Some data ->
  get data "type" JNull = Ok (JStr "html") ->
  html_fields data = Ok (JStr html, target) ->
  target ∈ expected_targets self ->
  ~ expected_targets self ⊆ {[ target ]} ∪ received_targets self ->
  parse_html_content html target = Ok p ->
  _handle_text_message (_handle_text_message self data_str ws).1.1 data_str ws
  = _handle_text_message self data_str ws.
Proof.
  intros Hl Ht Hf Hin Hnot Hp.
  rewrite (handle_html_frame self data_str ws data (JStr html) target Hl Ht Hf).
  rewrite (bool_decide_eq_true_2 _ Hin), (bool_decide_eq_false_2 _ Hnot).
  cbn [parse_segment]. rewrite Hp. cbn [fst].
  rewrite (handle_html_frame _ data_str ws data (JStr html) target Hl Ht Hf).
  cbn [parse_segment _merge_parsed_data set_parsed_data add_received
       expected_targets received_targets _parsed_data].
  rewrite (bool_decide_eq_true_2 _ Hin).
  rewrite bool_decide_eq_false_2 by set_solver.
  rewrite Hp. f_equal. f_equal.
  apply client_eq; cbn; try reflexivity.
  - apply merge_twice.
  - set_solver.
Qed.

Lemma duplicate_frame_harmless_witness :
  @_handle_text_message sample_lib
    (@_handle_text_message sample_lib fresh_client
       (html_frame "#zonetime-section-content" zonetime_markup) open_socket).1.1
    (html_frame "#zonetime-section-content" zonetime_markup) open_socket
  = @_handle_text_message sample_lib fresh_client
      (html_frame "#zonetime-section-content" zonetime_markup) open_socket.
Proof.
  refine (duplicate_frame_harmless sample_lib fresh_client
            (html_frame "#zonetime-section-content" zonetime_markup) open_socket _
            zonetime_markup "#zonetime-section-content" _
            eq_refl eq_refl eq_refl _ _ eq_refl);
    refine (bool_decide_unpack _ _); vm_compute; exact I.
Defined.
